(** * Case Tracker reminders: escalation and completion tracking

    A shallow embedding of the reminder logic of the Case Tracker Apps
    Script project (ContactReminders.js, SummaryReminders.js, Emails.js and
    the directory lookup of the contact-sheet helpers), of the loading of
    its global variables (GlobalVarsCache.js and the utilities file) and of
    the backup rows and the children list of the contact-sheet helpers,
    followed by the properties established about it.

    Conventions of the embedding.
    - A JavaScript [Date] is its time value, a number of milliseconds since
      the epoch, or Invalid Date ([None]).  Calendar fields are read in
      the script time zone, a [Zone]: the offset from UTC in force at each
      instant and the instant the host picks for a local clock reading, so
      that days of 23 and of 25 hours are covered.  Time values stay
      within the range of [Date].
    - A spreadsheet cell is a [Cell]: text, number, boolean or date, as
      [Range.getValues()] hands them over; a position past the end of a row
      array reads as [VUndefined].  Numbers are integers here.
    - Strings are byte strings; case mapping and trimming are the ASCII
      ones.
    - A JavaScript object used as a map is the finite map of its own
      properties; what its prototype adds ([__proto__], [hasOwnProperty])
      is written out where the code meets it.
    - Calls to [Logger.log] have no effect that the program can observe and
      are left out. *)

From stdpp Require Import base numbers option list strings pretty gmap.
From Stdlib Require Import ZArith Lia Ascii String.

Local Open Scope Z_scope.

(* ===================================================================== *)
(** ** Strings *)
(* ===================================================================== *)

Module Str.

Definition code (c : ascii) : nat := nat_of_ascii c.

Definition isUpper (c : ascii) : bool :=
  (65 <=? code c)%nat && (code c <=? 90)%nat.

Definition isLower (c : ascii) : bool :=
  (97 <=? code c)%nat && (code c <=? 122)%nat.

(** The character class [[A-Za-z]]. *)
Definition isAlpha (c : ascii) : bool := isUpper c || isLower c.

Definition lowerChar (c : ascii) : ascii :=
  if isUpper c then ascii_of_nat (code c + 32) else c.

(** [String.prototype.toLowerCase]. *)
Fixpoint toLowerCase (s : string) : string :=
  match s with
  | EmptyString => EmptyString
  | String c r => String (lowerChar c) (toLowerCase r)
  end.

(** The ASCII white space removed by [String.prototype.trim]: tab, line
    feed, vertical tab, form feed, carriage return and space.  The blanks
    outside ASCII that it removes too (U+00A0, U+FEFF and the like) are
    taken not to occur at the ends of the texts. *)
Definition isSpace (c : ascii) : bool :=
  ((9 <=? code c)%nat && (code c <=? 13)%nat) || (code c =? 32)%nat.

Fixpoint trimStart (s : string) : string :=
  match s with
  | EmptyString => EmptyString
  | String c r => if isSpace c then trimStart r else s
  end.

(** Drops the trailing white space: a character is kept when something
    that is kept follows it, or when it is not white space itself. *)
Fixpoint trimEnd (s : string) : string :=
  match s with
  | EmptyString => EmptyString
  | String c r =>
      match trimEnd r with
      | EmptyString => if isSpace c then EmptyString else String c EmptyString
      | r' => String c r'
      end
  end.

Definition trim (s : string) : string := trimEnd (trimStart s).

Definition isEmpty (s : string) : bool :=
  match s with EmptyString => true | _ => false end.

(** [s.includes(c)] for a one-character needle. *)
Fixpoint includesChar (c : ascii) (s : string) : bool :=
  match s with
  | EmptyString => false
  | String d r => Ascii.eqb c d || includesChar c r
  end.

(** [s.split(c)] for a one-character separator: the pieces between the
    separators, in order; never the empty list. *)
Fixpoint split (c : ascii) (s : string) : list string :=
  match s with
  | EmptyString => [EmptyString]
  | String d r =>
      if Ascii.eqb c d then EmptyString :: split c r
      else match split c r with
           | p :: ps => String d p :: ps
           | [] => [String d EmptyString]
           end
  end.

(** [xs.join(sep)]. *)
Fixpoint join (sep : string) (xs : list string) : string :=
  match xs with
  | [] => EmptyString
  | [x] => x
  | x :: rest => x +:+ sep +:+ join sep rest
  end.

Fixpoint allChars (p : ascii -> bool) (s : string) : bool :=
  match s with
  | EmptyString => true
  | String c r => p c && allChars p r
  end.

(** [stripSuffix suf s] is [Some p] when [s = p ++ suf]. *)
Fixpoint stripSuffix (suf s : string) : option string :=
  if String.eqb s suf then Some EmptyString
  else match s with
       | EmptyString => None
       | String c r => String c <$> stripSuffix suf r
       end.

(** [needle] occurs somewhere inside [s]. *)
Definition contains (needle s : string) : Prop :=
  exists pre post, s = pre +:+ needle +:+ post.

(** Two decimal digits, as the [MM] and [dd] fields of a date pattern. *)
Definition pad2 (n : Z) : string :=
  if n <? 10 then "0" +:+ pretty n else pretty n.

End Str.

(* ===================================================================== *)
(** ** Dates *)
(* ===================================================================== *)

Module JsDate.

Definition msPerDay : Z := 1000 * 60 * 60 * 24.

(** Days since 1970-01-01 of a proleptic Gregorian date, month 1..12. *)
Definition daysFromCivil (y m d : Z) : Z :=
  let y' := if m <=? 2 then y - 1 else y in
  let era := y' / 400 in
  let yoe := y' - era * 400 in
  let mp := if 2 <? m then m - 3 else m + 9 in
  let doy := (153 * mp + 2) / 5 + d - 1 in
  let doe := yoe * 365 + yoe / 4 - yoe / 100 + doy in
  era * 146097 + doe - 719468.

(** The inverse: year, month 1..12 and day of month of a day number. *)
Definition civilFromDays (z : Z) : Z * Z * Z :=
  let z' := z + 719468 in
  let era := z' / 146097 in
  let doe := z' - era * 146097 in
  let yoe := (doe - doe / 1460 + doe / 36524 - doe / 146096) / 365 in
  let doy := doe - (365 * yoe + yoe / 4 - yoe / 100) in
  let mp := (5 * doy + 2) / 153 in
  let d := doy - (153 * mp + 2) / 5 + 1 in
  let m := if mp <? 10 then mp + 3 else mp - 9 in
  ((if m <=? 2 then yoe + era * 400 + 1 else yoe + era * 400), m, d).

(** A time zone.  [offsetAt t] is the offset from UTC, in milliseconds,
    in force at the instant [t]; [utcOf l] is the instant the host picks
    for the local clock reading [l] (milliseconds since the local epoch),
    also where a clock change skips the reading or shows it twice. *)
Record Zone : Type := mkZone {
  offsetAt : Z -> Z;
  utcOf : Z -> Z
}.

(** A zone that keeps one offset all year. *)
Definition fixedZone (c : Z) : Zone :=
  {| offsetAt := fun _ => c; utcOf := fun l => l - c |}.

(** What it is for a zone to keep the offset [c]. *)
Definition fixedOffset (zone : Zone) (c : Z) : Prop :=
  (forall t, offsetAt zone t = c) /\ (forall l, utcOf zone l = l - c).

(** [new Date(year, ...)] reads a year from 0 to 99 as 1900 + year. *)
Definition fullYear (year : Z) : Z :=
  if (0 <=? year) && (year <=? 99) then 1900 + year else year.

Section Zone.

(** The script time zone. *)
Variable tzOffset : Zone.

(** The local clock reading at a time value. *)
Definition localTime (t : Z) : Z := t + offsetAt tzOffset t.

(** Local day number of a time value. *)
Definition localDay (t : Z) : Z := localTime t / msPerDay.

Definition getFullYear (t : Z) : Z := (civilFromDays (localDay t)).1.1.

(** 0-based month, as [Date.prototype.getMonth]. *)
Definition getMonth (t : Z) : Z := (civilFromDays (localDay t)).1.2 - 1.

Definition getDate (t : Z) : Z := (civilFromDays (localDay t)).2.

(** Day of the week, 0 = Sunday; 1970-01-01 was a Thursday. *)
Definition getDay (t : Z) : Z := (localDay t + 4) mod 7.

(** A time value is a local midnight when its local clock reads 00:00,
    as the value of a cell that holds a date without a time. *)
Definition atMidnight (t : Z) : Prop := localTime t mod msPerDay = 0.

(** [toDateString()] prints the weekday, month, day and year of the local
    date; two of them are equal exactly when the local days are, so the
    embedding keeps the day number in place of the text. *)
Definition toDateString (t : Z) : Z := localDay t.

(** [new Date(year, monthIndex, day)]: the instant of local midnight,
    with the month index carried into the year and the day counted from
    the first of the month (day 0 is the last day of the month before). *)
Definition ofYMD (year monthIndex day : Z) : Z :=
  utcOf tzOffset
    ((daysFromCivil (fullYear year + monthIndex / 12) (monthIndex mod 12 + 1) 1 + (day - 1))
     * msPerDay).

(** A copy of [t] after [setDate(getDate() + k)]: the local clock reading
    moved by [k] calendar days, the time of day kept, and the instant of
    that reading taken. *)
Definition addDays (t k : Z) : Z := utcOf tzOffset (localTime t + k * msPerDay).

(** [Utilities.formatDate(t, zone, "MM/dd/yyyy")], the zone being the
    script's. *)
Definition formatMMddyyyy (t : Z) : string :=
  Str.pad2 (getMonth t + 1) +:+ "/" +:+ Str.pad2 (getDate t) +:+ "/"
  +:+ pretty (getFullYear t).

End Zone.

(** [Math.floor(a / b)] and [Math.ceil(a / b)] on integers, [b > 0]. *)
Definition floorDiv (a b : Z) : Z := a / b.
Definition ceilDiv (a b : Z) : Z := - ((- a) / b).

End JsDate.

(* ===================================================================== *)
(** ** Cell values *)
(* ===================================================================== *)

(** What [Range.getValues()] yields for one cell; an empty cell is the
    empty text.  [VUndefined] is what indexing past the end of a row array
    gives. *)
Inductive Cell : Type :=
  | VString (s : string)
  | VNumber (n : Z)
  | VBoolean (b : bool)
  | VDate (t : Z)
  | VUndefined.

Definition Row : Type := list Cell.

(** [row[i]]. *)
Definition col (i : nat) (r : Row) : Cell := default VUndefined (r !! i).

(** Truthiness, as tested by [!x], [x && ...] and [x ? ... : ...]. *)
Definition truthy (c : Cell) : bool :=
  match c with
  | VString s => negb (Str.isEmpty s)
  | VNumber n => negb (n =? 0)
  | VBoolean b => b
  | VDate _ => true
  | VUndefined => false
  end.

(** An uncaught JavaScript exception ends the function that raised it and
    every caller up to the nearest [try]. *)
Inductive Result (A : Type) : Type :=
  | Ok (a : A)
  | Throw (msg : string).
Arguments Ok {A} a.
Arguments Throw {A} msg.

(** A message as handed to [GmailApp.sendEmail(recipient, subject, body,
    options)]: the comma-joined visible recipients, the subject, the
    comma-joined [bcc] option (empty when the option is not given) and the
    [htmlBody] option.  The plain body is always empty. *)
Record Mail : Type := mkMail {
  mailTo : string;
  mailSubject : string;
  mailBcc : string;
  mailHtml : string
}.

(** A tab of a spreadsheet: its name and its data range. *)
Record Sheet : Type := mkSheet {
  sheetName : string;
  sheetData : list Row
}.

(** Everything a run reads but does not change: the time zone, the
    host's date parsing and printing, the global variables loaded from the
    Variables tab, the tabs of the Automation Info spreadsheet and the
    behaviour of the mail service. *)
Record Env : Type := mkEnv {
  (** The script time zone. *)
  tzOffset : JsDate.Zone;
  (** [new Date(text)]: the time value, or [None] for Invalid Date. *)
  parseDate : string -> option Z;
  (** [Date.prototype.toString]. *)
  dateToString : Z -> string;
  (** [Date.prototype.toLocaleDateString]. *)
  toLocaleDateString : Z -> string;
  MAIN_WORKER_NAME : string;
  MAIN_WORKER_EMAIL : string;
  MAIN_SUPERVISOR_NAME : string;
  MAIN_SUPERVISOR_EMAIL : string;
  SSM_NAME : string;
  SSM_EMAIL : string;
  WORKER_OFFICE_EXTENSION : string;
  WORKER_CELL_NUMBER : string;
  CONTACT_COMPLETE_MONTHS : string;
  (** Whether [getGlobalVariables(false)] returns (it raises when the
      variables cannot be loaded from any tier). *)
  globalsLoad : bool;
  (** [automationInfoSS.getSheetByName(tab)], its data range. *)
  automationInfo : string -> option (list Row);
  (** Whether the [n]-th call of [GmailApp.sendEmail] (counted from 0)
      delivers the message; it raises otherwise. *)
  gmail : nat -> Mail -> bool
}.

Section Values.

Variable E : Env.

(** [String(x)], also what a template literal applies to [${x}]. *)
Definition toStr (c : Cell) : string :=
  match c with
  | VString s => s
  | VNumber n => pretty n
  | VBoolean b => if b then "true" else "false"
  | VDate t => dateToString E t
  | VUndefined => "undefined"
  end.

(** How [Array.prototype.join] prints an element: nothing for
    [undefined]. *)
Definition joinStr (c : Cell) : string :=
  match c with
  | VUndefined => EmptyString
  | _ => toStr c
  end.

(** [new Date(x)] for a cell value. *)
Definition newDate (c : Cell) : option Z :=
  match c with
  | VString s => parseDate E s
  | VNumber n => Some n
  | VBoolean b => Some (if b then 1 else 0)
  | VDate t => Some t
  | VUndefined => None
  end.

(** A number that may be [NaN], printed. *)
Definition showNum (n : option Z) : string :=
  match n with
  | Some z => pretty z
  | None => "NaN"
  end.

(** [a || b] on strings. *)
Definition orElse (a b : string) : string :=
  if Str.isEmpty a then b else a.

End Values.

(* ===================================================================== *)
(** ** Directory lookup *)
(* ===================================================================== *)

Module Directory.

Record WorkerInfo : Type := mkWorkerInfo {
  workerName : Cell;
  workerEmail : Cell;
  supervisorName : Cell;
  supervisorEmail : Cell;
  workerCounty : option Cell
}.

(** [headers.indexOf(title)]: the first position holding exactly that
    text, [None] standing for -1. *)
Fixpoint indexOf (title : string) (headers : Row) : option nat :=
  match headers with
  | [] => None
  | VString s :: rest =>
      if String.eqb s title then Some 0%nat else S <$> indexOf title rest
  | _ :: rest => S <$> indexOf title rest
  end.

(** [data[i][idx]], [idx] possibly -1. *)
Definition at_ (idx : option nat) (r : Row) : Cell :=
  match idx with
  | Some k => col k r
  | None => VUndefined
  end.

Definition tabsToSearch : list string :=
  ["CPSEmployeeInfo"; "Additional Workers Info"].

Section Lookup.

Variable E : Env.

(** The inner loop over the rows below the header.  [name.trim()] is
    only evaluated on a row whose name cell is truthy, and raises a
    TypeError there when [name] is not text. *)
Fixpoint scanTab (name : Cell) (nameIdx emailIdx supNameIdx supEmailIdx countyIdx : option nat)
    (rows : list Row) : Result (option WorkerInfo) :=
  match rows with
  | [] => Ok None
  | r :: rest =>
      if truthy (at_ nameIdx r) then
        match name with
        | VString n =>
            if String.eqb (Str.trim (toStr E (at_ nameIdx r))) (Str.trim n) then
              Ok (Some {| workerName := at_ nameIdx r;
                          workerEmail := at_ emailIdx r;
                          supervisorName := at_ supNameIdx r;
                          supervisorEmail := at_ supEmailIdx r;
                          workerCounty :=
                            match countyIdx with
                            | Some k => Some (col k r)
                            | None => None
                            end |})
            else scanTab name nameIdx emailIdx supNameIdx supEmailIdx countyIdx rest
        | _ => Throw "TypeError: name.trim is not a function"
        end
      else scanTab name nameIdx emailIdx supNameIdx supEmailIdx countyIdx rest
  end.

Fixpoint searchTabs (name : Cell) (tabs : list string) : Result (option WorkerInfo) :=
  match tabs with
  | [] => Ok None
  | tabName :: more =>
      match automationInfo E tabName with
      | None => searchTabs name more
      | Some data =>
          let headers := default [] (head data) in
          match scanTab name (indexOf "workerName" headers) (indexOf "workerEmail" headers)
                  (indexOf "supervisorName" headers) (indexOf "supervisorEmail" headers)
                  (indexOf "workerCounty" headers) (tail data) with
          | Ok None => searchTabs name more
          | found => found
          end
      end
  end.

(** [getWorkerInfoByName(name)]; [Ok None] is the [null] result. *)
Definition getWorkerInfoByName (name : Cell) : Result (option WorkerInfo) :=
  if negb (truthy name) then Ok None
  else searchTabs name tabsToSearch.

End Lookup.

End Directory.

(* ===================================================================== *)
(** ** Email bodies (Emails.js) *)
(* ===================================================================== *)

Module Emails.

(** A line break and a double quote inside a template. *)
Definition nl : string := String (ascii_of_nat 10) EmptyString.
Definition dq : string := String (ascii_of_nat 34) EmptyString.

Section Templates.

Variable E : Env.

Definition signatureImageUrl : string :=
  "https://drive.google.com/uc?export=view&id=14hutBSg3irYox5g8rMQJYUVYY1A885L1".

Definition getEmailSignatureHtml : string :=
  let officeExt := orElse (WORKER_OFFICE_EXTENSION E) "20657" in
  let cellNumber := orElse (WORKER_CELL_NUMBER E) "681-3833-4019" in
  String.concat "" [
    nl;
    "    <br/><br/>"; nl;
    "    <img src="; dq; signatureImageUrl; dq; " alt="; dq; "Department of Human Services Logo"; dq; " style="; dq; "width:200px; height:auto; margin-bottom:10px;"; dq; " />"; nl;
    "    "; nl;
    "    <p><strong>"; (orElse (MAIN_WORKER_NAME E) "Ellie Brewer"); "</strong><br/>"; nl;
    "    Child Protective Service Worker<br/>"; nl;
    "    Bureau for Social Services<br/>"; nl;
    "    Kanawha County Department of Health and Human Resources<br/>"; nl;
    "    4190 Washington St. W<br/>"; nl;
    "    Charleston, WV 25313</p>"; nl;
    "    "; nl;
    "    <p>P: 304-746-2360 ext. "; officeExt; " (Office)<br/>"; nl;
    "    P: "; cellNumber; " (Cell)<br/>"; nl;
    "    F: 304-558-0798</p>"; nl;
    "  "
  ].

(** Day before the due date and due date. *)
Definition getStandardSummaryReminderHtml (lastName summaryLink : string)
    (isDueToday : bool) : string :=
  let whenText := if isDueToday then "due today" else "due tomorrow" in
  String.concat "" [
    nl;
    "    <p>Hey "; (MAIN_WORKER_NAME E); ",</p>"; nl;
    "    <p>The "; lastName; " summary is "; whenText; ". A link to the summary is included below to remove a barrier to completing this task and help avoid distraction: </p>"; nl;
    "    <p><a href="; dq; summaryLink; dq; ">"; summaryLink; "</a></p>"; nl;
    "    <br></br>"; nl;
    "    "; getEmailSignatureHtml; nl;
    "  "
  ].

(** 1 to 6 days late. *)
Definition getSupervisorIncludedSummaryReminderHtml (lastName : string) (daysLate : Z)
    (followUpDate summaryLink : string) : string :=
  String.concat "" [
    nl;
    "    <p>Hey "; (MAIN_WORKER_NAME E); ",</p>"; nl;
    "    <p>The "; lastName; " summary is "; (pretty daysLate); " days late. You should get it submitted soon. If the summary isn't submitted by "; followUpDate; ", "; (MAIN_SUPERVISOR_NAME E); " will be required to go with you, and they don't want that.</p>"; nl;
    "    <p>A link to the summary is included below to remove a barrier to completing this task and help avoid distraction:</p>"; nl;
    "    <p><a href="; dq; summaryLink; dq; ">"; summaryLink; "</a></p>"; nl;
    "    <br></br>"; nl;
    "    "; getEmailSignatureHtml; nl;
    "  "
  ].

(** 7 or more days late. *)
Definition getReprimandingSummaryReminderHtml (lastName : string) (remindersSent : Z)
    (daysUntilHearing : option Z) (supervisorRemindersSent : Z)
    (dueDateFormatted summaryLink : string) : string :=
  String.concat "" [
    nl;
    "    <p>"; (MAIN_WORKER_NAME E); ",</p>"; nl;
    "    <p>You have now received "; (pretty remindersSent); " reminders about the "; lastName; " summary being due on "; dueDateFormatted; ".</p>"; nl;
    "    <p>You only have "; (showNum daysUntilHearing); " days until this hearing and "; (MAIN_SUPERVISOR_NAME E); " is required to attend with you.</p>"; nl;
    "    <p>"; (MAIN_SUPERVISOR_NAME E); " has been receiving these reminders for the past "; (pretty supervisorRemindersSent); " days and now "; (SSM_NAME E); " is included as well.</p>"; nl;
    "    <p>You need to submit this ASAP so that you don't have lawyers calling "; (MAIN_SUPERVISOR_NAME E); " or "; (SSM_NAME E); ", which could result in disciplinary action.</p>"; nl;
    "    <p>A link to the summary is included below to remove a barrier to completing this task and help avoid distraction:</p>"; nl;
    "    <p><a href="; dq; summaryLink; dq; ">"; summaryLink; "</a></p>"; nl;
    "    <br></br>"; nl;
    "    "; getEmailSignatureHtml; nl;
    "  "
  ].

(** Before the last week of the month. *)
Definition getStandardContactReminderHtml (workerName supervisorName childName caseID
    dateSeen : string) (daysSinceSeen daysLeftInMonth : Z) : string :=
  String.concat "" [
    nl;
    "    <p>Hello "; workerName; ",</p>"; nl;
    nl;
    "    <p>This is a reminder that you last saw <strong>"; childName; "</strong> (Case ID: "; caseID; ") "; (pretty daysSinceSeen); " days ago on "; dateSeen; ". "; nl;
    "    There are only "; (pretty daysLeftInMonth); " days remaining in the month, and it is important that the contact is entered as soon as possible to ensure accurate and timely reporting.</p>"; nl;
    nl;
    "    <p>Failure to enter the contact by the end of the month will negatively impact my contact compliance percentage. "; nl;
    "    If the contact is not entered by the last week of the month, "; supervisorName; ", your supervisor, and "; (SSM_NAME E); " will be added onto these emails.</p>"; nl;
    nl;
    "    <p>This is an automated message and will be sent daily until the contact is entered and "; (MAIN_WORKER_NAME E); " is notified. "; nl;
    "    "; (MAIN_WORKER_NAME E); " is included in this email so you can reply to this message to let them know if a contact has been entered.</p>"; nl;
    nl;
    "    <p>Thank you for your prompt attention to this matter.</p>"; nl;
    nl;
    "    <br></br>"; nl;
    "    "; getEmailSignatureHtml; nl;
    "  "
  ].

(** Last week of the month. *)
Definition getReprimandingContactReminderHtml (workerName supervisorName childName caseID
    dateSeen : string) (daysSinceSeen daysRemaining : Z) : string :=
  String.concat "" [
    nl;
    "    <p>Hello "; workerName; ",</p>"; nl;
    nl;
    "    <p>This is a reminder that you last saw <strong>"; childName; "</strong> (Case ID: "; caseID; ") "; (pretty daysSinceSeen); " days ago on "; dateSeen; ". "; nl;
    "    The month is almost over, and it is critical that the contact is entered immediately to maintain compliance.</p>"; nl;
    nl;
    "    <p>There are only "; (pretty daysRemaining); " remaining this month. Since it is the final week of the month, your supervisor "; supervisorName; " and "; (SSM_NAME E); " have been added to this email.</p>"; nl;
    nl;
    "    <p>This is an automated message and will be sent daily until the contact is entered and "; (MAIN_WORKER_NAME E); " is notified. "; nl;
    "    "; (MAIN_WORKER_NAME E); " is included in this email so you can reply to this message to let them know if a contact has been entered.</p>"; nl;
    nl;
    "    <p>Thank you for your immediate attention to this matter.</p>"; nl;
    nl;
    "    <br></br>"; nl;
    "    "; getEmailSignatureHtml; nl;
    "  "
  ].

(** After the month of the contact. *)
Definition getPostMonthContactReminderHtml (workerName supervisorName childName caseID
    dateSeen : string) : string :=
  String.concat "" [
    nl;
    "    <p>Hello "; workerName; ",</p>"; nl;
    nl;
    "    <p>This is an overdue reminder that you last saw <strong>"; childName; "</strong> (Case ID: "; caseID; "), seen on "; dateSeen; ". "; nl;
    "    The contact for this child is now past due for the previous month and must be entered immediately.</p>"; nl;
    nl;
    "    <p>Your supervisor "; supervisorName; " and "; (SSM_NAME E); " have been notified of this delay and may follow up with you directly.</p>"; nl;
    nl;
    "    <p>This is an automated message and will continue to be sent every Monday until the contact is entered and "; (MAIN_WORKER_NAME E); " is notified. "; nl;
    "    "; (MAIN_WORKER_NAME E); " is included in this email so you can reply to this message to let them know if a contact has been entered.</p>"; nl;
    nl;
    "    <p>Thank you for your urgent attention to this matter.</p>"; nl;
    "    <br></br>"; nl;
    "    "; getEmailSignatureHtml; nl;
    "  "
  ].

End Templates.

End Emails.

(* ===================================================================== *)
(** ** The mutable world and the effect monad *)
(* ===================================================================== *)

(** What a run can change: the tabs of the Case Tracker spreadsheet, the
    mail that went out, and the Variables store. *)
Record World : Type := mkWorld {
  tracker : list Sheet;
  (** Messages delivered so far, oldest first. *)
  outbox : list Mail;
  (** Calls of [GmailApp.sendEmail] so far, delivered or not. *)
  attempts : nat;
  variables : gmap string string
}.

(** A computation that reads and writes the world and either returns or
    raises. *)
Definition M (A : Type) : Type := World -> Result A * World.

Definition ret {A : Type} (a : A) : M A := fun w => (Ok a, w).

Definition throw {A : Type} (msg : string) : M A := fun w => (Throw msg, w).

Definition bind {A B : Type} (m : M A) (k : A -> M B) : M B :=
  fun w =>
    match m w with
    | (Ok a, w') => k a w'
    | (Throw msg, w') => (Throw msg, w')
    end.

(** [try { m } catch (error) { h error }]. *)
Definition tryCatch {A : Type} (m : M A) (h : string -> M A) : M A :=
  fun w =>
    match m w with
    | (Ok a, w') => (Ok a, w')
    | (Throw msg, w') => h msg w'
    end.

Definition liftResult {A : Type} (r : Result A) : M A := fun w => (r, w).

Declare Scope js_scope.
Delimit Scope js_scope with js.
Notation "x <- m ;; k" := (bind m (fun x => k))
  (at level 63, m at next level, right associativity) : js_scope.
Notation "m ;;; k" := (bind m (fun _ => k))
  (at level 63, right associativity) : js_scope.
Local Open Scope js_scope.

(** Writes [v] at position [i] of a row, padding with empty cells when
    the row is shorter, as a sheet grows to hold a written cell. *)
Definition setCol (i : nat) (v : Cell) (r : Row) : Row :=
  if decide (i < List.length r)%nat then <[i := v]> r
  else r ++ replicate (i - List.length r) (VString EmptyString) ++ [v].

(** [sheet.getRange(row, column).setValue(v)], [row] and [column] counted
    from 1, on tab number [sheet]; a row below the data range is added
    with the rows between. *)
Definition setCell (rowIndex column : nat) (v : Cell) (data : list Row) : list Row :=
  let padded := data ++ replicate (rowIndex - List.length data) [] in
  alter (setCol (column - 1) v) (rowIndex - 1)%nat padded.

Definition setValue (sheet rowIndex column : nat) (v : Cell) : M unit :=
  fun w =>
    (Ok tt,
     {| tracker := alter (fun s => {| sheetName := sheetName s;
                                       sheetData := setCell rowIndex column v (sheetData s) |})
                         sheet (tracker w);
        outbox := outbox w;
        attempts := attempts w;
        variables := variables w |}).

(** [sheet.getDataRange().getValues()]; the tab is one of [getSheets()]. *)
Definition getValues (sheet : nat) : M (list Row) :=
  fun w =>
    match tracker w !! sheet with
    | Some s => (Ok (sheetData s), w)
    | None => (Throw "TypeError: Cannot read properties of undefined", w)
    end.

Definition getName (sheet : nat) : M string :=
  fun w =>
    match tracker w !! sheet with
    | Some s => (Ok (sheetName s), w)
    | None => (Throw "TypeError: Cannot read properties of undefined", w)
    end.

(** [ss.getSheets()]: handles of the tabs, in order. *)
Definition getSheets : M (list nat) :=
  fun w => (Ok (seq 0 (List.length (tracker w))), w).

(** Modelled from the spec: [updateGlobalVariable(key, value)], which the
    contact run calls and whose definition is missing from the sources.
    It is the update path of the configuration resolver: it overwrites the
    row of [key] in the source-of-truth table, or appends one when there is
    none, so that the table then maps [key] to [value]. *)
Definition updateGlobalVariable (key value : string) : M unit :=
  fun w =>
    (Ok tt,
     {| tracker := tracker w;
        outbox := outbox w;
        attempts := attempts w;
        variables := <[key := value]> (variables w) |}).

(** The world after a call of [GmailApp.sendEmail] that delivered [m],
    and after one that raised. *)
Definition delivered (m : Mail) (w : World) : World :=
  {| tracker := tracker w;
     outbox := outbox w ++ [m];
     attempts := S (attempts w);
     variables := variables w |}.

Definition undelivered (w : World) : World :=
  {| tracker := tracker w;
     outbox := outbox w;
     attempts := S (attempts w);
     variables := variables w |}.

(** Two worlds with the same tab names and the same stored variables. *)
Definition sameTabs (w w' : World) : Prop :=
  map sheetName (tracker w) = map sheetName (tracker w') /\ variables w = variables w'.

Section Mailer.

Variable E : Env.

(** [GmailApp.sendEmail]: the environment decides whether this call
    delivers; a failed call raises and leaves the outbox as it was. *)
Definition GmailApp_sendEmail (m : Mail) : M unit :=
  fun w =>
    if gmail E (attempts w) m then (Ok tt, delivered m w)
    else (Throw "Service invoked too many times or invalid recipient", undelivered w).

End Mailer.

(* ===================================================================== *)
(** ** Court-summary reminders (SummaryReminders.js) *)
(* ===================================================================== *)

Module Summary.

Import JsDate.

(** The branch of the reminder chain taken for a row. *)
Inductive Tier : Type :=
  | PreDue
  | DueToday
  | MinorOverdue
  | SevereOverdue
  | NoTier.

Section Engine.

Variable E : Env.

Definition tz : Zone := tzOffset E.

(** [Math.floor((today - dueDate) / (1000 * 60 * 60 * 24))]. *)
Definition daysLate (today dueDate : Z) : Z :=
  floorDiv (today - dueDate) msPerDay.

(** [dueDate] moved back one day by [setDate(dueDate.getDate() - 1)]. *)
Definition firstReminderDate (dueDate : Z) : Z := addDays tz dueDate (-1).

Definition followUpDate (dueDate : Z) : Z := addDays tz dueDate 6.

(** The conditions of the [if] / [else if] chain, in order. *)
Definition tierOf (today dueDate : Z) : Tier :=
  if toDateString tz today =? toDateString tz (firstReminderDate dueDate) then PreDue
  else if toDateString tz today =? toDateString tz dueDate then DueToday
  else if (0 <? daysLate today dueDate) && (daysLate today dueDate <? 7) then MinorOverdue
  else if 7 <=? daysLate today dueDate then SevereOverdue
  else NoTier.

(** [lastName] as parsed from the case name "LastName, FirstName". *)
Definition lastNameOf (fullName : Cell) : Result string :=
  if truthy fullName then
    match fullName with
    | VString s =>
        if Str.includesChar "," s
        then Ok (Str.trim (default EmptyString (head (Str.split "," s))))
        else Ok (Str.trim s)
    | _ => Throw "TypeError: fullName.includes is not a function"
    end
  else Ok EmptyString.

(** [row[9] === true]: the Submitted checkbox. *)
Definition submitted (row : Row) : bool :=
  match col 9 row with
  | VBoolean true => true
  | _ => false
  end.

(** [raw ? new Date(raw) : null]: [None] is [null], [Some None] an
    Invalid Date. *)
Definition dateOrNull (raw : Cell) : option (option Z) :=
  if truthy raw then Some (newDate E raw) else None.

(** [courtDate ? Math.ceil((courtDate - today) / day) : 0], [None] being
    [NaN]. *)
Definition daysUntilHearing (today : Z) (courtDate : option (option Z)) : option Z :=
  match courtDate with
  | None => Some 0
  | Some None => None
  | Some (Some c) => Some (ceilDiv (c - today) msPerDay)
  end.

(** Subject, body and recipients set by the chain; all three stay empty
    when no branch is taken. *)
Definition chooseEmail (today dueDate : Z) (courtDate : option (option Z))
    (lastName : string) (summaryLink : Cell) : string * string * list string :=
  let remindersSent := Z.max 0 (daysLate today dueDate) in
  let supervisorRemindersSent := Z.max 0 (daysLate today dueDate - 1) in
  match tierOf today dueDate with
  | PreDue =>
      ("Summary Due Tomorrow",
       Emails.getStandardSummaryReminderHtml E lastName (toStr E summaryLink) false,
       [MAIN_WORKER_EMAIL E])
  | DueToday =>
      ("Summary Due Today",
       Emails.getStandardSummaryReminderHtml E lastName (toStr E summaryLink) true,
       [MAIN_WORKER_EMAIL E])
  | MinorOverdue =>
      ("Summary Overdue: " +:+ lastName,
       Emails.getSupervisorIncludedSummaryReminderHtml E lastName (daysLate today dueDate)
         (toLocaleDateString E (followUpDate dueDate)) (toStr E summaryLink),
       [MAIN_WORKER_EMAIL E; MAIN_SUPERVISOR_EMAIL E])
  | SevereOverdue =>
      ("Urgent: " +:+ lastName +:+ " Summary Severely Overdue",
       Emails.getReprimandingSummaryReminderHtml E lastName remindersSent
         (daysUntilHearing today courtDate) supervisorRemindersSent
         (toLocaleDateString E dueDate) (toStr E summaryLink),
       [MAIN_WORKER_EMAIL E; MAIN_SUPERVISOR_EMAIL E; SSM_EMAIL E])
  | NoTier => (EmptyString, EmptyString, [])
  end.

(** [email && email.trim() !== ""]. *)
Definition notBlank (email : string) : bool :=
  negb (Str.isEmpty email) && negb (Str.isEmpty (Str.trim email)).

(** [sendEmailWithHtml(to, subject, htmlBody)] for an array [to]. *)
Definition sendEmailWithHtml (to : list string) (subject htmlBody : string) : M unit :=
  GmailApp_sendEmail E
    {| mailTo := Str.join "," to;
       mailSubject := subject;
       mailBcc := EmptyString;
       mailHtml := htmlBody |}.

(** The body of the row loop. *)
Definition processRow (today : Z) (row : Row) : M unit :=
  let fullName := col 0 row in
  let courtDateRaw := col 4 row in
  let dueDateRaw := col 7 row in
  let summaryLink := col 12 row in
  lastName <- liftResult (lastNameOf fullName) ;;
  let dueDate := dateOrNull dueDateRaw in
  let courtDate := dateOrNull courtDateRaw in
  match dueDate with
  | None => ret tt
  | Some due =>
      if submitted row || Str.isEmpty lastName then ret tt
      else
        let '(emailSubject, emailHtmlBody, recipients) :=
          match due with
          | Some d => chooseEmail today d courtDate lastName summaryLink
          | None => (EmptyString, EmptyString, [])
          end in
        if (List.length recipients =? 0)%nat || Str.isEmpty emailSubject
           || Str.isEmpty emailHtmlBody
        then ret tt
        else
          tryCatch
            (sendEmailWithHtml (filter (fun e => notBlank e = true) recipients)
               emailSubject emailHtmlBody)
            (fun _ => ret tt)
  end.

Fixpoint processRows (today : Z) (rows : list Row) : M unit :=
  match rows with
  | [] => ret tt
  | row :: rest => processRow today row ;;; processRows today rest
  end.

(** [sendSummaryReminders()], [today] being [new Date()]. *)
Definition sendSummaryReminders (today : Z) : M unit :=
  if globalsLoad E then
    data <- getValues 0 ;;
    processRows today (tail data)
  else throw "Critical missing variables".

End Engine.

End Summary.

(* ===================================================================== *)
(** ** Monthly contact reminders (ContactReminders.js) *)
(* ===================================================================== *)

Module Contact.

Import JsDate.

Definition months : list string :=
  ["January"; "February"; "March"; "April"; "May"; "June";
   "July"; "August"; "September"; "October"; "November"; "December"].

(** [xs.findIndex(p)], counting from [i]; -1 when nothing satisfies [p]. *)
Fixpoint findIndexFrom {A : Type} (p : A -> bool) (i : Z) (xs : list A) : Z :=
  match xs with
  | [] => -1
  | x :: rest => if p x then i else findIndexFrom p (i + 1) rest
  end.

(** [getMonthNumberFromName(name)]. *)
Definition getMonthNumberFromName (name : string) : Z :=
  findIndexFrom (fun m => String.eqb (Str.toLowerCase m) (Str.toLowerCase name)) 0 months.

(** [sheetName.match(/^([A-Za-z]+) Contacts$/)]: the captured group. *)
Definition matchMonthSheet (sheetName : string) : option string :=
  match Str.stripSuffix " Contacts" sheetName with
  | Some p => if negb (Str.isEmpty p) && Str.allChars Str.isAlpha p then Some p else None
  | None => None
  end.

(** [(text || "").split(",").map(m => m.trim()).filter(Boolean)]. *)
Definition parseCompleteMonths (text : string) : list string :=
  filter (fun m => Str.isEmpty m = false) (map Str.trim (Str.split "," text)).

(** An entry of the completed-months list as the parsing leaves it: free of
    commas, trimmed and not empty. *)
Definition cleanEntry (x : string) : Prop :=
  Str.includesChar "," x = false /\ Str.trim x = x /\ Str.isEmpty x = false.

(** [completeMonths.includes(monthName)]. *)
Definition includes (xs : list string) (x : string) : bool :=
  existsb (String.eqb x) xs.

Section Engine.

Variable E : Env.

Definition tz : Zone := tzOffset E.

(** [daysRemainingInMonth(date)]. *)
Definition daysRemainingInMonth (date : Z) : Z :=
  let lastDay := ofYMD tz (getFullYear tz date) (getMonth tz date + 1) 0 in
  ceilDiv (lastDay - date) msPerDay.

(** [MAIN_WORKER_NAME === seenBy]. *)
Definition isMainWorker (seenBy : Cell) : bool :=
  match seenBy with
  | VString s => String.eqb (MAIN_WORKER_NAME E) s
  | _ => false
  end.

(** The message handed to [GmailApp.sendEmail] by the [try] block. *)
Definition reminderMail (recipients bccList : list Cell) (childName : Cell)
    (body : string) : Mail :=
  {| mailTo := Str.join "," (map (joinStr E) recipients);
     mailSubject := "Contact Entry Reminder – " +:+ toStr E childName;
     mailBcc := Str.join "," (map (joinStr E) bccList);
     mailHtml := body |}.

(** The [try] block: send, then stamp column F of the row. *)
Definition sendAndStamp (recipients bccList : list Cell) (childName : Cell)
    (body : string) (today : Z) (sheet rowIndex : nat) : M bool :=
  tryCatch
    (GmailApp_sendEmail E (reminderMail recipients bccList childName body) ;;;
     setValue sheet rowIndex 6 (VString (formatMMddyyyy tz today)) ;;;
     ret true)
    (fun _ => ret false).

(** [sendContactReminderRow(rowData, today, sheet, rowIndex)].  Formatting
    an Invalid Date raises; the sheet scan never passes one. *)
Definition sendContactReminderRow (rowData : Row) (today : Z) (sheet rowIndex : nat)
    : M bool :=
  let childName := col 0 rowData in
  let caseID := col 1 rowData in
  let dateSeenRaw := col 2 rowData in
  let seenBy := col 3 rowData in
  let daysLeftInMonth := daysRemainingInMonth today in
  empInfo <- liftResult (Directory.getWorkerInfoByName E seenBy) ;;
  if isMainWorker seenBy then
    match newDate E dateSeenRaw with
    | None => throw "Invalid argument: date"
    | Some dateSeen =>
        let daysSinceSeen := floorDiv (today - dateSeen) msPerDay in
        let body :=
          if getMonth tz dateSeen <? getMonth tz today then
            Emails.getPostMonthContactReminderHtml E (MAIN_WORKER_NAME E)
              (MAIN_SUPERVISOR_NAME E) (toStr E childName) (toStr E caseID)
              (formatMMddyyyy tz dateSeen)
          else if daysLeftInMonth <=? 7 then
            Emails.getReprimandingContactReminderHtml E (MAIN_WORKER_NAME E)
              (MAIN_SUPERVISOR_NAME E) (toStr E childName) (toStr E caseID)
              (formatMMddyyyy tz dateSeen) daysSinceSeen daysLeftInMonth
          else
            Emails.getStandardContactReminderHtml E (MAIN_WORKER_NAME E)
              (MAIN_SUPERVISOR_NAME E) (toStr E childName) (toStr E caseID)
              (formatMMddyyyy tz dateSeen) daysSinceSeen daysLeftInMonth in
        let recipients := [VString (MAIN_WORKER_EMAIL E)] in
        let bccList :=
          VString (MAIN_SUPERVISOR_EMAIL E) ::
            (if daysLeftInMonth <=? 7 then [VString (SSM_EMAIL E)] else []) in
        sendAndStamp recipients bccList childName body today sheet rowIndex
    end
  else
    match empInfo with
    | Some info =>
        match newDate E dateSeenRaw with
        | None => throw "Invalid argument: date"
        | Some dateSeen =>
            let daysSinceSeen := floorDiv (today - dateSeen) msPerDay in
            let body :=
              if getMonth tz dateSeen <? getMonth tz today then
                Emails.getPostMonthContactReminderHtml E
                  (toStr E (Directory.workerName info))
                  (toStr E (Directory.supervisorName info))
                  (toStr E childName) (toStr E caseID) (formatMMddyyyy tz dateSeen)
              else if daysLeftInMonth <=? 7 then
                Emails.getReprimandingContactReminderHtml E
                  (toStr E (Directory.workerName info))
                  (toStr E (Directory.supervisorName info))
                  (toStr E childName) (toStr E caseID) (formatMMddyyyy tz dateSeen)
                  daysSinceSeen daysLeftInMonth
              else
                Emails.getStandardContactReminderHtml E
                  (toStr E (Directory.workerName info))
                  (toStr E (Directory.supervisorName info))
                  (toStr E childName) (toStr E caseID) (formatMMddyyyy tz dateSeen)
                  daysSinceSeen daysLeftInMonth in
            let recipients := [Directory.workerEmail info] in
            let bccList :=
              Directory.supervisorEmail info ::
                (if daysLeftInMonth <=? 7 then [VString (SSM_EMAIL E)] else []) in
            sendAndStamp recipients bccList childName body today sheet rowIndex
        end
    | None => ret false
    end.

(** *** The two branches read as one

    The branch of the main worker and the branch of a worker found in the
    directory differ only in the identities they use.  The definitions
    below name those identities and the message built from them; that
    [sendContactReminderRow] sends exactly that message is proved further
    down ([sendContactReminderRow_resolved]). *)

(** Addresses and names used for a row: the configured ones when the row
    names the main worker, the directory entry otherwise; [Ok None] when
    the directory has no entry.  The lookup runs first in either case. *)
Definition resolveWorker (seenBy : Cell) : Result (option (Cell * Cell * string * string)) :=
  match Directory.getWorkerInfoByName E seenBy with
  | Throw msg => Throw msg
  | Ok empInfo =>
      if isMainWorker seenBy then
        Ok (Some (VString (MAIN_WORKER_EMAIL E), VString (MAIN_SUPERVISOR_EMAIL E),
                  MAIN_WORKER_NAME E, MAIN_SUPERVISOR_NAME E))
      else
        match empInfo with
        | Some info =>
            Ok (Some (Directory.workerEmail info, Directory.supervisorEmail info,
                      toStr E (Directory.workerName info),
                      toStr E (Directory.supervisorName info)))
        | None => Ok None
        end
  end.

(** The template chain of either branch. *)
Definition reminderBody (workerName supervisorName : string) (childName caseID : Cell)
    (dateSeen today : Z) : string :=
  let daysLeftInMonth := daysRemainingInMonth today in
  let daysSinceSeen := floorDiv (today - dateSeen) msPerDay in
  if getMonth tz dateSeen <? getMonth tz today then
    Emails.getPostMonthContactReminderHtml E workerName supervisorName
      (toStr E childName) (toStr E caseID) (formatMMddyyyy tz dateSeen)
  else if daysLeftInMonth <=? 7 then
    Emails.getReprimandingContactReminderHtml E workerName supervisorName
      (toStr E childName) (toStr E caseID) (formatMMddyyyy tz dateSeen)
      daysSinceSeen daysLeftInMonth
  else
    Emails.getStandardContactReminderHtml E workerName supervisorName
      (toStr E childName) (toStr E caseID) (formatMMddyyyy tz dateSeen)
      daysSinceSeen daysLeftInMonth.

(** [bccList] of either branch: the supervisor, and the manager in the
    last week. *)
Definition bccFor (supervisorEmail : Cell) (today : Z) : list Cell :=
  supervisorEmail ::
    (if daysRemainingInMonth today <=? 7 then [VString (SSM_EMAIL E)] else []).

(** The message composed for a row whose worker resolves to [who]:
    worker and supervisor address, worker and supervisor name. *)
Definition rowMail (row : Row) (today dateSeen : Z) (who : Cell * Cell * string * string)
    : Mail :=
  let '(workerEmail, supervisorEmail, workerName, supervisorName) := who in
  reminderMail [workerEmail] (bccFor supervisorEmail today) (col 0 row)
    (reminderBody workerName supervisorName (col 0 row) (col 1 row) dateSeen today).

(** Whether the row loop leaves a row before trying to send: required
    data missing, contact already entered, date not readable, or a prior
    month on a day that is not Monday.  [Some dateSeen] is a row that goes
    on to [sendContactReminderRow]. *)
Definition rowGate (row : Row) (today : Z) (isMonday : bool) : option Z :=
  let childName := col 0 row in
  let dateSeenRaw := col 2 row in
  let seenBy := col 3 row in
  let dateContactEntered := col 4 row in
  if negb (truthy childName) || negb (truthy dateSeenRaw) || negb (truthy seenBy) then None
  else if truthy dateContactEntered
          && negb (match dateContactEntered with VString s => Str.isEmpty s | _ => false end)
  then None
  else
    match newDate E dateSeenRaw with
    | None => None
    | Some dateSeen =>
        let isPriorMonth :=
          (getMonth tz dateSeen <? getMonth tz today)
          || (getFullYear tz dateSeen <? getFullYear tz today) in
        if isPriorMonth && negb isMonday then None else Some dateSeen
    end.

(** The row loop of [processContactSheet], at array index [i]. *)
Fixpoint scanRows (rows : list Row) (i : nat) (today : Z) (isMonday : bool)
    (sheet : nat) (remindersSent : nat) : M nat :=
  match rows with
  | [] => ret remindersSent
  | row :: rest =>
      match rowGate row today isMonday with
      | None => scanRows rest (S i) today isMonday sheet remindersSent
      | Some _ =>
          sent <- sendContactReminderRow row today sheet (i + 1) ;;
          scanRows rest (S i) today isMonday sheet
            (if sent : bool then S remindersSent else remindersSent)
      end
  end.

(** [processContactSheet(sheet, today, currentMonth, isMonday)]. *)
Definition processContactSheet (sheet : nat) (today currentMonth : Z) (isMonday : bool)
    : M nat :=
  data <- getValues sheet ;;
  scanRows (tail data) 1 today isMonday sheet 0.

(** The body of the loop over the tabs: returns the [completeMonths]
    array as it stands afterwards. *)
Definition sheetStep (today : Z) (completeMonths : list string) (sheet : nat)
    : M (list string) :=
  let currentMonth := getMonth tz today in
  let isMonday := getDay tz today =? 1 in
  sheetName <- getName sheet ;;
  match matchMonthSheet sheetName with
  | None => ret completeMonths
  | Some monthName =>
      let sheetMonth := getMonthNumberFromName monthName in
      if currentMonth <? sheetMonth then ret completeMonths
      else if includes completeMonths monthName then ret completeMonths
      else
        remindersSent <- processContactSheet sheet today currentMonth isMonday ;;
        if isMonday && (remindersSent =? 0)%nat then
          updateGlobalVariable "CONTACT_COMPLETE_MONTHS"
            (Str.join ", " (completeMonths ++ [monthName])) ;;;
          ret (completeMonths ++ [monthName])
        else ret completeMonths
  end.

Fixpoint sheetLoop (today : Z) (completeMonths : list string) (allSheets : list nat)
    : M (list string) :=
  match allSheets with
  | [] => ret completeMonths
  | sheet :: rest =>
      completeMonths' <- sheetStep today completeMonths sheet ;;
      sheetLoop today completeMonths' rest
  end.

(** [sendMonthlyContactReminders()], [today] being [new Date()]; the
    result is the final [completeMonths] array ([[]] when the variables
    could not be loaded and the run returned at once). *)
Definition sendMonthlyContactReminders (today : Z) : M (list string) :=
  if globalsLoad E then
    allSheets <- getSheets ;;
    sheetLoop today (parseCompleteMonths (CONTACT_COMPLETE_MONTHS E)) allSheets
  else ret [].

End Engine.

End Contact.

(* ===================================================================== *)
(** ** A concrete installation, for the worked examples *)
(* ===================================================================== *)

Module Demo.

(** A zone that stays five hours behind UTC all year. *)
Definition zone : JsDate.Zone := JsDate.fixedZone (-18000000).

(** The instant of [hour]:00 local time on the given day. *)
Definition at_ (year month day hour : Z) : Z :=
  JsDate.ofYMD zone year (month - 1) day + hour * 3600000.

Definition roster : list Row :=
  [ [VString "workerName"; VString "workerEmail"; VString "supervisorName";
     VString "supervisorEmail"; VString "workerCounty"];
    [VString "Sam Fields"; VString "sam.fields@example.org"; VString "Pat Moss";
     VString "pat.moss@example.org"; VString "Kanawha"] ].

Definition env (mailWorks : bool) : Env :=
  {| tzOffset := zone;
     parseDate := fun _ => None;
     dateToString := JsDate.formatMMddyyyy zone;
     toLocaleDateString := JsDate.formatMMddyyyy zone;
     MAIN_WORKER_NAME := "Ellie Brewer";
     MAIN_WORKER_EMAIL := "worker@example.org";
     MAIN_SUPERVISOR_NAME := "Dana Hill";
     MAIN_SUPERVISOR_EMAIL := "supervisor@example.org";
     SSM_NAME := "Robin Lake";
     SSM_EMAIL := "manager@example.org";
     WORKER_OFFICE_EXTENSION := EmptyString;
     WORKER_CELL_NUMBER := EmptyString;
     CONTACT_COMPLETE_MONTHS := EmptyString;
     globalsLoad := true;
     automationInfo := fun tab =>
       if String.eqb tab "CPSEmployeeInfo" then Some roster else None;
     gmail := fun _ _ => mailWorks |}.

Definition contactHeader : Row :=
  [VString "Child Name"; VString "Case ID"; VString "Date Seen"; VString "Seen By";
   VString "Date Contact Entered"; VString "Last Reminder Sent"; VString "Missed";
   VString "Reason Missed"].

(** A contact row with nothing in columns F to H. *)
Definition contactRow (child : string) (dateSeen : Z) (seenBy : string) (entered : Cell) : Row :=
  [VString child; VString "C-1001"; VDate dateSeen; VString seenBy; entered;
   VString EmptyString; VString EmptyString; VString EmptyString].

Definition world (tabs : list Sheet) : World :=
  {| tracker := tabs; outbox := []; attempts := 0; variables := ∅ |}.

(** A row of the hearing tracker: case name, court date, due date,
    submitted box and link at columns 0, 4, 7, 9 and 12. *)
Definition summaryRow (name : string) (court due : Cell) (submitted : bool) : Row :=
  [VString name; VString EmptyString; VString EmptyString; VString EmptyString; court;
   VString EmptyString; VString EmptyString; due; VString EmptyString; VBoolean submitted;
   VString EmptyString; VString EmptyString; VString "https://example.org/summary"].

Definition empty : Cell := VString EmptyString.

(** Monday 8 January, Tuesday 9 January, Wednesday 10 January and Friday
    26 January 2024, and Monday 5 February 2024, all at 09:00. *)
Definition monday : Z := at_ 2024 1 8 9.
Definition tuesday : Z := at_ 2024 1 9 9.
Definition wednesday : Z := at_ 2024 1 10 9.
Definition lastFriday : Z := at_ 2024 1 26 9.
Definition februaryMonday : Z := at_ 2024 2 5 9.

Definition tab (name : string) (rows : list Row) : Sheet :=
  {| sheetName := name; sheetData := contactHeader :: rows |}.

(** Seen by the main worker on 15 December 2023, contact not entered. *)
Definition decemberRow : Row := contactRow "Ann" (at_ 2023 12 15 0) "Ellie Brewer" empty.

(** Seen on 3 and on 10 January 2024, contact not entered. *)
Definition januaryRow : Row := contactRow "Ann" (at_ 2024 1 3 0) "Ellie Brewer" empty.
Definition directoryRow : Row := contactRow "Ben" (at_ 2024 1 10 0) "Sam Fields" empty.

(** Seen by somebody the directory does not list. *)
Definition strangerRow : Row := contactRow "Cal" (at_ 2024 1 3 0) "Nobody Known" empty.

(** Contact entered on 5 January 2024; the same row with 0 and with FALSE
    in the Date Contact Entered cell. *)
Definition enteredRow : Row :=
  contactRow "Ann" (at_ 2024 1 3 0) "Ellie Brewer" (VDate (at_ 2024 1 5 0)).
Definition zeroRow : Row := contactRow "Ann" (at_ 2024 1 3 0) "Ellie Brewer" (VNumber 0).
Definition falseRow : Row :=
  contactRow "Ann" (at_ 2024 1 3 0) "Ellie Brewer" (VBoolean false).

(** Summaries due on 10 March 2024, at midnight and at noon. *)
Definition dueRow : Row := summaryRow "Doe, Jane" empty (VDate (at_ 2024 3 10 0)) false.
Definition dueNoonRow : Row := summaryRow "Doe, Jane" empty (VDate (at_ 2024 3 10 12)) false.

End Demo.

(* ===================================================================== *)
(** ** A zone with clock changes *)
(* ===================================================================== *)

(** The zone of New York in 2024: five hours behind UTC, and four from
    10 March 07:00 UTC to 3 November 06:00 UTC.  The clock changes of
    other years are not needed and are left out. *)
Module Eastern.

Definition est : Z := -18000000.
Definition edt : Z := -14400000.

(** The instants of the two changes. *)
Definition spring : Z := JsDate.daysFromCivil 2024 3 10 * JsDate.msPerDay + 7 * 3600000.
Definition fall : Z := JsDate.daysFromCivil 2024 11 3 * JsDate.msPerDay + 6 * 3600000.

(** A reading that the spring change skips is taken with the offset in
    force before it, and of the two instants that show a reading of the
    repeated hour the earlier is taken, as [Date] does. *)
Definition zone : JsDate.Zone :=
  {| JsDate.offsetAt := fun t => if (spring <=? t) && (t <? fall) then edt else est;
     JsDate.utcOf := fun l =>
       if l <? spring + edt then l - est
       else if l <? fall + edt then l - edt
       else l - est |}.

(** [new Date(year, month - 1, day, hour, minute)]. *)
Definition at_ (year month day hour minute : Z) : Z :=
  JsDate.utcOf zone
    (JsDate.daysFromCivil year month day * JsDate.msPerDay + hour * 3600000 + minute * 60000).

(** The environment of [Demo] moved to this zone. *)
Definition env : Env :=
  let E := Demo.env true in
  {| tzOffset := zone;
     parseDate := parseDate E;
     dateToString := JsDate.formatMMddyyyy zone;
     toLocaleDateString := JsDate.formatMMddyyyy zone;
     MAIN_WORKER_NAME := MAIN_WORKER_NAME E;
     MAIN_WORKER_EMAIL := MAIN_WORKER_EMAIL E;
     MAIN_SUPERVISOR_NAME := MAIN_SUPERVISOR_NAME E;
     MAIN_SUPERVISOR_EMAIL := MAIN_SUPERVISOR_EMAIL E;
     SSM_NAME := SSM_NAME E;
     SSM_EMAIL := SSM_EMAIL E;
     WORKER_OFFICE_EXTENSION := WORKER_OFFICE_EXTENSION E;
     WORKER_CELL_NUMBER := WORKER_CELL_NUMBER E;
     CONTACT_COMPLETE_MONTHS := CONTACT_COMPLETE_MONTHS E;
     globalsLoad := globalsLoad E;
     automationInfo := automationInfo E;
     gmail := gmail E |}.

(** A summary due on 10 March 2024, the cell holding the date alone. *)
Definition dueRow : Row :=
  Demo.summaryRow "Doe, Jane" Demo.empty (VDate (at_ 2024 3 10 0 0)) false.

End Eastern.

(* ===================================================================== *)
(** ** The directory lookup, read as a search *)
(* ===================================================================== *)

(** What [getWorkerInfoByName] is compared with further down: one search
    for the first matching row among the data rows of the tabs, taken in
    the order the tabs are searched. *)
Module DirectorySearch.

Section Search.

Variable E : Env.

(** The data rows of the tabs that exist, each with the header row of
    its tab, in search order. *)
Definition candidates : list (Row * Row) :=
  flat_map
    (fun tabName =>
       match automationInfo E tabName with
       | Some data => map (fun r => (default [] (head data), r)) (tail data)
       | None => []
       end)
    Directory.tabsToSearch.

(** The cell of a row under the header [title]. *)
Definition under (title : string) (c : Row * Row) : Cell :=
  Directory.at_ (Directory.indexOf title c.1) c.2.

(** The row names the worker [n], up to surrounding white space. *)
Definition names (n : string) (c : Row * Row) : bool :=
  truthy (under "workerName" c)
  && String.eqb (Str.trim (toStr E (under "workerName" c))) (Str.trim n).

Definition infoOf (c : Row * Row) : Directory.WorkerInfo :=
  {| Directory.workerName := under "workerName" c;
     Directory.workerEmail := under "workerEmail" c;
     Directory.supervisorName := under "supervisorName" c;
     Directory.supervisorEmail := under "supervisorEmail" c;
     Directory.workerCounty :=
       match Directory.indexOf "workerCounty" c.1 with
       | Some k => Some (col k c.2)
       | None => None
       end |}.

End Search.

End DirectorySearch.

(* ===================================================================== *)
(** ** The month after *)
(* ===================================================================== *)

Module Calendar.

Import JsDate.

(** Day number of the first day of the month that follows the month of
    day [z], computed the way [new Date(year, month + 1, 1)] does. *)
Definition nextMonthStart (z : Z) : Z :=
  let '(y, m, _) := civilFromDays z in
  daysFromCivil (y + m / 12) (m mod 12 + 1) 1.

(** Leap years and the lengths of the months, [month] counted from 0. *)
Definition isLeap (year : Z) : bool :=
  (year mod 4 =? 0) && (negb (year mod 100 =? 0) || (year mod 400 =? 0)).

Definition monthLength (year month : Z) : Z :=
  if month =? 1 then (if isLeap year then 29 else 28)
  else if (month =? 3) || (month =? 5) || (month =? 8) || (month =? 10) then 30
  else 31.

End Calendar.

(* ===================================================================== *)
(** ** Loading the global variables (GlobalVarsCache.js) *)
(* ===================================================================== *)

(** The three tiers of the global variables: the script cache, the script
    properties and the Variables tab of the Automation Info spreadsheet.
    The URL of that spreadsheet is taken to be set, so that
    [ensureAutomationInfoSheetURL] returns at its first test; a
    spreadsheet that cannot be opened and one without a Variables tab both
    make [loadAutomationInfoSheet] raise and are one case here.  Cache
    entries do not expire within a run. *)
Module Config.

(** A JavaScript object used as a map from keys to texts is the [gmap]
    of its own properties.  Two names are special on such an object:
    assigning to [__proto__] reaches the setter inherited from
    [Object.prototype] and stores nothing, and an own property named
    [hasOwnProperty] hides the method of that name. *)

(** [JSON.stringify] and [JSON.parse] on objects whose values are texts;
    parsing raises on text that is not JSON. *)
Record Json : Type := mkJson {
  stringify : gmap string string -> string;
  parse : string -> Result (gmap string string)
}.

(** What loading can change: the two stores and the two script globals
    that a refresh assigns. *)
Record Stores : Type := mkStores {
  scriptCache : gmap string string;
  scriptProperties : gmap string string;
  CASE_TRACKER_URL : string;
  SSM_NAME : string
}.

Section Loading.

Variable E : Env.
Variable J : Json.

(** [cell?.toString().trim()]; [None] is [undefined]. *)
Definition cellText (c : Cell) : option string :=
  match c with
  | VUndefined => None
  | _ => Some (Str.trim (toStr E c))
  end.

(** [vars[key] = value] for a text [value], on an object made by [{}] or
    by [JSON.parse]: every key becomes an own property but [__proto__],
    whose inherited setter ignores a text. *)
Definition assign (key value : string) (vars : gmap string string) : gmap string string :=
  if String.eqb key "__proto__" then vars else <[key := value]> vars.

(** [vars.hasOwnProperty(k)]: the method is looked up on [vars] itself
    first, and calling a text raises. *)
Definition hasOwnProperty (vars : gmap string string) (k : string) : Result bool :=
  match vars !! "hasOwnProperty" with
  | Some _ => Throw "TypeError: vars.hasOwnProperty is not a function"
  | None => Ok (bool_decide (is_Some (vars !! k)))
  end.

(** The loop of [loadAutomationInfoSheet] over the rows below the header:
    a row with a blank key or a blank value is passed over, a later row
    overwrites an earlier one with the same key. *)
Fixpoint loadRows (rows : list Row) (vars : gmap string string) : gmap string string :=
  match rows with
  | [] => vars
  | row :: rest =>
      match cellText (col 0 row), cellText (col 1 row) with
      | Some key, Some value =>
          if Str.isEmpty key || Str.isEmpty value then loadRows rest vars
          else loadRows rest (assign key value vars)
      | _, _ => loadRows rest vars
      end
  end.

(** [loadAutomationInfoSheet()]. *)
Definition loadAutomationInfoSheet : Result (gmap string string) :=
  match automationInfo E "Variables" with
  | None => Throw "❌ 'Variables' sheet not found in Automation Info Sheet."
  | Some values => Ok (loadRows (tail values) ∅)
  end.

(** [Object.keys(vars).length === 0]. *)
Definition noKeys (vars : gmap string string) : bool := bool_decide (vars = ∅).

(** [refreshGlobalVariablesCache()]: whatever is raised inside is caught
    and answered with the empty object. *)
Definition refreshGlobalVariablesCache (st : Stores) : gmap string string * Stores :=
  match loadAutomationInfoSheet with
  | Ok vars =>
      if noKeys vars then (∅, st)
      else
        (vars,
         {| scriptCache := <["globalVariables" := stringify J vars]> (scriptCache st);
            scriptProperties :=
              <["globalVariablesJSON" := stringify J vars]> (scriptProperties st);
            CASE_TRACKER_URL := default EmptyString (vars !! "caseTrackerUrl");
            SSM_NAME := default EmptyString (vars !! "ssmName") |})
  | Throw _ => (∅, st)
  end.

(** [loadVarsFromProperties()]; [None] is [null]. *)
Definition loadVarsFromProperties (st : Stores) : option (gmap string string) :=
  match scriptProperties st !! "globalVariablesJSON" with
  | Some jsonStr =>
      if Str.isEmpty jsonStr then None
      else match parse J jsonStr with
           | Ok vars => Some vars
           | Throw _ => None
           end
  | None => None
  end.

(** The second and third tier of [getGlobalVariables]. *)
Definition afterCacheMiss (st : Stores) : Result (gmap string string) * Stores :=
  match loadVarsFromProperties st with
  | Some propsVars =>
      if negb (noKeys propsVars) then
        (Ok propsVars,
         {| scriptCache := <["globalVariables" := stringify J propsVars]> (scriptCache st);
            scriptProperties := scriptProperties st;
            CASE_TRACKER_URL := CASE_TRACKER_URL st;
            SSM_NAME := SSM_NAME st |})
      else
        let '(freshVars, st') := refreshGlobalVariablesCache st in (Ok freshVars, st')
  | None =>
      let '(freshVars, st') := refreshGlobalVariablesCache st in (Ok freshVars, st')
  end.

(** [getGlobalVariables(false)]. *)
Definition getGlobalVariables (st : Stores) : Result (gmap string string) * Stores :=
  match scriptCache st !! "globalVariables" with
  | Some cachedVars =>
      if Str.isEmpty cachedVars then afterCacheMiss st
      else (parse J cachedVars, st)
  | None => afterCacheMiss st
  end.

(** [!vars.hasOwnProperty(k) || !vars[k]]. *)
Definition missing (vars : gmap string string) (k : string) : Result bool :=
  match hasOwnProperty vars k with
  | Throw msg => Throw msg
  | Ok false => Ok true
  | Ok true => Ok (Str.isEmpty (default EmptyString (vars !! k)))
  end.

(** [keys.filter(test)] for a test that may raise: the keys are tested in
    order and the first exception ends the call. *)
Fixpoint filterKeys (test : string -> Result bool) (keys : list string)
    : Result (list string) :=
  match keys with
  | [] => Ok []
  | k :: rest =>
      match test k with
      | Throw msg => Throw msg
      | Ok keep =>
          match filterKeys test rest with
          | Throw msg => Throw msg
          | Ok kept => Ok (if keep then k :: kept else kept)
          end
      end
  end.

(** [ensureGlobalVariables(requiredKeys)]. *)
Definition ensureGlobalVariables (requiredKeys : list string) (st : Stores)
    : Result (gmap string string) * Stores :=
  match getGlobalVariables st with
  | (Throw msg, st1) => (Throw msg, st1)
  | (Ok vars, st1) =>
      if (0 <? List.length requiredKeys)%nat then
        match filterKeys (missing vars) requiredKeys with
        | Throw msg => (Throw msg, st1)
        | Ok missingKeys =>
            if (0 <? List.length missingKeys)%nat then
              let '(vars2, st2) := refreshGlobalVariablesCache st1 in
              match filterKeys (missing vars2) requiredKeys with
              | Throw msg => (Throw msg, st2)
              | Ok stillMissing =>
                  if (0 <? List.length stillMissing)%nat then
                    (Throw ("❌ Critical missing variables: " +:+ Str.join ", " stillMissing
                            +:+ ". Check Variables sheet."), st2)
                  else (Ok vars2, st2)
              end
            else (Ok vars, st1)
        end
      else (Ok vars, st1)
  end.

(** Whether [vars] has no non-empty text under the key [k]. *)
Definition lacks (vars : gmap string string) (k : string) : bool :=
  match vars !! k with
  | Some v => Str.isEmpty v
  | None => true
  end.

(** The valid entry of a row, if it has one. *)
Definition entryOf (row : Row) : option (string * string) :=
  match cellText (col 0 row), cellText (col 1 row) with
  | Some key, Some value =>
      if Str.isEmpty key || Str.isEmpty value then None else Some (key, value)
  | _, _ => None
  end.

End Loading.

(** [filterVars(vars, keys)] of the utilities file: the [forEach] over
    the keys, then the whole function. *)
Fixpoint filterInto (vars : gmap string string) (keys : list string)
    (filtered : gmap string string) : Result (gmap string string) :=
  match keys with
  | [] => Ok filtered
  | key :: rest =>
      match hasOwnProperty vars key with
      | Throw msg => Throw msg
      | Ok true =>
          filterInto vars rest (assign key (default EmptyString (vars !! key)) filtered)
      | Ok false => filterInto vars rest filtered
      end
  end.

Definition filterVars (vars : gmap string string) (keys : list string)
    : Result (gmap string string) :=
  match keys with
  | [] => Ok vars
  | _ => filterInto vars keys ∅
  end.

End Config.

(* ===================================================================== *)
(** ** The backup rows of the Variables tab (GlobalVarsCache.js and the
       contact-sheet helpers) *)
(* ===================================================================== *)

(** The Automation Info spreadsheet as a map from tab name to the rows
    that hold something; [appendRow] adds a row behind them.  The
    spreadsheet is taken to be open. *)
Module Backup.

Definition urlKey : string := "automationInfoSheetURL".
Definition sheetsKey : string := "contactSheets".
Definition note : string := "This is autofilled, do not type in this box".

(** The search loops [for (let i = 1; ...) if (values[i][0] === key)]:
    the array index of the first row found, counting from [i], and the
    second cell of that row. *)
Fixpoint findKey (key : string) (i : nat) (rows : list Row) : option nat :=
  match rows with
  | [] => None
  | row :: rest =>
      match col 0 row with
      | VString s => if String.eqb s key then Some i else findKey key (S i) rest
      | _ => findKey key (S i) rest
      end
  end.

Fixpoint readKey (key : string) (rows : list Row) : option Cell :=
  match rows with
  | [] => None
  | row :: rest =>
      match col 0 row with
      | VString s => if String.eqb s key then Some (col 1 row) else readKey key rest
      | _ => readKey key rest
      end
  end.

(** [getCachedBackupAutomationInfoSheetURL()]; [None] is [null]. *)
Definition getCachedBackupAutomationInfoSheetURL (book : gmap string (list Row))
    : option Cell :=
  match book !! "Variables" with
  | None => None
  | Some values => readKey urlKey (tail values)
  end.

(** [updateAutomationInfoSheetBackupRow(url)]. *)
Definition updateAutomationInfoSheetBackupRow (url : string)
    (book : gmap string (list Row)) : gmap string (list Row) :=
  match book !! "Variables" with
  | None => book
  | Some values =>
      match findKey urlKey 1 (tail values) with
      | None =>
          <["Variables" := values ++ [[VString urlKey; VString url; VString note]]]> book
      | Some i =>
          <["Variables" :=
              setCell (i + 1) 3 (VString note) (setCell (i + 1) 2 (VString url) values)]> book
      end
  end.

Section ContactSheets.

Variable E : Env.

(** [JSON.stringify] and [JSON.parse] on the list of contact sheets, each
    a tab name with the column of its Seen By header. *)
Variable stringifySheets : list (string * nat) -> string.
Variable parseSheets : string -> Result (list (string * nat)).

(** [getContactSheetsBackupRow()]; a parse error is caught and answered
    with [null]. *)
Definition getContactSheetsBackupRow (book : gmap string (list Row))
    : option (list (string * nat)) :=
  match book !! "Variables" with
  | None => None
  | Some values =>
      match readKey sheetsKey (tail values) with
      | Some c =>
          match parseSheets (toStr E c) with
          | Ok sheets => Some sheets
          | Throw _ => None
          end
      | None => None
      end
  end.

(** [updateContactSheetsBackupRow(contactSheets)]. *)
Definition updateContactSheetsBackupRow (contactSheets : list (string * nat))
    (book : gmap string (list Row)) : gmap string (list Row) :=
  match book !! "Variables" with
  | None => book
  | Some values =>
      match findKey sheetsKey 1 (tail values) with
      | Some i =>
          <["Variables" :=
              setCell (i + 1) 2 (VString (stringifySheets contactSheets)) values]> book
      | None =>
          <["Variables" :=
              values ++ [[VString sheetsKey; VString (stringifySheets contactSheets)]]]> book
      end
  end.

End ContactSheets.

End Backup.

(* ===================================================================== *)
(** ** The children of the Hearing Tracker (contact-sheet helpers) *)
(* ===================================================================== *)

Module Children.

(** [ss.getSheetByName(name)]. *)
Definition getSheetByName (name : string) (tabs : list Sheet) : option Sheet :=
  find (fun s => String.eqb (sheetName s) name) tabs.

(** A cell of a range read with [getValues()]: empty text where the
    sheet holds nothing. *)
Definition rangeCell (k : nat) (row : Row) : Cell :=
  default (VString EmptyString) (row !! k).

(** [childNames.split(",").map(n => n.trim()).filter(Boolean)]. *)
Definition splitNames (childNames : string) : list string :=
  filter (fun n => Str.isEmpty n = false) (map Str.trim (Str.split "," childNames)).

(** The [forEach] over the rows read: a child per listed name, with the
    case number of its row. *)
Fixpoint collect (values : list Row) : Result (list (string * Cell)) :=
  match values with
  | [] => Ok []
  | row :: rest =>
      let caseNumber := col 0 row in
      let childNames := col 1 row in
      if truthy caseNumber && truthy childNames then
        match childNames with
        | VString s =>
            match collect rest with
            | Ok more => Ok (map (fun name => (name, caseNumber)) (splitNames s) ++ more)
            | Throw msg => Throw msg
            end
        | _ => Throw "TypeError: childNames.split is not a function"
        end
      else collect rest
  end.

(** [getChildrenArray()] on the tabs of the Case Tracker; a range of no
    rows cannot be read. *)
Definition getChildrenArray (tabs : list Sheet) : Result (list (string * Cell)) :=
  match getSheetByName "Hearing Tracker" tabs with
  | None => Throw "Hearing Tracker tab not found in Case Tracker sheet."
  | Some hearingTracker =>
      let lastRow := List.length (sheetData hearingTracker) in
      if (lastRow - 1 <? 1)%nat then
        Throw "The number of rows in the range must be at least 1."
      else
        collect (map (fun row => [rangeCell 1 row; rangeCell 2 row])
                   (tail (sheetData hearingTracker)))
  end.

End Children.

(* ===================================================================== *)
(** ** The utilities variant of the loader *)
(* ===================================================================== *)

(** The utilities file repeats [loadAutomationInfoSheet],
    [refreshGlobalVariablesCache] and [loadVarsFromProperties] word for
    word, so those of [Config] stand for them; its
    [ensureGlobalVariables] is its own. *)
Module Utilities.

Section Loading.

Variable E : Env.
Variable J : Config.Json.

(** [ensureGlobalVariables(keys, false)] of the utilities file. *)
Definition ensureGlobalVariables (keys : list string) (st : Config.Stores)
    : Result (gmap string string) * Config.Stores :=
  let afterCache :=
    match Config.loadVarsFromProperties J st with
    | Some propsVars =>
        if negb (Config.noKeys propsVars) then
          (Config.filterVars propsVars keys,
           {| Config.scriptCache :=
                <["globalVariables" := Config.stringify J propsVars]> (Config.scriptCache st);
              Config.scriptProperties := Config.scriptProperties st;
              Config.CASE_TRACKER_URL := Config.CASE_TRACKER_URL st;
              Config.SSM_NAME := Config.SSM_NAME st |})
        else
          let '(freshVars, st') := Config.refreshGlobalVariablesCache E J st in
          (Config.filterVars freshVars keys, st')
    | None =>
        let '(freshVars, st') := Config.refreshGlobalVariablesCache E J st in
        (Config.filterVars freshVars keys, st')
    end in
  match Config.scriptCache st !! "globalVariables" with
  | Some cachedVars =>
      if Str.isEmpty cachedVars then afterCache
      else
        match Config.parse J cachedVars with
        | Ok vars => (Config.filterVars vars keys, st)
        | Throw msg => (Throw msg, st)
        end
  | None => afterCache
  end.

End Loading.

End Utilities.

(* ===================================================================== *)
(** ** Sample data for the configuration and the Hearing Tracker *)
(* ===================================================================== *)

Module Sample.

(** The Variables tab: a header, an address with blanks around it, the
    manager's name given twice and a key without a value. *)
Definition variablesTab : list Row :=
  [ [VString "Key"; VString "Value"];
    [VString "caseTrackerUrl"; VString " https://example.org/tracker "];
    [VString "ssmName"; VString "Robin Lake"];
    [VString "ssmEmail"; VString EmptyString];
    [VString "ssmName"; VString "Lee Park"] ].

(** The environment of [Demo] with a Variables tab in the Automation Info
    spreadsheet. *)
Definition envWith (variables : list Row) : Env :=
  let E := Demo.env true in
  {| tzOffset := tzOffset E;
     parseDate := parseDate E;
     dateToString := dateToString E;
     toLocaleDateString := toLocaleDateString E;
     MAIN_WORKER_NAME := MAIN_WORKER_NAME E;
     MAIN_WORKER_EMAIL := MAIN_WORKER_EMAIL E;
     MAIN_SUPERVISOR_NAME := MAIN_SUPERVISOR_NAME E;
     MAIN_SUPERVISOR_EMAIL := MAIN_SUPERVISOR_EMAIL E;
     SSM_NAME := SSM_NAME E;
     SSM_EMAIL := SSM_EMAIL E;
     WORKER_OFFICE_EXTENSION := WORKER_OFFICE_EXTENSION E;
     WORKER_CELL_NUMBER := WORKER_CELL_NUMBER E;
     CONTACT_COMPLETE_MONTHS := CONTACT_COMPLETE_MONTHS E;
     globalsLoad := globalsLoad E;
     automationInfo := fun tab =>
       if String.eqb tab "Variables" then Some variables else automationInfo E tab;
     gmail := gmail E |}.

Definition env : Env := envWith variablesTab.

(** A Variables tab with the two keys that an object treats apart. *)
Definition trapTab : list Row :=
  [ [VString "Key"; VString "Value"];
    [VString "__proto__"; VString "lost"];
    [VString "a"; VString "1"];
    [VString "hasOwnProperty"; VString "yes"] ].

Definition book : gmap string (list Row) := {["Variables" := variablesTab]}.

(** Empty cache, empty properties. *)
Definition stores : Config.Stores :=
  {| Config.scriptCache := ∅;
     Config.scriptProperties := ∅;
     Config.CASE_TRACKER_URL := EmptyString;
     Config.SSM_NAME := EmptyString |}.

(** JSON for objects of texts that hold no double quote and no
    backslash. *)
Definition quote : ascii := ascii_of_nat 34.

Definition quoted (s : string) : string := String quote (s +:+ String quote EmptyString).

Definition stringify (vars : gmap string string) : string :=
  "{" +:+ Str.join "," (map (fun kv => quoted kv.1 +:+ ":" +:+ quoted kv.2) (map_to_list vars))
  +:+ "}".

(** The text up to the next double quote, and what follows the quote. *)
Fixpoint untilQuote (s : string) : option (string * string) :=
  match s with
  | EmptyString => None
  | String c r =>
      if Ascii.eqb c quote then Some (EmptyString, r)
      else match untilQuote r with
           | Some (t, rest) => Some (String c t, rest)
           | None => None
           end
  end.

(** A quoted text at the head of [s], and what follows it. *)
Definition quotedText (s : string) : option (string * string) :=
  match s with
  | String c r => if Ascii.eqb c quote then untilQuote r else None
  | EmptyString => None
  end.

Fixpoint members (fuel : nat) (s : string) (vars : gmap string string)
    : Result (gmap string string) :=
  match fuel with
  | O => Throw "SyntaxError: Unexpected end of JSON input"
  | S fuel =>
      match quotedText s with
      | Some (key, String c r) =>
          if Ascii.eqb c ":" then
            match quotedText r with
            | Some (value, String d rest) =>
                if Ascii.eqb d "," then members fuel rest (<[key := value]> vars)
                else if Ascii.eqb d "}" && Str.isEmpty rest then Ok (<[key := value]> vars)
                else Throw "SyntaxError: Unexpected token in JSON"
            | _ => Throw "SyntaxError: Unexpected token in JSON"
            end
          else Throw "SyntaxError: Unexpected token in JSON"
      | _ => Throw "SyntaxError: Unexpected token in JSON"
      end
  end.

Definition parse (s : string) : Result (gmap string string) :=
  match s with
  | String c r =>
      if Ascii.eqb c "{" then
        if String.eqb r "}" then Ok ∅ else members (String.length r) r ∅
      else Throw "SyntaxError: Unexpected token in JSON"
  | EmptyString => Throw "SyntaxError: Unexpected end of JSON input"
  end.

Definition json : Config.Json := {| Config.stringify := stringify; Config.parse := parse |}.


(** The list of contact sheets as text: [name:column] pieces separated by
    semicolons, for tab names without colon and semicolon. *)
Definition stringifySheets (sheets : list (string * nat)) : string :=
  Str.join ";" (map (fun sheet => sheet.1 +:+ ":" +:+ pretty sheet.2) sheets).

Definition digits (s : string) : nat :=
  fold_left (fun n c => (10 * n + (nat_of_ascii c - 48))%nat) (list_ascii_of_string s) 0%nat.

Fixpoint pieces (texts : list string) : Result (list (string * nat)) :=
  match texts with
  | [] => Ok []
  | text :: rest =>
      match Str.split ":" text, pieces rest with
      | [name; column], Ok more => Ok ((name, digits column) :: more)
      | _, _ => Throw "SyntaxError: Unexpected token in JSON"
      end
  end.

Definition parseSheets (s : string) : Result (list (string * nat)) :=
  pieces (Str.split ";" s).

(** A Hearing Tracker with two cases: two children, listed with stray
    blanks and a trailing comma, and one child. *)
Definition hearingTracker : Sheet :=
  {| sheetName := "Hearing Tracker";
     sheetData :=
       [ [VString "Case Name"; VString "Case Number"; VString "Children"];
         [VString "Doe, Jane"; VString "24-JA-17"; VString "Ann Doe , Ben Doe,"];
         [VString "Roe, Max"; VNumber 2419; VString "Cal Roe"];
         [VString "Poe, Kim"; VString EmptyString; VString "Dee Poe"] ] |}.

(** A summary row whose Case Name cell holds a number, and a contact row
    whose Seen By cell holds one. *)
Definition numberNameRow : Row := <[0%nat := VNumber 7]> Demo.dueRow.
Definition numberSeenByRow : Row := <[3%nat := VNumber 7]> Demo.januaryRow.

(** The summary of [Demo.dueRow], submitted. *)
Definition submittedRow : Row :=
  Demo.summaryRow "Doe, Jane" Demo.empty (VDate (Demo.at_ 2024 3 10 0)) true.

End Sample.

(* ===================================================================== *)
(** * Properties *)
(* ===================================================================== *)

Import JsDate.

(** ** Day arithmetic in a zone that keeps one offset *)

Lemma msPerDay_pos : 0 < msPerDay.
Proof. reflexivity. Qed.

Lemma floorDiv_bounds (a : Z) :
  floorDiv a msPerDay * msPerDay <= a < (floorDiv a msPerDay + 1) * msPerDay.
Proof.
  unfold floorDiv.
  pose proof (Z.div_mod a msPerDay ltac:(discriminate)) as Hdm.
  pose proof (Z.mod_pos_bound a msPerDay msPerDay_pos) as Hb.
  lia.
Qed.

Lemma fixedZone_fixed (c : Z) : fixedOffset (fixedZone c) c.
Proof. split; reflexivity. Qed.

Section DayFacts.

Variable zone : Zone.
Variable c : Z.
Hypothesis Hfixed : fixedOffset zone c.

Lemma localTime_fixed (t : Z) : localTime zone t = t + c.
Proof. unfold localTime. now rewrite (proj1 Hfixed). Qed.

Lemma localDay_fixed (t : Z) : localDay zone t = (t + c) / msPerDay.
Proof. unfold localDay. now rewrite localTime_fixed. Qed.

Lemma addDays_fixed (t k : Z) : addDays zone t k = t + k * msPerDay.
Proof. unfold addDays. rewrite (proj2 Hfixed), localTime_fixed. lia. Qed.

Lemma localDay_addDays (t k : Z) : localDay zone (addDays zone t k) = localDay zone t + k.
Proof.
  rewrite addDays_fixed, !localDay_fixed.
  replace (t + k * msPerDay + c) with (t + c + k * msPerDay) by lia.
  apply Z.div_add. discriminate.
Qed.

Lemma localDay_bounds (t : Z) :
  localDay zone t * msPerDay <= t + c < (localDay zone t + 1) * msPerDay.
Proof.
  rewrite localDay_fixed.
  pose proof (Z.div_mod (t + c) msPerDay ltac:(discriminate)) as Hdm.
  pose proof (Z.mod_pos_bound (t + c) msPerDay msPerDay_pos) as Hb.
  lia.
Qed.

(** Whole days between two instants lie within one of the difference of
    their local day numbers. *)
Lemma floorDiv_localDay (t d : Z) :
  localDay zone t - localDay zone d - 1 <= floorDiv (t - d) msPerDay
  <= localDay zone t - localDay zone d.
Proof.
  pose proof (localDay_bounds t) as Ht.
  pose proof (localDay_bounds d) as Hd.
  pose proof (floorDiv_bounds (t - d)) as Hq.
  pose proof msPerDay_pos as Hp.
  split; nia.
Qed.

(** Counted from a local midnight, whole days are the difference of the
    day numbers whatever the time of day of the later instant. *)
Lemma floorDiv_from_midnight (t d : Z) :
  atMidnight zone d -> floorDiv (t - d) msPerDay = localDay zone t - localDay zone d.
Proof.
  unfold atMidnight. rewrite localTime_fixed. intros Hmid.
  pose proof (localDay_bounds t) as Ht.
  pose proof (floorDiv_bounds (t - d)) as Hq.
  pose proof msPerDay_pos as Hp.
  assert (Hd : d + c = localDay zone d * msPerDay).
  { rewrite localDay_fixed.
    pose proof (Z.div_mod (d + c) msPerDay ltac:(discriminate)) as Hdm. lia. }
  nia.
Qed.

End DayFacts.

(** ** Court-summary reminders *)

Section SummaryFacts.

Import Summary.

Variable E : Env.

Local Abbreviation zone := (tzOffset E).

Lemma template_nonempty (parts : list string) :
  Str.isEmpty (String.concat EmptyString (Emails.nl :: parts)) = false.
Proof. destruct parts; reflexivity. Qed.

(** Every branch of the chain sets a subject, a body and a recipient. *)
Lemma chooseEmail_filled (today d : Z) (courtDate : option (option Z))
    (lastName : string) (link : Cell) :
  tierOf E today d <> NoTier ->
  let '(subject, body, recipients) := chooseEmail E today d courtDate lastName link in
  ((List.length recipients =? 0)%nat || Str.isEmpty subject || Str.isEmpty body) = false.
Proof.
  unfold chooseEmail. destruct (tierOf E today d); intros Hne; try reflexivity.
  congruence.
Qed.

(** What the loop body does with a row that passes the skip test. *)
Lemma processRow_eligible (today d : Z) (row : Row) (lastName : string) (w : World) :
  lastNameOf (col 0 row) = Ok lastName ->
  Str.isEmpty lastName = false ->
  submitted row = false ->
  dateOrNull E (col 7 row) = Some (Some d) ->
  processRow E today row w =
    match tierOf E today d with
    | NoTier => (Ok tt, w)
    | _ =>
        let '(subject, body, recipients) :=
          chooseEmail E today d (dateOrNull E (col 4 row)) lastName (col 12 row) in
        tryCatch
          (sendEmailWithHtml E (filter (fun e => notBlank e = true) recipients) subject body)
          (fun _ => ret tt) w
    end.
Proof.
  intros Hname Hne Hsub Hdue.
  unfold processRow, bind, liftResult. rewrite Hname, Hdue, Hsub, Hne. cbn [orb].
  pose proof (chooseEmail_filled today d (dateOrNull E (col 4 row)) lastName (col 12 row)) as Hfill.
  destruct (tierOf E today d) eqn:Htier;
    try (destruct (chooseEmail E today d (dateOrNull E (col 4 row)) lastName (col 12 row))
           as [[subject body] recipients];
         rewrite Hfill by discriminate; reflexivity).
  unfold chooseEmail. rewrite Htier. reflexivity.
Qed.

Lemma send_attempt_counted (to : list string) (subject body : string) (w : World) :
  attempts (tryCatch (sendEmailWithHtml E to subject body) (fun _ => ret tt) w).2
  = S (attempts w).
Proof.
  unfold tryCatch, sendEmailWithHtml, GmailApp_sendEmail, ret.
  destruct (gmail E (attempts w) _); reflexivity.
Qed.

Lemma filter_notBlank_all (rs : list string) :
  Forall (fun e => notBlank e = true) rs -> filter (fun e => notBlank e = true) rs = rs.
Proof.
  induction 1 as [| e rest He _ IH]; [reflexivity |].
  rewrite filter_cons_True by exact He. now rewrite IH.
Qed.

(** The branch taken, read off the tests of the chain. *)
Lemma tierOf_tests (today dueDate : Z) :
  (toDateString zone today = toDateString zone (firstReminderDate E dueDate) ->
   tierOf E today dueDate = PreDue) /\
  (toDateString zone today <> toDateString zone (firstReminderDate E dueDate) ->
   toDateString zone today = toDateString zone dueDate ->
   tierOf E today dueDate = DueToday) /\
  (toDateString zone today <> toDateString zone (firstReminderDate E dueDate) ->
   toDateString zone today <> toDateString zone dueDate ->
   tierOf E today dueDate
   = if (0 <? daysLate today dueDate) && (daysLate today dueDate <? 7) then MinorOverdue
     else if 7 <=? daysLate today dueDate then SevereOverdue
     else NoTier).
Proof.
  unfold tierOf, Summary.tz. repeat split.
  - intros ->. now rewrite Z.eqb_refl.
  - intros Hpre Hday. apply Z.eqb_neq in Hpre. apply Z.eqb_eq in Hday.
    now rewrite Hpre, Hday.
  - intros Hpre Hday. apply Z.eqb_neq in Hpre, Hday. now rewrite Hpre, Hday.
Qed.

(** C7.  For a row that passes the skip test, the message goes to the
    non-blank addresses of the branch taken: the worker alone on the day
    before the due date and on the due date; on any other day, worker and
    supervisor when 1 to 6 days late, and worker, supervisor and manager
    when 7 or more days late; these are all of the tier's addresses when
    none of them is blank.  The row's whole effect is that one send, its
    failure swallowed. *)
Theorem summary_recipients_by_tier (today dueDate : Z) (row : Row) (lastName : string)
    (w : World) :
  lastNameOf (col 0 row) = Ok lastName ->
  Str.isEmpty lastName = false ->
  submitted row = false ->
  dateOrNull E (col 7 row) = Some (Some dueDate) ->
  let late := daysLate today dueDate in
  let dayBefore := toDateString zone today = toDateString zone (firstReminderDate E dueDate) in
  let dueDay := toDateString zone today = toDateString zone dueDate in
  let sendsTo (rs : list string) :=
    exists m : Mail,
      mailTo m = Str.join "," (filter (fun e => notBlank e = true) rs) /\
      (Forall (fun e => notBlank e = true) rs -> mailTo m = Str.join "," rs) /\
      mailBcc m = EmptyString /\
      processRow E today row w = tryCatch (GmailApp_sendEmail E m) (fun _ => ret tt) w in
  (dayBefore \/ dueDay -> sendsTo [MAIN_WORKER_EMAIL E]) /\
  (~ dayBefore -> ~ dueDay -> 0 < late < 7 ->
   sendsTo [MAIN_WORKER_EMAIL E; MAIN_SUPERVISOR_EMAIL E]) /\
  (~ dayBefore -> ~ dueDay -> 7 <= late ->
   sendsTo [MAIN_WORKER_EMAIL E; MAIN_SUPERVISOR_EMAIL E; SSM_EMAIL E]).
Proof.
  intros Hname Hne Hsub Hdue late dayBefore dueDay sendsTo.
  pose proof (processRow_eligible today dueDate row lastName w Hname Hne Hsub Hdue) as Hrow.
  destruct (tierOf_tests today dueDate) as (Hpre & Hday & Hlate).
  fold dayBefore dueDay late in Hpre, Hday, Hlate.
  assert (Hsends : forall (rs : list string) (subject body : string),
            processRow E today row w
            = tryCatch (sendEmailWithHtml E (filter (fun e => notBlank e = true) rs)
                          subject body) (fun _ => ret tt) w ->
            sendsTo rs).
  { intros rs subject body Hrun. eexists. split; [| split; [| split; [| exact Hrun]]].
    - reflexivity.
    - intros Hall. cbn [mailTo]. now rewrite filter_notBlank_all.
    - reflexivity. }
  unfold chooseEmail in Hrow.
  assert (Hcases : dayBefore \/ ~ dayBefore).
  { unfold dayBefore. destruct (Z.eq_dec (toDateString zone today)
                                  (toDateString zone (firstReminderDate E dueDate))); auto. }
  split; [| split].
  - intros Hor. destruct Hcases as [Hb | Hnb].
    + rewrite (Hpre Hb) in Hrow. exact (Hsends _ _ _ Hrow).
    + destruct Hor as [Hb | Hd]; [contradiction |].
      rewrite (Hday Hnb Hd) in Hrow. exact (Hsends _ _ _ Hrow).
  - intros Hnb Hnd [Hpos Hlt]. rewrite (Hlate Hnb Hnd) in Hrow.
    replace (0 <? late) with true in Hrow by (symmetry; apply Z.ltb_lt; lia).
    replace (late <? 7) with true in Hrow by (symmetry; apply Z.ltb_lt; lia).
    cbn [andb] in Hrow. exact (Hsends _ _ _ Hrow).
  - intros Hnb Hnd Hsev. rewrite (Hlate Hnb Hnd) in Hrow.
    replace (late <? 7) with false in Hrow by (symmetry; apply Z.ltb_ge; lia).
    rewrite andb_false_r in Hrow.
    replace (7 <=? late) with true in Hrow by (symmetry; apply Z.leb_le; lia).
    exact (Hsends _ _ _ Hrow).
Qed.

(** *** In a zone that keeps one offset *)

Section FixedZone.

Variable c : Z.
Hypothesis Hfixed : fixedOffset zone c.

Lemma firstReminder_day (dueDate : Z) :
  toDateString zone (firstReminderDate E dueDate) = toDateString zone dueDate - 1.
Proof.
  unfold toDateString, firstReminderDate, Summary.tz.
  rewrite (localDay_addDays zone c Hfixed). lia.
Qed.

(** The chain read off the day numbers and the count of whole days. *)
Lemma tierOf_cases (today dueDate : Z) :
  tierOf E today dueDate =
    if localDay zone today =? localDay zone dueDate - 1 then PreDue
    else if localDay zone today =? localDay zone dueDate then DueToday
    else if (0 <? daysLate today dueDate) && (daysLate today dueDate <? 7) then MinorOverdue
    else if 7 <=? daysLate today dueDate then SevereOverdue
    else NoTier.
Proof.
  unfold tierOf, Summary.tz. rewrite firstReminder_day. reflexivity.
Qed.

(** A summary that is late by a day or more is past both the day before
    its due date and the due date itself. *)
Lemma late_not_due (today dueDate : Z) :
  0 < daysLate today dueDate ->
  (localDay zone today =? localDay zone dueDate - 1) = false /\
  (localDay zone today =? localDay zone dueDate) = false.
Proof.
  unfold daysLate. intros Hlate.
  pose proof (floorDiv_localDay zone c Hfixed today dueDate) as Hq.
  split; apply Z.eqb_neq; lia.
Qed.

(** X30.  In a script time zone that keeps one offset all year, for a row
    that passes the skip test (not submitted, a case name, a readable due
    date) and whose due date is a date without a time of day, the tier is
    fixed by the count of whole days late: the day before the due date is
    exactly [daysLate = -1], the due date exactly [daysLate = 0], the
    minor tier exactly [0 < daysLate < 7], the severe tier exactly
    [7 <= daysLate]; no branch is taken, and no email attempted, exactly
    when [daysLate < -1]. *)
Theorem summary_tier_partition (today dueDate : Z) (row : Row) (lastName : string)
    (w : World) :
  lastNameOf (col 0 row) = Ok lastName ->
  Str.isEmpty lastName = false ->
  submitted row = false ->
  dateOrNull E (col 7 row) = Some (Some dueDate) ->
  atMidnight zone dueDate ->
  let late := daysLate today dueDate in
  let tier := tierOf E today dueDate in
  (toDateString zone today = toDateString zone (firstReminderDate E dueDate) <-> late = -1) /\
  (toDateString zone today = toDateString zone dueDate <-> late = 0) /\
  (tier = PreDue <-> late = -1) /\
  (tier = DueToday <-> late = 0) /\
  (tier = MinorOverdue <-> 0 < late < 7) /\
  (tier = SevereOverdue <-> 7 <= late) /\
  (tier = NoTier <-> late < -1) /\
  (attempts (processRow E today row w).2 = attempts w <-> late < -1).
Proof.
  intros Hname Hne Hsub Hdue Hmid late tier.
  assert (Hlate : late = localDay zone today - localDay zone dueDate).
  { apply (floorDiv_from_midnight zone c Hfixed). exact Hmid. }
  assert (Htier : tier =
            if late =? -1 then PreDue
            else if late =? 0 then DueToday
            else if (0 <? late) && (late <? 7) then MinorOverdue
            else if 7 <=? late then SevereOverdue
            else NoTier).
  { subst tier. rewrite tierOf_cases. fold late.
    replace (localDay zone today =? localDay zone dueDate - 1) with (late =? -1)
      by (destruct (Z.eqb_spec late (-1)), (Z.eqb_spec (localDay zone today)
            (localDay zone dueDate - 1)); lia).
    replace (localDay zone today =? localDay zone dueDate) with (late =? 0)
      by (destruct (Z.eqb_spec late 0), (Z.eqb_spec (localDay zone today)
            (localDay zone dueDate)); lia).
    reflexivity. }
  clearbody late.
  assert (Hchain : forall t : Tier, tier = t <->
            match t with
            | PreDue => late = -1
            | DueToday => late = 0
            | MinorOverdue => 0 < late < 7
            | SevereOverdue => 7 <= late
            | NoTier => late < -1
            end).
  { intros t. rewrite Htier.
    destruct (Z.eqb_spec late (-1)), (Z.eqb_spec late 0), (Z.ltb_spec 0 late),
      (Z.ltb_spec late 7), (Z.leb_spec 7 late); cbn [andb];
      destruct t; split; intros; try discriminate; try lia; reflexivity. }
  pose proof (Hchain NoTier) as Hnone. cbn beta iota in Hnone.
  rewrite firstReminder_day. unfold toDateString.
  split; [lia |]. split; [lia |].
  split; [exact (Hchain PreDue) |]. split; [exact (Hchain DueToday) |].
  split; [exact (Hchain MinorOverdue) |]. split; [exact (Hchain SevereOverdue) |].
  split; [exact Hnone |]. split.
  - intros Hsame. apply Hnone.
    rewrite (processRow_eligible today dueDate row lastName w Hname Hne Hsub Hdue) in Hsame.
    fold tier in Hsame.
    destruct tier; try reflexivity;
      destruct (chooseEmail E today dueDate (dateOrNull E (col 4 row)) lastName (col 12 row))
        as [[subject body] recipients];
      rewrite send_attempt_counted in Hsame; lia.
  - intros Hlt. apply Hnone in Hlt.
    rewrite (processRow_eligible today dueDate row lastName w Hname Hne Hsub Hdue).
    fold tier. rewrite Hlt. reflexivity.
Qed.

End FixedZone.

End SummaryFacts.

(** C1.  In the zone of New York a summary due on Sunday 10 March 2024
    (a date without a time of day) is looked at on Monday 11 March at
    00:30.  The clocks went forward on the 10th, so 23 and a half hours
    have passed: the summary is 0 whole days late, the run is on neither
    the due date nor the day before, no branch of the chain is taken and
    nothing is sent, on the first day the summary is overdue. *)
Lemma summary_gap_after_clock_change :
  JsDate.atMidnight Eastern.zone (Eastern.at_ 2024 3 10 0 0) /\
  JsDate.toDateString Eastern.zone (Eastern.at_ 2024 3 11 0 30)
  = JsDate.toDateString Eastern.zone (Eastern.at_ 2024 3 10 0 0) + 1 /\
  Summary.daysLate (Eastern.at_ 2024 3 11 0 30) (Eastern.at_ 2024 3 10 0 0) = 0 /\
  Summary.tierOf Eastern.env (Eastern.at_ 2024 3 11 0 30) (Eastern.at_ 2024 3 10 0 0)
    = Summary.NoTier /\
  Summary.processRow Eastern.env (Eastern.at_ 2024 3 11 0 30) Eastern.dueRow (Demo.world [])
    = (Ok tt, Demo.world []).
Proof. vm_compute. repeat split; reflexivity. Qed.

(** The same gap without a clock change, when the due date carries a time
    of day: due at noon on 10 March 2024 and run at 08:00 on 11 March, in
    a zone five hours behind UTC all year. *)
Lemma summary_tier_gap_when_due_has_time :
  Summary.daysLate (Demo.at_ 2024 3 11 8) (Demo.at_ 2024 3 10 12) = 0 /\
  Summary.tierOf (Demo.env true) (Demo.at_ 2024 3 11 8) (Demo.at_ 2024 3 10 12)
    = Summary.NoTier /\
  Summary.processRow (Demo.env true) (Demo.at_ 2024 3 11 8) Demo.dueNoonRow (Demo.world [])
    = (Ok tt, Demo.world []).
Proof. vm_compute. repeat split; reflexivity. Qed.

(** The day before the due date can be two whole days early: a summary
    due on Monday 4 November 2024 and looked at on Sunday the 3rd at
    00:30, before the clocks go back, is 24 and a half hours ahead. *)
Lemma day_before_due_two_days_early :
  Summary.daysLate (Eastern.at_ 2024 11 3 0 30) (Eastern.at_ 2024 11 4 0 0) = -2 /\
  Summary.tierOf Eastern.env (Eastern.at_ 2024 11 3 0 30) (Eastern.at_ 2024 11 4 0 0)
    = Summary.PreDue.
Proof. vm_compute. split; reflexivity. Qed.

(** On the day the clocks go back the count of whole days runs ahead of
    the calendar: a summary due on Sunday 3 November 2024 and looked at
    that evening at 23:30 is 1 whole day late, and the branch taken is
    still the one of the due date, to the worker alone. *)
Lemma late_by_a_day_on_the_due_date :
  Summary.daysLate (Eastern.at_ 2024 11 3 23 30) (Eastern.at_ 2024 11 3 0 0) = 1 /\
  Summary.tierOf Eastern.env (Eastern.at_ 2024 11 3 23 30) (Eastern.at_ 2024 11 3 0 0)
    = Summary.DueToday.
Proof. vm_compute. split; reflexivity. Qed.

(** Scenario A of the summary rules: due 10 March 2024, run on 9 March. *)
Lemma summary_tier_partition_witness :
  Summary.daysLate (Demo.at_ 2024 3 9 9) (Demo.at_ 2024 3 10 0) = -1 /\
  Summary.tierOf (Demo.env true) (Demo.at_ 2024 3 9 9) (Demo.at_ 2024 3 10 0)
    = Summary.PreDue.
Proof.
  assert (Hzone : fixedOffset Demo.zone (-18000000)) by (split; reflexivity).
  destruct (summary_tier_partition (Demo.env true) (-18000000) Hzone (Demo.at_ 2024 3 9 9)
              (Demo.at_ 2024 3 10 0) Demo.dueRow "Doe" (Demo.world []))
    as (_ & _ & Hpre & _); [vm_compute; reflexivity .. |].
  split; [vm_compute; reflexivity |].
  apply Hpre. vm_compute. reflexivity.
Defined.

(** Scenario C: due 10 March 2024, run on 20 March, not submitted. *)
Lemma summary_recipients_by_tier_witness :
  Summary.daysLate (Demo.at_ 2024 3 20 9) (Demo.at_ 2024 3 10 0) = 10 /\
  exists m : Mail,
    mailTo m = "worker@example.org,supervisor@example.org,manager@example.org" /\
    mailBcc m = EmptyString /\
    Summary.processRow (Demo.env true) (Demo.at_ 2024 3 20 9) Demo.dueRow (Demo.world [])
    = tryCatch (GmailApp_sendEmail (Demo.env true) m) (fun _ => ret tt) (Demo.world []).
Proof.
  split; [vm_compute; reflexivity |].
  destruct (summary_recipients_by_tier (Demo.env true) (Demo.at_ 2024 3 20 9)
              (Demo.at_ 2024 3 10 0) Demo.dueRow "Doe" (Demo.world []))
    as (_ & _ & Hsevere); [vm_compute; reflexivity .. |].
  destruct Hsevere as (m & Hto & _ & Hbcc & Hrun);
    [vm_compute; discriminate | vm_compute; discriminate | vm_compute; discriminate |].
  exists m. split; [| split]; [| exact Hbcc | exact Hrun].
  rewrite Hto. vm_compute. reflexivity.
Defined.

(** ** Strings *)

Lemma append_nil_r (s : string) : s +:+ EmptyString = s.
Proof. induction s as [| c s IH]; [reflexivity |]. change (String c (s +:+ EmptyString) = String c s). now rewrite IH. Qed.

Lemma append_assoc (a b c : string) : (a +:+ b) +:+ c = a +:+ (b +:+ c).
Proof.
  induction a as [| x a IH]; [reflexivity |].
  change (String x ((a +:+ b) +:+ c) = String x (a +:+ (b +:+ c))). now rewrite IH.
Qed.

Lemma concat_cons (h : string) (t : list string) :
  String.concat EmptyString (h :: t) = h +:+ String.concat EmptyString t.
Proof.
  destruct t as [| h' t]; [symmetry; apply append_nil_r | reflexivity].
Qed.

Lemma concat_app (l1 l2 : list string) :
  String.concat EmptyString (l1 ++ l2)
  = String.concat EmptyString l1 +:+ String.concat EmptyString l2.
Proof.
  induction l1 as [| h t IH]; [reflexivity |].
  rewrite <- app_comm_cons, !concat_cons, IH, append_assoc. reflexivity.
Qed.

(** A piece of a concatenation, followed by the start of the next piece,
    occurs in the whole. *)
Lemma contains_here (a b1 b2 : string) (after : list string) :
  Str.contains (a +:+ b1) (String.concat EmptyString (a :: (b1 +:+ b2) :: after)).
Proof.
  exists EmptyString, (b2 +:+ String.concat EmptyString after).
  rewrite !concat_cons, !append_assoc. reflexivity.
Qed.

Lemma contains_later (needle h : string) (t : list string) :
  Str.contains needle (String.concat EmptyString t) ->
  Str.contains needle (String.concat EmptyString (h :: t)).
Proof.
  intros (pre & post & Heq). exists (h +:+ pre), post.
  rewrite concat_cons, Heq, append_assoc. reflexivity.
Qed.

(** ** Contact reminders: one row *)

Section ContactRowFacts.

Import Contact.

Variable E : Env.

Local Abbreviation zone := (tzOffset E).

Section SendAndStamp.

Variables (recipients bccList : list Cell) (childName : Cell) (body : string).
Variables (today : Z) (sheet rowIndex : nat) (w : World).

Local Abbreviation m := (reminderMail E recipients bccList childName body).

Lemma sendAndStamp_delivered :
  gmail E (attempts w) m = true ->
  sendAndStamp E recipients bccList childName body today sheet rowIndex w
  = (Ok true,
     (setValue sheet rowIndex 6 (VString (formatMMddyyyy zone today)) (delivered m w)).2).
Proof.
  intros Hok. unfold sendAndStamp, tryCatch, bind, GmailApp_sendEmail.
  rewrite Hok. reflexivity.
Qed.

Lemma sendAndStamp_failed :
  gmail E (attempts w) m = false ->
  sendAndStamp E recipients bccList childName body today sheet rowIndex w
  = (Ok false, undelivered w).
Proof.
  intros Hfail. unfold sendAndStamp, tryCatch, bind, GmailApp_sendEmail.
  rewrite Hfail. reflexivity.
Qed.

(** A reminder counted as sent put exactly its message in the outbox. *)
Lemma sendAndStamp_true (w' : World) :
  sendAndStamp E recipients bccList childName body today sheet rowIndex w = (Ok true, w') ->
  outbox w' = outbox w ++ [m] /\ gmail E (attempts w) m = true.
Proof.
  destruct (gmail E (attempts w) m) eqn:Hg.
  - rewrite sendAndStamp_delivered by exact Hg. intros [= <-]. split; reflexivity.
  - rewrite sendAndStamp_failed by exact Hg. discriminate.
Qed.

End SendAndStamp.

Lemma sendContactReminderRow_resolved (row : Row) (today dateSeen : Z)
    (who : Cell * Cell * string * string) (sheet rowIndex : nat) (w : World) :
  resolveWorker E (col 3 row) = Ok (Some who) ->
  newDate E (col 2 row) = Some dateSeen ->
  sendContactReminderRow E row today sheet rowIndex w
  = let '(workerEmail, supervisorEmail, workerName, supervisorName) := who in
    sendAndStamp E [workerEmail] (bccFor E supervisorEmail today) (col 0 row)
      (reminderBody E workerName supervisorName (col 0 row) (col 1 row) dateSeen today)
      today sheet rowIndex w.
Proof.
  unfold resolveWorker, sendContactReminderRow, bind, liftResult.
  intros Hwho Hdate.
  destruct (Directory.getWorkerInfoByName E (col 3 row)) as [empInfo | msg]; [| discriminate].
  destruct (isMainWorker E (col 3 row)).
  - injection Hwho as <-. rewrite Hdate. reflexivity.
  - destruct empInfo as [info |]; [| discriminate].
    injection Hwho as <-. rewrite Hdate. reflexivity.
Qed.

(** The outcome of the row when its delivery fails, and when it works. *)
Lemma sendContactReminderRow_failed (row : Row) (today dateSeen : Z)
    (who : Cell * Cell * string * string) (sheet rowIndex : nat) (w : World) :
  resolveWorker E (col 3 row) = Ok (Some who) ->
  newDate E (col 2 row) = Some dateSeen ->
  gmail E (attempts w) (rowMail E row today dateSeen who) = false ->
  sendContactReminderRow E row today sheet rowIndex w = (Ok false, undelivered w).
Proof.
  intros Hwho Hdate Hfail.
  rewrite (sendContactReminderRow_resolved row today dateSeen who) by assumption.
  destruct who as [[[we se] wn] sn]. apply sendAndStamp_failed. exact Hfail.
Qed.

Lemma sendContactReminderRow_miss (row : Row) (today : Z) (sheet rowIndex : nat)
    (w : World) :
  resolveWorker E (col 3 row) = Ok None ->
  sendContactReminderRow E row today sheet rowIndex w = (Ok false, w).
Proof.
  unfold resolveWorker, sendContactReminderRow, bind, liftResult. intros Hwho.
  destruct (Directory.getWorkerInfoByName E (col 3 row)) as [empInfo | msg]; [| discriminate].
  destruct (isMainWorker E (col 3 row)); [discriminate |].
  destruct empInfo as [info |]; [discriminate | reflexivity].
Qed.

Lemma sendContactReminderRow_raises (row : Row) (today : Z) (sheet rowIndex : nat)
    (w : World) (msg : string) :
  resolveWorker E (col 3 row) = Throw msg ->
  sendContactReminderRow E row today sheet rowIndex w = (Throw msg, w).
Proof.
  unfold resolveWorker, sendContactReminderRow, bind, liftResult. intros Hwho.
  destruct (Directory.getWorkerInfoByName E (col 3 row)) as [empInfo | msg'].
  - destruct (isMainWorker E (col 3 row)); [discriminate |].
    destruct empInfo; discriminate.
  - injection Hwho as ->. reflexivity.
Qed.

(** A call that reports a reminder sent resolved a worker, read a date and
    delivered the message composed from them. *)
Lemma sendContactReminderRow_true (row : Row) (today : Z) (sheet rowIndex : nat)
    (w w' : World) :
  sendContactReminderRow E row today sheet rowIndex w = (Ok true, w') ->
  exists (who : Cell * Cell * string * string) (dateSeen : Z),
    resolveWorker E (col 3 row) = Ok (Some who) /\
    newDate E (col 2 row) = Some dateSeen /\
    outbox w' = outbox w ++ [rowMail E row today dateSeen who].
Proof.
  intros Hrun.
  destruct (resolveWorker E (col 3 row)) as [[who |] | msg] eqn:Hwho.
  - destruct (newDate E (col 2 row)) as [dateSeen |] eqn:Hdate.
    + rewrite (sendContactReminderRow_resolved row today dateSeen who) in Hrun by assumption.
      exists who, dateSeen. destruct who as [[[we se] wn] sn].
      apply sendAndStamp_true in Hrun as [Hout _]. auto.
    + exfalso. revert Hrun Hwho.
      unfold resolveWorker, sendContactReminderRow, bind, liftResult.
      destruct (Directory.getWorkerInfoByName E (col 3 row)) as [empInfo | msg];
        [| discriminate].
      rewrite Hdate. destruct (isMainWorker E (col 3 row)); [discriminate |].
      destruct empInfo; discriminate.
  - rewrite sendContactReminderRow_miss in Hrun by assumption. discriminate.
  - rewrite (sendContactReminderRow_raises row today sheet rowIndex w msg) in Hrun
      by assumption.
    discriminate.
Qed.

Lemma join_one (x : string) : Str.join "," [x] = x.
Proof. reflexivity. Qed.

(** C2 (as amended).  For every contact reminder that is sent and is not
    a post-month one, the worker is the only visible recipient.  When 7
    days or fewer remain in the month the body is the reprimanding one and
    the blind copies go to the supervisor and to the manager; otherwise
    the body is the standard one and the only blind copy goes to the
    supervisor.  The supervisor is never a visible recipient. *)
Theorem contact_recipients_by_tier (row : Row) (today : Z) (sheet rowIndex : nat)
    (w w' : World) :
  sendContactReminderRow E row today sheet rowIndex w = (Ok true, w') ->
  exists (workerEmail supervisorEmail : Cell) (workerName supervisorName : string)
         (dateSeen : Z) (m : Mail),
    resolveWorker E (col 3 row)
      = Ok (Some (workerEmail, supervisorEmail, workerName, supervisorName)) /\
    newDate E (col 2 row) = Some dateSeen /\
    outbox w' = outbox w ++ [m] /\
    mailTo m = joinStr E workerEmail /\
    (getMonth zone today <= getMonth zone dateSeen ->
     (daysRemainingInMonth E today <= 7 ->
      mailHtml m = Emails.getReprimandingContactReminderHtml E workerName supervisorName
                     (toStr E (col 0 row)) (toStr E (col 1 row))
                     (formatMMddyyyy zone dateSeen)
                     (floorDiv (today - dateSeen) msPerDay) (daysRemainingInMonth E today) /\
      mailBcc m = Str.join "," [joinStr E supervisorEmail; SSM_EMAIL E]) /\
     (7 < daysRemainingInMonth E today ->
      mailHtml m = Emails.getStandardContactReminderHtml E workerName supervisorName
                     (toStr E (col 0 row)) (toStr E (col 1 row))
                     (formatMMddyyyy zone dateSeen)
                     (floorDiv (today - dateSeen) msPerDay) (daysRemainingInMonth E today) /\
      mailBcc m = joinStr E supervisorEmail)).
Proof.
  intros Hrun.
  apply sendContactReminderRow_true in Hrun as ([[[we se] wn] sn] & dateSeen & Hwho & Hdate & Hout).
  exists we, se, wn, sn, dateSeen, (rowMail E row today dateSeen (we, se, wn, sn)).
  split; [exact Hwho |]. split; [exact Hdate |]. split; [exact Hout |].
  split; [reflexivity |].
  intros Hmonth. unfold rowMail, reminderMail, reminderBody, bccFor. cbn [mailHtml mailBcc].
  replace (getMonth (Contact.tz E) dateSeen <? getMonth (Contact.tz E) today) with false
    by (symmetry; apply Z.ltb_ge; exact Hmonth).
  split; intros Hdays.
  - replace (daysRemainingInMonth E today <=? 7) with true
      by (symmetry; apply Z.leb_le; exact Hdays).
    split; reflexivity.
  - replace (daysRemainingInMonth E today <=? 7) with false
      by (symmetry; apply Z.leb_gt; exact Hdays).
    split; reflexivity.
Qed.

(** C9.  For every contact reminder that is sent, whatever its tier, the
    blind copies are the supervisor found for the row, followed by the
    manager exactly when 7 days or fewer remain in the month of the run.
    So a post-month reminder sent with more than 7 days remaining goes to
    the supervisor alone in blind copy, while its body says that the
    supervisor and the manager have been notified of the delay. *)
Theorem manager_bcc_iff_last_week (row : Row) (today : Z) (sheet rowIndex : nat)
    (w w' : World) :
  sendContactReminderRow E row today sheet rowIndex w = (Ok true, w') ->
  exists (workerEmail supervisorEmail : Cell) (workerName supervisorName : string)
         (dateSeen : Z) (bccList : list Cell) (body : string),
    resolveWorker E (col 3 row)
      = Ok (Some (workerEmail, supervisorEmail, workerName, supervisorName)) /\
    newDate E (col 2 row) = Some dateSeen /\
    outbox w' = outbox w ++ [reminderMail E [workerEmail] bccList (col 0 row) body] /\
    mailBcc (reminderMail E [workerEmail] bccList (col 0 row) body)
    = Str.join "," (map (joinStr E) bccList) /\
    (daysRemainingInMonth E today <= 7 ->
     bccList = [supervisorEmail; VString (SSM_EMAIL E)]) /\
    (7 < daysRemainingInMonth E today -> bccList = [supervisorEmail]) /\
    (In (VString (SSM_EMAIL E)) (tail bccList) <-> daysRemainingInMonth E today <= 7) /\
    (getMonth zone dateSeen < getMonth zone today ->
     7 < daysRemainingInMonth E today ->
     mailBcc (reminderMail E [workerEmail] bccList (col 0 row) body)
     = joinStr E supervisorEmail /\
     Str.contains (SSM_NAME E +:+ " have been notified of this delay") body).
Proof.
  intros Hrun.
  apply sendContactReminderRow_true in Hrun as ([[[we se] wn] sn] & dateSeen & Hwho & Hdate & Hout).
  exists we, se, wn, sn, dateSeen, (bccFor E se today),
    (reminderBody E wn sn (col 0 row) (col 1 row) dateSeen today).
  split; [exact Hwho |]. split; [exact Hdate |]. split; [exact Hout |].
  split; [reflexivity |].
  unfold reminderMail, reminderBody, bccFor. cbn [mailHtml mailBcc].
  destruct (Z.leb_spec (daysRemainingInMonth E today) 7) as [Hle | Hgt].
  - split; [reflexivity |]. split; [lia |]. split; [| lia].
    split; [intros _; exact Hle | intros _; left; reflexivity].
  - split; [lia |]. split; [reflexivity |]. split; [split; [intros [] | lia] |].
    intros Hpost _.
    replace (getMonth (Contact.tz E) dateSeen <? getMonth (Contact.tz E) today) with true
      by (symmetry; apply Z.ltb_lt; exact Hpost).
    split; [reflexivity |].
    unfold Emails.getPostMonthContactReminderHtml.
    repeat first
      [ apply (contains_here (SSM_NAME E) " have been notified of this delay"
                 " and may follow up with you directly.</p>")
      | apply contains_later ].
Qed.

End ContactRowFacts.

(** ** What a computation leaves alone *)

Section Preservation.

Variable R : World -> World -> Prop.
Hypothesis R_refl : forall w, R w w.
Hypothesis R_trans : forall w1 w2 w3, R w1 w2 -> R w2 w3 -> R w1 w3.

Lemma preserves_ret {A : Type} (a : A) w : R w (ret a w).2.
Proof. apply R_refl. Qed.

Lemma preserves_throw {A : Type} (msg : string) w : R w (throw (A := A) msg w).2.
Proof. apply R_refl. Qed.

Lemma preserves_liftResult {A : Type} (r : Result A) w : R w (liftResult r w).2.
Proof. apply R_refl. Qed.

Lemma preserves_bind {A B : Type} (m : M A) (k : A -> M B) :
  (forall w, R w (m w).2) -> (forall a w, R w (k a w).2) ->
  forall w, R w (bind m k w).2.
Proof.
  intros Hm Hk w. unfold bind. specialize (Hm w).
  destruct (m w) as [[a | msg] w1]; cbn [snd] in *; [| exact Hm].
  eapply R_trans; [exact Hm | apply Hk].
Qed.

Lemma preserves_tryCatch {A : Type} (m : M A) (h : string -> M A) :
  (forall w, R w (m w).2) -> (forall msg w, R w (h msg w).2) ->
  forall w, R w (tryCatch m h w).2.
Proof.
  intros Hm Hh w. unfold tryCatch. specialize (Hm w).
  destruct (m w) as [[a | msg] w1]; cbn [snd] in *; [exact Hm |].
  eapply R_trans; [exact Hm | apply Hh].
Qed.

End Preservation.

Lemma sameTabs_refl w : sameTabs w w.
Proof. split; reflexivity. Qed.

Lemma sameTabs_trans w1 w2 w3 : sameTabs w1 w2 -> sameTabs w2 w3 -> sameTabs w1 w3.
Proof. intros [H1 H2] [H3 H4]. split; congruence. Qed.

Lemma sameTabs_lookup (w w' : World) (s : nat) (sh : Sheet) :
  sameTabs w w' -> tracker w !! s = Some sh ->
  exists sh', tracker w' !! s = Some sh' /\ sheetName sh' = sheetName sh.
Proof.
  intros [Hnames _] Hlook.
  assert (Hn : map sheetName (tracker w') !! s = Some (sheetName sh)).
  { rewrite <- Hnames. change (map sheetName (tracker w)) with (sheetName <$> tracker w).
    rewrite list_lookup_fmap, Hlook. reflexivity. }
  change (map sheetName (tracker w')) with (sheetName <$> tracker w') in Hn.
  rewrite list_lookup_fmap in Hn.
  destruct (tracker w' !! s) as [sh' |]; [| discriminate].
  exists sh'. split; [reflexivity |]. now injection Hn.
Qed.

Lemma setValue_sameTabs (sheet rowIndex column : nat) (v : Cell) w :
  sameTabs w (setValue sheet rowIndex column v w).2.
Proof.
  split; [| reflexivity]. cbn.
  change (map sheetName ?l) with (sheetName <$> l).
  apply list_eq. intros i. rewrite !list_lookup_fmap.
  destruct (decide (i = sheet)) as [-> | Hne].
  - rewrite list_lookup_alter_eq. destruct (tracker w !! sheet); reflexivity.
  - rewrite list_lookup_alter_ne by congruence. reflexivity.
Qed.

Section ContactScanFacts.

Import Contact.

Variable E : Env.

Lemma GmailApp_sendEmail_sameTabs (m : Mail) w : sameTabs w (GmailApp_sendEmail E m w).2.
Proof.
  unfold GmailApp_sendEmail. destruct (gmail E (attempts w) m); split; reflexivity.
Qed.

Lemma sendContactReminderRow_sameTabs (row : Row) (today : Z) (sheet rowIndex : nat) w :
  sameTabs w (sendContactReminderRow E row today sheet rowIndex w).2.
Proof.
  assert (Hsend : forall rs bcc child body w0,
            sameTabs w0 (sendAndStamp E rs bcc child body today sheet rowIndex w0).2).
  { intros rs bcc child body. unfold sendAndStamp.
    apply (preserves_tryCatch sameTabs sameTabs_trans);
      [| intros; apply sameTabs_refl].
    apply (preserves_bind sameTabs sameTabs_trans);
      [apply GmailApp_sendEmail_sameTabs |].
    intros _. apply (preserves_bind sameTabs sameTabs_trans);
      [apply setValue_sameTabs | intros; apply sameTabs_refl]. }
  revert w. unfold sendContactReminderRow.
  apply (preserves_bind sameTabs sameTabs_trans).
  - apply (preserves_liftResult sameTabs sameTabs_refl).
  - intros empInfo w. destruct (isMainWorker E (col 3 row)).
    + destruct (newDate E (col 2 row)); [apply Hsend | apply sameTabs_refl].
    + destruct empInfo as [info |]; [| apply sameTabs_refl].
      destruct (newDate E (col 2 row)); [apply Hsend | apply sameTabs_refl].
Qed.

Lemma scanRows_sameTabs (rows : list Row) (i : nat) (today : Z) (isMonday : bool)
    (sheet n : nat) w :
  sameTabs w (scanRows E rows i today isMonday sheet n w).2.
Proof.
  revert i n w. induction rows as [| row rest IH]; intros i n w; cbn [scanRows].
  - apply sameTabs_refl.
  - destruct (rowGate E row today isMonday); [| apply IH].
    revert w. apply (preserves_bind sameTabs sameTabs_trans).
    + apply sendContactReminderRow_sameTabs.
    + intros sent w. apply IH.
Qed.

Lemma processContactSheet_sameTabs (sheet : nat) (today currentMonth : Z)
    (isMonday : bool) w :
  sameTabs w (processContactSheet E sheet today currentMonth isMonday w).2.
Proof.
  revert w. unfold processContactSheet.
  apply (preserves_bind sameTabs sameTabs_trans).
  - intros w. unfold getValues. destruct (tracker w !! sheet); apply sameTabs_refl.
  - intros data w. apply scanRows_sameTabs.
Qed.

(** C6 (as amended).  A row whose Date Contact Entered cell holds a date,
    a non-empty text, a non-zero number or TRUE is stepped over by the row
    loop with no effect at all: no lookup, no message, no stamp, no change
    of the count, whatever the day of the run. *)
Theorem entered_row_never_reminded (row : Row) (rest : list Row) (i : nat) (today : Z)
    (isMonday : bool) (sheet n : nat) (w : World) :
  truthy (col 4 row) = true ->
  rowGate E row today isMonday = None /\
  scanRows E (row :: rest) i today isMonday sheet n w
  = scanRows E rest (S i) today isMonday sheet n w.
Proof.
  intros Hentered.
  assert (Hgate : rowGate E row today isMonday = None).
  { unfold rowGate. rewrite Hentered.
    destruct (negb (truthy (col 0 row)) || negb (truthy (col 2 row))
              || negb (truthy (col 3 row))); [reflexivity |].
    destruct (col 4 row) as [s | | | |]; try reflexivity.
    cbn in Hentered. cbn [andb]. rewrite Hentered. reflexivity. }
  split; [exact Hgate |]. cbn [scanRows]. rewrite Hgate. reflexivity.
Qed.

(** A row let through by the gate has a readable Date Seen. *)
Lemma rowGate_newDate (row : Row) (today : Z) (isMonday : bool) (dateSeen : Z) :
  rowGate E row today isMonday = Some dateSeen -> newDate E (col 2 row) = Some dateSeen.
Proof.
  unfold rowGate. intros Hgate.
  repeat match type of Hgate with
         | (if ?c then None else _) = Some _ => destruct c; [discriminate |]
         end.
  destruct (newDate E (col 2 row)) as [d |]; [| discriminate].
  match type of Hgate with
  | (if ?c then None else _) = Some _ => destruct c; [discriminate |]
  end.
  exact Hgate.
Qed.

(** A row that reaches the send and whose delivery fails: the loop goes
    on with the same count in a world that differs only by the attempt. *)
Lemma scanRows_failed_delivery (row : Row) (rest : list Row) (i : nat) (today : Z)
    (isMonday : bool) (sheet n : nat) (w : World) (dateSeen : Z)
    (who : Cell * Cell * string * string) :
  rowGate E row today isMonday = Some dateSeen ->
  resolveWorker E (col 3 row) = Ok (Some who) ->
  gmail E (attempts w) (rowMail E row today dateSeen who) = false ->
  scanRows E (row :: rest) i today isMonday sheet n w
  = scanRows E rest (S i) today isMonday sheet n (undelivered w).
Proof.
  intros Hgate Hwho Hfail. cbn [scanRows]. rewrite Hgate. unfold bind.
  pose proof (rowGate_newDate row today isMonday dateSeen Hgate) as Hdate.
  rewrite (sendContactReminderRow_failed E row today dateSeen who) by assumption.
  reflexivity.
Qed.

Lemma scanRows_lookup_miss (row : Row) (rest : list Row) (i : nat) (today : Z)
    (isMonday : bool) (sheet n : nat) (w : World) (dateSeen : Z) :
  rowGate E row today isMonday = Some dateSeen ->
  resolveWorker E (col 3 row) = Ok None ->
  scanRows E (row :: rest) i today isMonday sheet n w
  = scanRows E rest (S i) today isMonday sheet n w.
Proof.
  intros Hgate Hwho. cbn [scanRows]. rewrite Hgate. unfold bind.
  rewrite sendContactReminderRow_miss by exact Hwho. reflexivity.
Qed.

(** With the mail service failing, a summary row either sends nothing or
    makes one failed attempt; it never raises. *)
Lemma processRow_failed_delivery (today : Z) (row : Row) (lastName : string) (w : World) :
  Summary.lastNameOf (col 0 row) = Ok lastName ->
  (forall m, gmail E (attempts w) m = false) ->
  Summary.processRow E today row w = (Ok tt, w) \/
  Summary.processRow E today row w = (Ok tt, undelivered w).
Proof.
  intros Hname Hfail. unfold Summary.processRow, bind, liftResult. rewrite Hname.
  destruct (Summary.dateOrNull E (col 7 row)) as [due |]; [| left; reflexivity].
  destruct (Summary.submitted row || Str.isEmpty lastName); [left; reflexivity |].
  destruct (match due with
            | Some d => Summary.chooseEmail E today d (Summary.dateOrNull E (col 4 row))
                          lastName (col 12 row)
            | None => (EmptyString, EmptyString, [])
            end) as [[subject body] recipients].
  destruct ((List.length recipients =? 0)%nat || Str.isEmpty subject || Str.isEmpty body);
    [left; reflexivity |].
  right. unfold tryCatch, Summary.sendEmailWithHtml, GmailApp_sendEmail.
  rewrite Hfail. reflexivity.
Qed.

(** C8.  A delivery failure is caught at the row.  In the contact scan
    the call reports "not sent", the sheet and the outbox are as before
    (so the Last Reminder Sent cell is untouched), the count is not
    incremented and the loop goes on with the next row.  In the summary
    scan the row ends normally and the loop goes on with the next row. *)
Theorem delivery_failure_never_aborts (today : Z) (w : World) :
  (forall (row : Row) (rest : list Row) (i : nat) (isMonday : bool) (sheet n : nat)
          (dateSeen : Z) (who : Cell * Cell * string * string),
     rowGate E row today isMonday = Some dateSeen ->
     resolveWorker E (col 3 row) = Ok (Some who) ->
     gmail E (attempts w) (rowMail E row today dateSeen who) = false ->
     sendContactReminderRow E row today sheet (i + 1) w = (Ok false, undelivered w) /\
     tracker (undelivered w) = tracker w /\
     outbox (undelivered w) = outbox w /\
     scanRows E (row :: rest) i today isMonday sheet n w
     = scanRows E rest (S i) today isMonday sheet n (undelivered w)) /\
  (forall (row : Row) (rest : list Row) (lastName : string),
     Summary.lastNameOf (col 0 row) = Ok lastName ->
     (forall m, gmail E (attempts w) m = false) ->
     exists w' : World,
       (w' = w \/ w' = undelivered w) /\
       Summary.processRow E today row w = (Ok tt, w') /\
       Summary.processRows E today (row :: rest) w = Summary.processRows E today rest w').
Proof.
  split.
  - intros row rest i isMonday sheet n dateSeen who Hgate Hwho Hfail.
    pose proof (scanRows_failed_delivery row rest i today isMonday sheet n w dateSeen who
                  Hgate Hwho Hfail) as Hscan.
    split; [| split; [reflexivity | split; [reflexivity | exact Hscan]]].
    pose proof (rowGate_newDate row today isMonday dateSeen Hgate) as Hdate.
    apply (sendContactReminderRow_failed E row today dateSeen who); assumption.
  - intros row rest lastName Hname Hfail.
    destruct (processRow_failed_delivery today row lastName w Hname Hfail) as [Hrow | Hrow].
    + exists w. split; [left; reflexivity |]. split; [exact Hrow |].
      cbn [Summary.processRows]. unfold bind. rewrite Hrow. reflexivity.
    + exists (undelivered w). split; [right; reflexivity |]. split; [exact Hrow |].
      cbn [Summary.processRows]. unfold bind. rewrite Hrow. reflexivity.
Qed.

End ContactScanFacts.

(** ** Month names and the completed-months list *)

Section MonthFacts.

Import Contact.

Lemma findIndexFrom_range {A : Type} (p : A -> bool) (i : Z) (xs : list A) :
  findIndexFrom p i xs = -1 \/
  i <= findIndexFrom p i xs < i + Z.of_nat (List.length xs).
Proof.
  revert i. induction xs as [| x rest IH]; intros i; cbn [findIndexFrom List.length].
  - left. reflexivity.
  - destruct (p x); [right; lia |]. destruct (IH (i + 1)) as [-> | Hin]; [left | right]; lia.
Qed.

(** [getMonthNumberFromName] always answers, with -1 or an index of the
    month table. *)
Lemma getMonthNumberFromName_total (name : string) :
  getMonthNumberFromName name = -1 \/ 0 <= getMonthNumberFromName name <= 11.
Proof.
  unfold getMonthNumberFromName.
  destruct (findIndexFrom_range
              (fun m => String.eqb (Str.toLowerCase m) (Str.toLowerCase name)) 0 months)
    as [H | H]; [left; exact H | right].
  change (Z.of_nat (List.length months)) with 12 in H. lia.
Qed.

(** The twelve names go to 0..11 in order. *)
Lemma getMonthNumberFromName_months :
  map getMonthNumberFromName months = [0; 1; 2; 3; 4; 5; 6; 7; 8; 9; 10; 11].
Proof. vm_compute. reflexivity. Qed.

(** The answer is the index of the one month name equal to the argument
    up to letter case. *)
Lemma getMonthNumberFromName_spec (name : string) (k : nat) (m : string) :
  months !! k = Some m ->
  getMonthNumberFromName name = Z.of_nat k <-> Str.toLowerCase name = Str.toLowerCase m.
Proof.
  intros Hk. unfold getMonthNumberFromName, months in *.
  generalize (Str.toLowerCase name). intros lowered.
  do 12 (destruct k as [| k];
         [ cbn in Hk; injection Hk as <-; cbn [findIndexFrom];
           repeat match goal with
                  | |- context [String.eqb ?a ?b] => destruct (String.eqb_spec a b)
                  end;
           split; intros; try lia; try congruence;
           exfalso; vm_compute in *; congruence
         | ]).
  cbn in Hk. discriminate.
Qed.

Lemma getMonthNumberFromName_case (name : string) :
  getMonthNumberFromName (Str.toLowerCase name) = getMonthNumberFromName name.
Proof.
  unfold getMonthNumberFromName.
  assert (Hidem : forall s, Str.toLowerCase (Str.toLowerCase s) = Str.toLowerCase s).
  { induction s as [| c s IH]; [reflexivity |]. cbn [Str.toLowerCase]. rewrite IH. f_equal.
    destruct c as [[] [] [] [] [] [] [] []]; reflexivity. }
  rewrite Hidem. reflexivity.
Qed.

Lemma alpha_not_space (c : ascii) : Str.isAlpha c = true -> Str.isSpace c = false.
Proof. destruct c as [[] [] [] [] [] [] [] []]; vm_compute; intros; congruence. Qed.

Lemma alpha_not_comma (c : ascii) : Str.isAlpha c = true -> Ascii.eqb "," c = false.
Proof. destruct c as [[] [] [] [] [] [] [] []]; vm_compute; intros; congruence. Qed.

(** A captured month label is a clean entry. *)
Lemma label_clean (x : string) :
  Str.isEmpty x = false -> Str.allChars Str.isAlpha x = true -> cleanEntry x.
Proof.
  intros Hne Halpha. split; [| split; [| exact Hne]].
  - clear Hne. induction x as [| c x IH]; [reflexivity |].
    cbn [Str.allChars] in Halpha. apply andb_prop in Halpha as [Hc Hx].
    cbn [Str.includesChar]. rewrite (alpha_not_comma c Hc), (IH Hx). reflexivity.
  - assert (Hend : forall y, Str.allChars Str.isAlpha y = true -> Str.trimEnd y = y).
    { induction y as [| c y IH]; [reflexivity |]. intros Hy.
      cbn [Str.allChars] in Hy. apply andb_prop in Hy as [Hc Hy].
      cbn [Str.trimEnd]. rewrite (IH Hy), (alpha_not_space c Hc).
      destruct y; reflexivity. }
    unfold Str.trim. destruct x as [| c x]; [discriminate |].
    cbn [Str.allChars] in Halpha. pose proof Halpha as Hall.
    apply andb_prop in Halpha as [Hc _].
    cbn [Str.trimStart]. rewrite (alpha_not_space c Hc). apply Hend. exact Hall.
Qed.

Lemma matchMonthSheet_clean (name label : string) :
  matchMonthSheet name = Some label -> cleanEntry label.
Proof.
  unfold matchMonthSheet. destruct (Str.stripSuffix " Contacts" name) as [p |]; [| discriminate].
  destruct (negb (Str.isEmpty p)) eqn:Hne; [| discriminate].
  destruct (Str.allChars Str.isAlpha p) eqn:Halpha; [| discriminate].
  intros [= <-]. apply label_clean; [| exact Halpha].
  destruct (Str.isEmpty p); [discriminate | reflexivity].
Qed.

Lemma split_no_separator (c : ascii) (x : string) :
  Str.includesChar c x = false -> Str.split c x = [x].
Proof.
  induction x as [| d x IH]; [reflexivity |]. cbn [Str.includesChar Str.split].
  intros Hx. apply orb_false_elim in Hx as [Hd Hx]. rewrite Hd, (IH Hx). reflexivity.
Qed.

Lemma split_at_separator (c : ascii) (x rest : string) :
  Str.includesChar c x = false ->
  Str.split c (x +:+ String c rest) = x :: Str.split c rest.
Proof.
  induction x as [| d x IH]; intros Hx.
  - change (EmptyString +:+ String c rest) with (String c rest).
    cbn [Str.split]. rewrite Ascii.eqb_refl. reflexivity.
  - cbn [Str.includesChar] in Hx. apply orb_false_elim in Hx as [Hd Hx].
    change (String d x +:+ String c rest) with (String d (x +:+ String c rest)).
    cbn [Str.split]. rewrite Hd, (IH Hx). reflexivity.
Qed.

(** Parsing what [join(", ")] wrote gives the list back; [lead] is the
    blank that follows a comma. *)
Lemma parse_join_from (lead : string) (xs : list string) :
  lead = EmptyString \/ lead = " " ->
  xs <> [] ->
  Forall cleanEntry xs ->
  filter (fun m => Str.isEmpty m = false)
    (map Str.trim (Str.split "," (lead +:+ Str.join ", " xs))) = xs.
Proof.
  intros Hlead Hne Hclean. revert lead Hlead.
  induction Hclean as [| x rest (Hcomma & Htrim & Hx) Hrest IH]; [congruence |].
  intros lead Hlead.
  assert (Hlx : Str.includesChar "," (lead +:+ x) = false)
    by (destruct Hlead as [-> | ->]; exact Hcomma).
  assert (Htl : Str.trim (lead +:+ x) = x)
    by (destruct Hlead as [-> | ->]; exact Htrim).
  destruct rest as [| y rest].
  - cbn [Str.join]. rewrite split_no_separator by exact Hlx.
    cbn [map]. rewrite Htl. rewrite filter_cons_True by exact Hx. reflexivity.
  - change (Str.join ", " (x :: y :: rest))
      with (x +:+ String "," (" " +:+ Str.join ", " (y :: rest))).
    rewrite <- append_assoc, split_at_separator by exact Hlx.
    cbn [map]. rewrite Htl, filter_cons_True by exact Hx.
    f_equal. apply IH; [discriminate | right; reflexivity].
Qed.

Lemma parse_join (xs : list string) :
  Forall cleanEntry xs -> parseCompleteMonths (Str.join ", " xs) = xs.
Proof.
  intros Hclean. destruct xs as [| x rest]; [reflexivity |].
  exact (parse_join_from EmptyString (x :: rest) (or_introl eq_refl)
           ltac:(discriminate) Hclean).
Qed.

Lemma includes_In (xs : list string) (x : string) : includes xs x = true <-> In x xs.
Proof.
  unfold includes. rewrite existsb_exists. split.
  - intros (y & Hin & Heq). apply String.eqb_eq in Heq. subst. exact Hin.
  - intros Hin. exists x. split; [exact Hin | apply String.eqb_refl].
Qed.

Lemma count_occ_added (xs : list string) (x : string) :
  ~ In x xs -> count_occ string_dec (xs ++ [x]) x = 1%nat.
Proof.
  intros Hnot. rewrite count_occ_app.
  rewrite (proj1 (count_occ_not_In string_dec xs x) Hnot).
  cbn. destruct (string_dec x x); [reflexivity | congruence].
Qed.

End MonthFacts.

(** ** Contact reminders: one sheet *)

Section SheetFacts.

Import Contact.

Variable E : Env.

Local Abbreviation zone := (tzOffset E).

(** A tab whose label is already in the list is passed over. *)
Lemma sheetStep_present (today : Z) (cm : list string) (s : nat) (sh : Sheet)
    (label : string) (w : World) :
  tracker w !! s = Some sh ->
  matchMonthSheet (sheetName sh) = Some label ->
  In label cm ->
  sheetStep E today cm s w = (Ok cm, w).
Proof.
  intros Hlook Hmatch Hin. unfold sheetStep, bind, getName. rewrite Hlook, Hmatch.
  destruct (getMonth (Contact.tz E) today <? getMonthNumberFromName label); [reflexivity |].
  rewrite (proj2 (includes_In cm label) Hin). reflexivity.
Qed.

(** A tab of a month not in the future and not in the list is scanned, and
    the count of reminders sent decides alone whether its label is added. *)
Lemma sheetStep_scanned (today : Z) (cm : list string) (s : nat) (sh : Sheet)
    (label : string) (w : World) :
  tracker w !! s = Some sh ->
  matchMonthSheet (sheetName sh) = Some label ->
  getMonthNumberFromName label <= getMonth zone today ->
  ~ In label cm ->
  sheetStep E today cm s w =
    bind (processContactSheet E s today (getMonth zone today) (getDay zone today =? 1))
      (fun remindersSent =>
         if (getDay zone today =? 1) && (remindersSent =? 0)%nat then
           bind (updateGlobalVariable "CONTACT_COMPLETE_MONTHS"
                   (Str.join ", " (cm ++ [label])))
                (fun _ => ret (cm ++ [label]))
         else ret cm) w.
Proof.
  intros Hlook Hmatch Hmonth Hnot. unfold sheetStep. unfold bind at 1. unfold getName.
  rewrite Hlook, Hmatch.
  replace (getMonth (Contact.tz E) today <? getMonthNumberFromName label) with false
    by (symmetry; apply Z.ltb_ge; exact Hmonth).
  destruct (includes cm label) eqn:Hinc; [| reflexivity].
  apply includes_In in Hinc. contradiction.
Qed.

(** C4.  On the catch-up day, for the tab of a month that is not in the
    future and whose scan sends nothing: when the label is not yet in the
    list, the step adds it and stores the joined list; performing the step
    again changes neither the list nor the world, so the label occurs
    exactly once, in the list and in what parsing the stored text gives
    back.  A label already in the list is never added again. *)
Theorem completion_label_added_once (today : Z) (w w0 : World) (s : nat) (sh : Sheet)
    (label : string) (cm : list string) :
  getDay zone today = 1 ->
  tracker w !! s = Some sh ->
  matchMonthSheet (sheetName sh) = Some label ->
  getMonthNumberFromName label <= getMonth zone today ->
  Forall cleanEntry cm ->
  processContactSheet E s today (getMonth zone today) true w = (Ok 0%nat, w0) ->
  (In label cm -> sheetStep E today cm s w = (Ok cm, w)) /\
  (~ In label cm ->
   exists w1 : World,
     sheetStep E today cm s w = (Ok (cm ++ [label]), w1) /\
     sheetStep E today (cm ++ [label]) s w1 = (Ok (cm ++ [label]), w1) /\
     count_occ string_dec (cm ++ [label]) label = 1%nat /\
     variables w1 !! "CONTACT_COMPLETE_MONTHS" = Some (Str.join ", " (cm ++ [label])) /\
     parseCompleteMonths (Str.join ", " (cm ++ [label])) = cm ++ [label] /\
     count_occ string_dec (parseCompleteMonths (Str.join ", " (cm ++ [label]))) label = 1%nat).
Proof.
  intros Hmonday Hlook Hmatch Hmonth Hclean Hscan. split.
  - intros Hin. exact (sheetStep_present today cm s sh label w Hlook Hmatch Hin).
  - intros Hnot.
    pose proof (sheetStep_scanned today cm s sh label w Hlook Hmatch Hmonth Hnot) as Hstep.
    rewrite Hmonday in Hstep. change (1 =? 1) with true in Hstep.
    unfold bind at 1 in Hstep. rewrite Hscan in Hstep. cbn [andb Nat.eqb] in Hstep.
    set (w1 := (updateGlobalVariable "CONTACT_COMPLETE_MONTHS"
                  (Str.join ", " (cm ++ [label])) w0).2).
    assert (Hparse : parseCompleteMonths (Str.join ", " (cm ++ [label])) = cm ++ [label]).
    { apply parse_join. apply Forall_app. split; [exact Hclean |].
      constructor; [| constructor]. exact (matchMonthSheet_clean _ _ Hmatch). }
    exists w1. split; [exact Hstep |]. split; [| split; [| split; [| split]]].
    + pose proof (processContactSheet_sameTabs E s today (getMonth zone today) true w) as Hsame.
      rewrite Hscan in Hsame. cbn [snd] in Hsame.
      destruct (sameTabs_lookup w w0 s sh Hsame Hlook) as (sh' & Hlook' & Hname).
      apply (sheetStep_present today (cm ++ [label]) s sh' label w1).
      * exact Hlook'.
      * rewrite Hname. exact Hmatch.
      * apply in_or_app. right. left. reflexivity.
    + apply count_occ_added. exact Hnot.
    + subst w1. cbn. apply lookup_insert_eq.
    + exact Hparse.
    + rewrite Hparse. apply count_occ_added. exact Hnot.
Qed.

(** Rows that are all passed over, or miss the directory, or fail to be
    delivered, leave the count, the sheet, the outbox and the variables as
    they were. *)
Lemma scanRows_all_unsent (rows : list Row) (i : nat) (today : Z) (isMonday : bool)
    (sheet n : nat) (w : World) :
  Forall (fun row =>
            rowGate E row today isMonday = None \/
            resolveWorker E (col 3 row) = Ok None \/
            exists dateSeen who,
              rowGate E row today isMonday = Some dateSeen /\
              resolveWorker E (col 3 row) = Ok (Some who) /\
              forall k, gmail E k (rowMail E row today dateSeen who) = false) rows ->
  exists w' : World,
    scanRows E rows i today isMonday sheet n w = (Ok n, w') /\
    tracker w' = tracker w /\ outbox w' = outbox w /\ variables w' = variables w.
Proof.
  intros Hrows. revert i w.
  induction Hrows as [| row rest Hrow _ IH]; intros i w.
  - exists w. repeat split; reflexivity.
  - destruct (rowGate E row today isMonday) as [dateSeen |] eqn:Hgate.
    + destruct Hrow as [Hnone | [Hmiss | (d & who & Hd & Hwho & Hfail)]]; [discriminate | |].
      * rewrite (scanRows_lookup_miss E row rest i today isMonday sheet n w dateSeen)
          by assumption.
        apply IH.
      * rewrite (scanRows_failed_delivery E row rest i today isMonday sheet n w d who)
          by (try assumption; try apply Hfail; congruence).
        destruct (IH (S i) (undelivered w)) as (w' & Hrun & Ht & Ho & Hv).
        exists w'. repeat split; assumption.
    + cbn [scanRows]. rewrite Hgate. apply IH.
Qed.

(** C10.  On the catch-up day, for the tab of a month that is not in the
    future and not yet in the list: if every row below the header is
    passed over, or names a worker the directory does not have, or fails
    to be delivered, then the count is 0 and the label is added to the
    list and stored, the rows of the sheet being exactly as before. *)
Theorem month_marked_complete_without_sends (today : Z) (w : World) (s : nat) (sh : Sheet)
    (label : string) (cm : list string) :
  getDay zone today = 1 ->
  tracker w !! s = Some sh ->
  matchMonthSheet (sheetName sh) = Some label ->
  getMonthNumberFromName label <= getMonth zone today ->
  ~ In label cm ->
  Forall (fun row =>
            rowGate E row today true = None \/
            resolveWorker E (col 3 row) = Ok None \/
            exists dateSeen who,
              rowGate E row today true = Some dateSeen /\
              resolveWorker E (col 3 row) = Ok (Some who) /\
              forall k, gmail E k (rowMail E row today dateSeen who) = false)
         (tail (sheetData sh)) ->
  exists w' : World,
    processContactSheet E s today (getMonth zone today) true w = (Ok 0%nat, w') /\
    sheetStep E today cm s w
    = (Ok (cm ++ [label]),
       (updateGlobalVariable "CONTACT_COMPLETE_MONTHS" (Str.join ", " (cm ++ [label])) w').2) /\
    tracker w' = tracker w /\ outbox w' = outbox w.
Proof.
  intros Hmonday Hlook Hmatch Hmonth Hnot Hrows.
  destruct (scanRows_all_unsent (tail (sheetData sh)) 1 today true s 0 w Hrows)
    as (w' & Hscan & Htracker & Houtbox & _).
  assert (Hsheet : processContactSheet E s today (getMonth zone today) true w = (Ok 0%nat, w')).
  { unfold processContactSheet, bind, getValues. rewrite Hlook. exact Hscan. }
  exists w'. split; [exact Hsheet |]. split; [| split; assumption].
  rewrite (sheetStep_scanned today cm s sh label w Hlook Hmatch Hmonth Hnot).
  rewrite Hmonday. change (1 =? 1) with true. unfold bind at 1. rewrite Hsheet.
  reflexivity.
Qed.

End SheetFacts.

(** ** Worked runs *)

(** C2, as first stated, fails in the last week of the month: on Friday
    26 January 2024 five days remain, the body is the reprimanding one, and
    the supervisor is not among the visible recipients but in blind copy
    with the manager. *)
Lemma last_week_reminder_hides_supervisor :
  Contact.daysRemainingInMonth (Demo.env true) Demo.lastFriday = 5 /\
  (Contact.sendContactReminderRow (Demo.env true) Demo.directoryRow Demo.lastFriday 0 2
     (Demo.world [Demo.tab "January Contacts" [Demo.directoryRow]])).1 = Ok true /\
  map (fun m => (mailTo m, mailBcc m, mailHtml m))
    (outbox (Contact.sendContactReminderRow (Demo.env true) Demo.directoryRow
               Demo.lastFriday 0 2
               (Demo.world [Demo.tab "January Contacts" [Demo.directoryRow]])).2)
  = [("sam.fields@example.org",
      "pat.moss@example.org,manager@example.org",
      Emails.getReprimandingContactReminderHtml (Demo.env true) "Sam Fields" "Pat Moss"
        "Ben" "C-1001" "01/10/2024" 16 5)].
Proof. vm_compute. repeat split; reflexivity. Qed.

Lemma contact_recipients_by_tier_witness :
  exists (workerEmail supervisorEmail : Cell) (m : Mail),
    Contact.resolveWorker (Demo.env true) (VString "Sam Fields")
      = Ok (Some (workerEmail, supervisorEmail, "Sam Fields", "Pat Moss")) /\
    mailTo m = joinStr (Demo.env true) workerEmail /\
    mailBcc m = Str.join "," [joinStr (Demo.env true) supervisorEmail; "manager@example.org"].
Proof.
  destruct (contact_recipients_by_tier (Demo.env true) Demo.directoryRow Demo.lastFriday 0 2
              (Demo.world [Demo.tab "January Contacts" [Demo.directoryRow]])
              (Contact.sendContactReminderRow (Demo.env true) Demo.directoryRow
                 Demo.lastFriday 0 2
                 (Demo.world [Demo.tab "January Contacts" [Demo.directoryRow]])).2)
    as (we & se & wn & sn & ds & m & Hwho & Hdate & _ & Hto & Htier);
    [vm_compute; reflexivity |].
  vm_compute in Hdate. injection Hdate as <-.
  destruct Htier as [Hlast _]; [vm_compute; discriminate |].
  destruct Hlast as [_ Hbcc]; [vm_compute; discriminate |].
  exists we, se, m. split; [| split; [exact Hto | exact Hbcc]].
  vm_compute in Hwho. vm_compute. congruence.
Defined.

(** C3: evaluation at the failing input.  A row seen on 15 December 2023
    sits in the January tab.  On Tuesday 9 January 2024 the scan passes it
    over as a prior-month row; on Monday 8 January it lets it through, and
    the message sent carries the standard body, not the post-month one:
    the template chain compares the month numbers 11 and 0 alone. *)
Theorem december_row_in_january_gets_standard_body :
  Contact.rowGate (Demo.env true) Demo.decemberRow Demo.tuesday false = None /\
  Contact.rowGate (Demo.env true) Demo.decemberRow Demo.monday true
    = Some (Demo.at_ 2023 12 15 0) /\
  map mailHtml
    (outbox (Contact.sendMonthlyContactReminders (Demo.env true) Demo.monday
               (Demo.world [Demo.tab "January Contacts" [Demo.decemberRow]])).2)
  = [Emails.getStandardContactReminderHtml (Demo.env true) "Ellie Brewer" "Dana Hill"
       "Ann" "C-1001" "12/15/2023" 24 23] /\
  String.eqb
    (Emails.getStandardContactReminderHtml (Demo.env true) "Ellie Brewer" "Dana Hill"
       "Ann" "C-1001" "12/15/2023" 24 23)
    (Emails.getPostMonthContactReminderHtml (Demo.env true) "Ellie Brewer" "Dana Hill"
       "Ann" "C-1001" "12/15/2023") = false.
Proof. vm_compute. repeat split; reflexivity. Qed.

(** C5: evaluation at the failing input.  "Archive" is no month name and
    [getMonthNumberFromName] answers -1, which is not greater than the
    current month: the tab "Archive Contacts" is scanned like a month of
    the past.  On a Wednesday its open row gets a reminder and a stamp; on
    a Monday, with its only row entered, "Archive" is stored as a
    completed month. *)
Theorem unrecognized_month_tab_is_scanned :
  Contact.matchMonthSheet "Archive Contacts" = Some "Archive" /\
  Contact.getMonthNumberFromName "Archive" = -1 /\
  map mailTo
    (outbox (Contact.sendMonthlyContactReminders (Demo.env true) Demo.wednesday
               (Demo.world [Demo.tab "Archive Contacts" [Demo.januaryRow]])).2)
  = ["worker@example.org"] /\
  map (fun t => map (col 5) (sheetData t))
    (tracker (Contact.sendMonthlyContactReminders (Demo.env true) Demo.wednesday
                (Demo.world [Demo.tab "Archive Contacts" [Demo.januaryRow]])).2)
  = [[VString "Last Reminder Sent"; VString "01/10/2024"]] /\
  variables (Contact.sendMonthlyContactReminders (Demo.env true) Demo.monday
               (Demo.world [Demo.tab "Archive Contacts" [Demo.enteredRow]])).2
    !! "CONTACT_COMPLETE_MONTHS" = Some "Archive".
Proof. vm_compute. repeat split; reflexivity. Qed.

(** C6, as first stated, fails for a cell that is not empty but falsy: with
    the number 0 or the boolean FALSE in Date Contact Entered the row is
    let through and a reminder goes out. *)
Lemma zero_in_entered_cell_is_reminded :
  Contact.rowGate (Demo.env true) Demo.zeroRow Demo.wednesday false
    = Some (Demo.at_ 2024 1 3 0) /\
  Contact.rowGate (Demo.env true) Demo.falseRow Demo.wednesday false
    = Some (Demo.at_ 2024 1 3 0) /\
  (Contact.sendMonthlyContactReminders (Demo.env true) Demo.wednesday
     (Demo.world [Demo.tab "January Contacts" [Demo.zeroRow]])).1 = Ok [] /\
  map mailSubject
    (outbox (Contact.sendMonthlyContactReminders (Demo.env true) Demo.wednesday
               (Demo.world [Demo.tab "January Contacts" [Demo.zeroRow]])).2)
  = ["Contact Entry Reminder – Ann"] /\
  map mailSubject
    (outbox (Contact.sendMonthlyContactReminders (Demo.env true) Demo.wednesday
               (Demo.world [Demo.tab "January Contacts" [Demo.falseRow]])).2)
  = ["Contact Entry Reminder – Ann"].
Proof. vm_compute. repeat split; reflexivity. Qed.

Lemma entered_row_never_reminded_witness :
  Contact.scanRows (Demo.env true) [Demo.enteredRow; Demo.januaryRow] 1 Demo.wednesday
    false 0 0 (Demo.world [Demo.tab "January Contacts" [Demo.enteredRow; Demo.januaryRow]])
  = Contact.scanRows (Demo.env true) [Demo.januaryRow] 2 Demo.wednesday
      false 0 0 (Demo.world [Demo.tab "January Contacts" [Demo.enteredRow; Demo.januaryRow]]).
Proof.
  apply (entered_row_never_reminded (Demo.env true) Demo.enteredRow [Demo.januaryRow] 1
           Demo.wednesday false 0 0
           (Demo.world [Demo.tab "January Contacts" [Demo.enteredRow; Demo.januaryRow]])).
  reflexivity.
Defined.

(** The mail service down on Wednesday 10 January 2024: the first row is
    attempted, not delivered, and the scan goes on with the second. *)
Lemma delivery_failure_never_aborts_witness :
  Contact.scanRows (Demo.env false) [Demo.januaryRow; Demo.directoryRow] 1 Demo.wednesday
    false 0 0 (Demo.world [Demo.tab "January Contacts" [Demo.januaryRow; Demo.directoryRow]])
  = Contact.scanRows (Demo.env false) [Demo.directoryRow] 2 Demo.wednesday false 0 0
      (undelivered
         (Demo.world [Demo.tab "January Contacts" [Demo.januaryRow; Demo.directoryRow]])).
Proof.
  refine (proj2 (proj2 (proj2
            (proj1 (delivery_failure_never_aborts (Demo.env false) Demo.wednesday
                      (Demo.world [Demo.tab "January Contacts"
                                     [Demo.januaryRow; Demo.directoryRow]]))
               Demo.januaryRow [Demo.directoryRow] 1%nat false 0%nat 0%nat
               (Demo.at_ 2024 1 3 0)
               (VString "worker@example.org", VString "supervisor@example.org",
                "Ellie Brewer", "Dana Hill") _ _ _))));
    vm_compute; reflexivity.
Defined.

(** A post-month reminder on Monday 5 February 2024, 24 days before the end
    of the month: the supervisor alone is in blind copy, and the body says
    the manager has been notified. *)
Lemma manager_bcc_iff_last_week_witness :
  exists m : Mail,
    outbox (Contact.sendContactReminderRow (Demo.env true) Demo.directoryRow
              Demo.februaryMonday 0 2
              (Demo.world [Demo.tab "January Contacts" [Demo.directoryRow]])).2 = [m] /\
    mailBcc m = "pat.moss@example.org" /\
    Str.contains "Robin Lake have been notified of this delay" (mailHtml m).
Proof.
  destruct (manager_bcc_iff_last_week (Demo.env true) Demo.directoryRow Demo.februaryMonday
              0 2 (Demo.world [Demo.tab "January Contacts" [Demo.directoryRow]])
              (Contact.sendContactReminderRow (Demo.env true) Demo.directoryRow
                 Demo.februaryMonday 0 2
                 (Demo.world [Demo.tab "January Contacts" [Demo.directoryRow]])).2)
    as (we & se & wn & sn & ds & bccList & body & Hwho & Hdate & Hout & _ & _ & _ & _ & Hpost);
    [vm_compute; reflexivity |].
  vm_compute in Hwho. injection Hwho as <- <- <- <-.
  vm_compute in Hdate. injection Hdate as <-.
  destruct Hpost as [Hbcc Hbody]; [vm_compute; reflexivity | vm_compute; reflexivity |].
  exists (Contact.reminderMail (Demo.env true) [VString "sam.fields@example.org"] bccList
            (col 0 Demo.directoryRow) body).
  split; [exact Hout |]. split; [exact Hbcc | exact Hbody].
Defined.

(** Monday 8 January 2024, a January tab whose only row is entered: the
    label is added by the first step and left alone by the second. *)
Lemma completion_label_added_once_witness :
  exists w1 : World,
    Contact.sheetStep (Demo.env true) Demo.monday [] 0
      (Demo.world [Demo.tab "January Contacts" [Demo.enteredRow]]) = (Ok ["January"], w1) /\
    Contact.sheetStep (Demo.env true) Demo.monday ["January"] 0 w1 = (Ok ["January"], w1) /\
    variables w1 !! "CONTACT_COMPLETE_MONTHS" = Some "January" /\
    Contact.parseCompleteMonths "January" = ["January"].
Proof.
  destruct (completion_label_added_once (Demo.env true) Demo.monday
              (Demo.world [Demo.tab "January Contacts" [Demo.enteredRow]])
              (Demo.world [Demo.tab "January Contacts" [Demo.enteredRow]])
              0 (Demo.tab "January Contacts" [Demo.enteredRow]) "January" [])
    as [_ Hadd];
    [ vm_compute; reflexivity | vm_compute; reflexivity | vm_compute; reflexivity
    | vm_compute; discriminate | constructor | vm_compute; reflexivity | ].
  destruct Hadd as (w1 & Hfirst & Hsecond & _ & Hstored & Hparse & _); [intros [] |].
  exists w1. split; [exact Hfirst |]. split; [exact Hsecond |].
  split; [exact Hstored | exact Hparse].
Defined.

(** Monday 8 January 2024, a January tab whose only row names a worker
    the directory does not list: nothing is sent, January is stored as
    complete, and the row still has no contact entered. *)
Lemma month_marked_complete_without_sends_witness :
  col 4 Demo.strangerRow = VString EmptyString /\
  exists w' : World,
    Contact.sheetStep (Demo.env true) Demo.monday [] 0
      (Demo.world [Demo.tab "January Contacts" [Demo.strangerRow]])
    = (Ok ["January"],
       (updateGlobalVariable "CONTACT_COMPLETE_MONTHS" "January" w').2) /\
    tracker w' = [Demo.tab "January Contacts" [Demo.strangerRow]] /\
    outbox w' = [].
Proof.
  split; [reflexivity |].
  destruct (month_marked_complete_without_sends (Demo.env true) Demo.monday
              (Demo.world [Demo.tab "January Contacts" [Demo.strangerRow]])
              0 (Demo.tab "January Contacts" [Demo.strangerRow]) "January" [])
    as (w' & _ & Hstep & Htracker & Houtbox);
    [ vm_compute; reflexivity | vm_compute; reflexivity | vm_compute; reflexivity
    | vm_compute; discriminate | intros []
    | constructor; [right; left; vm_compute; reflexivity | constructor] | ].
  exists w'. split; [exact Hstep |]. split; [exact Htracker | exact Houtbox].
Defined.

(** ** The scenarios of the reminder rules, run *)

(** Due 10 March 2024, run on 15 March, not submitted: 5 days late, to the
    worker and the supervisor. *)
Example scenario_minor_overdue :
  Summary.daysLate (Demo.at_ 2024 3 15 9) (Demo.at_ 2024 3 10 0) = 5 /\
  map mailTo
    (outbox (Summary.sendSummaryReminders (Demo.env true) (Demo.at_ 2024 3 15 9)
               (Demo.world [Demo.tab "Hearing Tracker" [Demo.dueRow]])).2)
  = ["worker@example.org,supervisor@example.org"].
Proof. vm_compute. split; reflexivity. Qed.

(** A row seen in January, run on Tuesday 6 February 2024: passed over,
    nothing sent, nothing stored. *)
Example scenario_prior_month_off_day :
  Contact.sendMonthlyContactReminders (Demo.env true) (Demo.at_ 2024 2 6 9)
    (Demo.world [Demo.tab "January Contacts" [Demo.januaryRow]])
  = (Ok [], Demo.world [Demo.tab "January Contacts" [Demo.januaryRow]]).
Proof. vm_compute. reflexivity. Qed.

(** The same row on Monday 5 February 2024: one reminder sent, and
    January is not added to the completed months. *)
Example scenario_prior_month_catch_up_day :
  (Contact.sendMonthlyContactReminders (Demo.env true) Demo.februaryMonday
     (Demo.world [Demo.tab "January Contacts" [Demo.januaryRow]])).1 = Ok [] /\
  List.length
    (outbox (Contact.sendMonthlyContactReminders (Demo.env true) Demo.februaryMonday
               (Demo.world [Demo.tab "January Contacts" [Demo.januaryRow]])).2) = 1%nat /\
  variables (Contact.sendMonthlyContactReminders (Demo.env true) Demo.februaryMonday
               (Demo.world [Demo.tab "January Contacts" [Demo.januaryRow]])).2
    !! "CONTACT_COMPLETE_MONTHS" = None.
Proof. vm_compute. repeat split; reflexivity. Qed.

(* ===================================================================== *)
(** * Further properties of the code *)
(* ===================================================================== *)

(** ** The calendar *)

(** Replaces the tests of the goal that have no variable by their value. *)
Ltac decide_closed_tests :=
  repeat match goal with
         | |- context [if ?c then _ else _] =>
             let v := eval vm_compute in c in
             first [constr_eq v true | constr_eq v false];
             change c with v; cbv iota
         end.

Section CalendarFacts.

Import Calendar.

(** The date of a day number has a month 1..12 and a day 1..31; it is
    the date whose day number is [z]; and the month after starts 1 to 31
    days later, the day of the month counting up to it. *)
Lemma civil_date (z : Z) :
  let '(y, m, d) := civilFromDays z in
  1 <= m <= 12 /\ 1 <= d <= 31 /\
  z < nextMonthStart z <= z + 31 /\ nextMonthStart z - z + d <= 32 /\
  daysFromCivil y m d = z.
Proof.
  unfold nextMonthStart, civilFromDays.
  set (z' := z + 719468). set (era := z' / 146097). set (doe := z' - era * 146097).
  assert (Hdoe : 0 <= doe < 146097) by (subst doe era; Z.div_mod_to_equations; lia).
  assert (Hz : z = era * 146097 + doe - 719468) by (subst doe z'; lia).
  clearbody doe.
  set (yoe := (doe - doe / 1460 + doe / 36524 - doe / 146096) / 365).
  set (doy := doe - (365 * yoe + yoe / 4 - yoe / 100)).
  assert (Hyoe : 0 <= yoe <= 399 /\ 0 <= doy <= 365)
    by (subst doy yoe; Z.div_mod_to_equations; lia).
  set (mp := (5 * doy + 2) / 153).
  assert (Hmp : 0 <= mp <= 11) by (subst mp; Z.div_mod_to_equations; lia).
  assert (Hcases : mp = 0 \/ mp = 1 \/ mp = 2 \/ mp = 3 \/ mp = 4 \/ mp = 5 \/ mp = 6
                   \/ mp = 7 \/ mp = 8 \/ mp = 9 \/ mp = 10 \/ mp = 11) by lia.
  assert (Hmpdef : mp = (5 * doy + 2) / 153) by reflexivity.
  clearbody mp.
  repeat (destruct Hcases as [-> | Hcases] || (rename Hcases into Hlast; subst mp));
    unfold daysFromCivil;
    decide_closed_tests.
  all: subst doy yoe; Z.div_mod_to_equations; lia.
Qed.

End CalendarFacts.

Section DaysRemainingFacts.

Import Calendar Contact.

Variable E : Env.

Local Abbreviation zone := (tzOffset E).

(** The script time zone keeps one offset all year. *)
Variable c : Z.
Hypothesis Hfixed : fixedOffset zone c.

(** [daysRemainingInMonth] counts the days from the local day of its
    argument to the last day of the month, in a year that
    [new Date(year, ...)] takes as it is. *)
Lemma daysRemainingInMonth_by_day (date : Z) :
  ~ (0 <= getFullYear zone date <= 99) ->
  daysRemainingInMonth E date
  = nextMonthStart (localDay zone date) - 1 - localDay zone date.
Proof.
  unfold daysRemainingInMonth, ofYMD, getFullYear, getMonth, nextMonthStart, Contact.tz.
  rewrite (proj2 Hfixed).
  set (D := localDay zone date).
  pose proof (localDay_bounds zone c Hfixed date) as Hday. fold D in Hday.
  destruct (civilFromDays D) as [[y m] d]. cbn [fst snd]. intros Hyear.
  assert (Hfull : fullYear y = y).
  { unfold fullYear. destruct (Z.leb_spec 0 y), (Z.leb_spec y 99); cbn [andb]; lia. }
  rewrite Hfull.
  replace (m - 1 + 1) with m by lia.
  set (N := daysFromCivil (y + m / 12) (m mod 12 + 1) 1).
  unfold ceilDiv.
  pose proof msPerDay_pos as Hpos.
  assert (Hq : (- ((N + (0 - 1)) * msPerDay - c - date)) / msPerDay = D - (N - 1)).
  { symmetry. apply (Z.div_unique _ _ _ (date + c - D * msPerDay)); lia. }
  rewrite Hq. lia.
Qed.

(** X1.  In a script time zone that keeps one offset all year, and for a
    date whose year is not one of 0 to 99, [daysRemainingInMonth] is
    between 0 and 30, and it is the same all day. *)
Theorem daysRemainingInMonth_range (date : Z) :
  ~ (0 <= getFullYear zone date <= 99) ->
  0 <= daysRemainingInMonth E date <= 30 /\
  forall other : Z,
    localDay zone other = localDay zone date ->
    daysRemainingInMonth E other = daysRemainingInMonth E date.
Proof.
  intros Hyear. split.
  - rewrite daysRemainingInMonth_by_day by exact Hyear.
    pose proof (civil_date (localDay zone date)) as Hcivil.
    destruct (civilFromDays (localDay zone date)) as [[y m] d].
    lia.
  - intros other Hsame.
    rewrite !daysRemainingInMonth_by_day, Hsame; [reflexivity | exact Hyear |].
    unfold getFullYear in *. rewrite Hsame. exact Hyear.
Qed.

(** From the first of a month to the first of the next there are as many
    days as the month is long. *)
Lemma month_span (y m : Z) :
  1 <= m <= 12 ->
  daysFromCivil (y + m / 12) (m mod 12 + 1) 1 - daysFromCivil y m 1 = monthLength y (m - 1).
Proof.
  intros Hm.
  assert (Hcases : m = 1 \/ m = 2 \/ m = 3 \/ m = 4 \/ m = 5 \/ m = 6 \/ m = 7 \/ m = 8
                   \/ m = 9 \/ m = 10 \/ m = 11 \/ m = 12) by lia.
  clear Hm. unfold monthLength, isLeap, daysFromCivil.
  repeat (destruct Hcases as [-> | Hcases] || (rename Hcases into Hlast; subst m));
    decide_closed_tests.
  all: try (Z.div_mod_to_equations; lia).
  destruct (Z.eqb_spec (y mod 4) 0), (Z.eqb_spec (y mod 100) 0), (Z.eqb_spec (y mod 400) 0);
    cbn [andb orb negb]; Z.div_mod_to_equations; lia.
Qed.

(** X2.  In a script time zone that keeps one offset all year, and for a
    date whose year is not one of 0 to 99, [daysRemainingInMonth] is the
    length of the month less the day of the month; so 7 days or fewer
    remain exactly from the eighth day before the end of the month on. *)
Theorem daysRemainingInMonth_by_date (date : Z) :
  ~ (0 <= getFullYear zone date <= 99) ->
  daysRemainingInMonth E date
  = monthLength (getFullYear zone date) (getMonth zone date) - getDate zone date /\
  (daysRemainingInMonth E date <= 7 <->
   monthLength (getFullYear zone date) (getMonth zone date) - 7 <= getDate zone date).
Proof.
  intros Hyear.
  assert (Heq : daysRemainingInMonth E date
                = monthLength (getFullYear zone date) (getMonth zone date)
                  - getDate zone date).
  { rewrite daysRemainingInMonth_by_day by exact Hyear.
    unfold getFullYear, getMonth, getDate, nextMonthStart.
    pose proof (civil_date (localDay zone date)) as Hcivil.
    destruct (civilFromDays (localDay zone date)) as [[y m] d]. cbn [fst snd].
    destruct Hcivil as (Hm & _ & _ & _ & Hback).
    rewrite <- (month_span y m Hm).
    assert (Hlin : daysFromCivil y m d = daysFromCivil y m 1 + (d - 1))
      by (unfold daysFromCivil; lia).
    lia. }
  split; [exact Heq | rewrite Heq; lia].
Qed.

End DaysRemainingFacts.

(** Where the clocks change the count depends on the time of day: in New
    York on 1 November 2024, two days before the clocks go back, 30 days
    remain at 00:30 and 29 at 09:00. *)
Lemma days_remaining_across_clock_change :
  Contact.daysRemainingInMonth Eastern.env (Eastern.at_ 2024 11 1 0 30) = 30 /\
  Contact.daysRemainingInMonth Eastern.env (Eastern.at_ 2024 11 1 9 0) = 29.
Proof. vm_compute. split; reflexivity. Qed.

(** ** The directory lookup *)

Section DirectoryFacts.

Import Directory DirectorySearch.

Variable E : Env.

Lemma find_app {A : Type} (p : A -> bool) (l1 l2 : list A) :
  find p (l1 ++ l2) = match find p l1 with Some x => Some x | None => find p l2 end.
Proof.
  induction l1 as [| x l1 IH]; [reflexivity |]. cbn [app find].
  destruct (p x); [reflexivity | exact IH].
Qed.

(** The row loop of one tab, for a text name. *)
Lemma scanTab_text (n : string) (header : Row) (rows : list Row) :
  scanTab E (VString n) (indexOf "workerName" header) (indexOf "workerEmail" header)
    (indexOf "supervisorName" header) (indexOf "supervisorEmail" header)
    (indexOf "workerCounty" header) rows
  = Ok (infoOf <$> find (names E n) (map (fun r => (header, r)) rows)).
Proof.
  induction rows as [| r rest IH]; [reflexivity |].
  cbn [scanTab map find]. unfold names at 1, under. cbn [fst snd].
  destruct (truthy (at_ (indexOf "workerName" header) r)); [| exact IH].
  cbn [andb].
  destruct (String.eqb (Str.trim (toStr E (at_ (indexOf "workerName" header) r)))
              (Str.trim n)); [reflexivity | exact IH].
Qed.

(** The row loop of one tab, for a name that is not text. *)
Lemma scanTab_other (name : Cell) (header : Row) (rows : list Row) :
  (forall n, name <> VString n) ->
  scanTab E name (indexOf "workerName" header) (indexOf "workerEmail" header)
    (indexOf "supervisorName" header) (indexOf "supervisorEmail" header)
    (indexOf "workerCounty" header) rows
  = if existsb (fun c => truthy (under "workerName" c)) (map (fun r => (header, r)) rows)
    then Throw "TypeError: name.trim is not a function"
    else Ok None.
Proof.
  intros Hname. induction rows as [| r rest IH]; [reflexivity |].
  cbn [scanTab map existsb]. unfold under at 1. cbn [fst snd].
  destruct (truthy (at_ (indexOf "workerName" header) r)); [| exact IH].
  destruct name; try reflexivity. now destruct (Hname s).
Qed.

Lemma searchTabs_text (n : string) (tabs : list string) :
  searchTabs E (VString n) tabs
  = Ok (infoOf <$>
        find (names E n)
          (flat_map
             (fun tabName =>
                match automationInfo E tabName with
                | Some data => map (fun r => (default [] (head data), r)) (tail data)
                | None => []
                end) tabs)).
Proof.
  induction tabs as [| tab more IH]; [reflexivity |].
  cbn [searchTabs flat_map]. rewrite find_app.
  destruct (automationInfo E tab) as [data |]; [| exact IH].
  rewrite scanTab_text. change (list Cell) with Row.
  match goal with
  | |- context [find (names E n) (map ?f (tail data))] =>
      destruct (find (names E n) (map f (tail data)))
  end; [reflexivity | exact IH].
Qed.

Lemma searchTabs_other (name : Cell) (tabs : list string) :
  (forall n, name <> VString n) ->
  searchTabs E name tabs
  = if existsb (fun c => truthy (under "workerName" c))
         (flat_map
            (fun tabName =>
               match automationInfo E tabName with
               | Some data => map (fun r => (default [] (head data), r)) (tail data)
               | None => []
               end) tabs)
    then Throw "TypeError: name.trim is not a function"
    else Ok None.
Proof.
  intros Hname. induction tabs as [| tab more IH]; [reflexivity |].
  cbn [searchTabs flat_map]. rewrite existsb_app.
  destruct (automationInfo E tab) as [data |]; [| exact IH].
  rewrite (scanTab_other name _ _ Hname). change (list Cell) with Row.
  match goal with
  | |- context [existsb ?p (map ?f (tail data))] => destruct (existsb p (map f (tail data)))
  end; [reflexivity | exact IH].
Qed.

(** X3.  For a text name the lookup never raises: it answers [null] for the
    empty text, and otherwise the first row, in the order CPSEmployeeInfo
    then Additional Workers Info and top to bottom below the headers,
    whose workerName cell is filled and equal to the name up to
    surrounding white space; a tab that does not exist is passed over,
    and the columns are found by their header titles. *)
Theorem lookup_is_first_match (n : string) :
  getWorkerInfoByName E (VString n)
  = if Str.isEmpty n then Ok None
    else Ok (infoOf <$> find (names E n) (candidates E)).
Proof.
  unfold getWorkerInfoByName, candidates. cbn [truthy].
  destruct (Str.isEmpty n); [reflexivity |]. cbn [negb]. apply searchTabs_text.
Qed.

(** X4.  For a name that is not text (a number, a date, TRUE) the lookup
    raises a TypeError as soon as a tab has a data row with a filled
    workerName cell, and answers [null] when there is none; FALSE, 0 and
    a missing value answer [null] at once. *)
Theorem lookup_of_non_text (name : Cell) :
  (forall n, name <> VString n) ->
  getWorkerInfoByName E name
  = if truthy name && existsb (fun c => truthy (under "workerName" c)) (candidates E)
    then Throw "TypeError: name.trim is not a function"
    else Ok None.
Proof.
  intros Hname. unfold getWorkerInfoByName, candidates.
  destruct (truthy name); [| reflexivity]. cbn [negb andb].
  apply searchTabs_other. exact Hname.
Qed.

End DirectoryFacts.


(** ** The summary run *)

Section SummaryRunFacts.

Import Summary.

Variable E : Env.

Local Abbreviation zone := (tzOffset E).

(** X5.  In a script time zone that keeps one offset all year, whatever
    the time of day of the due date, no branch of the chain is taken in
    two cases only: the run is two calendar days or more before the due
    date, or it is on the day after the due date with less than 24 hours
    gone since the due instant.  A summary late by one whole day or more
    always falls in the minor or the severe tier. *)
Theorem summary_gap_characterised (c today dueDate : Z) :
  fixedOffset zone c ->
  (tierOf E today dueDate = NoTier <->
   localDay zone today < localDay zone dueDate - 1 \/
   (localDay zone today = localDay zone dueDate + 1 /\ daysLate today dueDate = 0)) /\
  (1 <= daysLate today dueDate ->
   tierOf E today dueDate = MinorOverdue \/ tierOf E today dueDate = SevereOverdue).
Proof.
  intros Hfixed. rewrite (tierOf_cases E c Hfixed).
  pose proof (floorDiv_localDay zone c Hfixed today dueDate) as Hq.
  fold (daysLate today dueDate) in Hq.
  destruct (Z.eqb_spec (localDay zone today) (localDay zone dueDate - 1)),
    (Z.eqb_spec (localDay zone today) (localDay zone dueDate)),
    (Z.ltb_spec 0 (daysLate today dueDate)),
    (Z.ltb_spec (daysLate today dueDate) 7),
    (Z.leb_spec 7 (daysLate today dueDate)); cbn [andb];
    (split; [split; [intros; try discriminate; lia | intros; try reflexivity; lia]
            | intros; try lia; auto]).
Qed.

(** X6.  For a row that passes the skip test, the guard on empty subject,
    body and recipients never holds back a tier: exactly one send is
    attempted when a branch is taken, none otherwise. *)
Theorem summary_attempt_iff_tier (today dueDate : Z) (row : Row) (lastName : string)
    (w : World) :
  lastNameOf (col 0 row) = Ok lastName ->
  Str.isEmpty lastName = false ->
  submitted row = false ->
  dateOrNull E (col 7 row) = Some (Some dueDate) ->
  attempts (processRow E today row w).2
  = match tierOf E today dueDate with
    | NoTier => attempts w
    | _ => S (attempts w)
    end.
Proof.
  intros Hname Hne Hsub Hdue.
  rewrite (processRow_eligible E today dueDate row lastName w Hname Hne Hsub Hdue).
  destruct (tierOf E today dueDate); try reflexivity;
    destruct (chooseEmail E today dueDate (dateOrNull E (col 4 row)) lastName (col 12 row))
      as [[subject body] recipients];
    apply send_attempt_counted.
Qed.

(** X7.  A sheet whose rows are all submitted, or without a due date, or
    without a case name, is run over without any effect. *)
Theorem skipped_rows_have_no_effect (today : Z) (rows : list Row) (w : World) :
  Forall (fun row =>
            exists lastName,
              lastNameOf (col 0 row) = Ok lastName /\
              (submitted row = true \/ truthy (col 7 row) = false \/
               Str.isEmpty lastName = true)) rows ->
  processRows E today rows w = (Ok tt, w).
Proof.
  induction 1 as [| row rest (lastName & Hname & Hskip) _ IH]; [reflexivity |].
  cbn [processRows]. unfold bind at 1.
  assert (Hrow : processRow E today row w = (Ok tt, w)).
  { unfold processRow, bind, liftResult, dateOrNull. rewrite Hname.
    destruct (truthy (col 7 row)) eqn:Hdue; [| reflexivity].
    destruct Hskip as [-> | [Hno | ->]]; [reflexivity | discriminate |].
    rewrite orb_true_r. reflexivity. }
  rewrite Hrow. exact IH.
Qed.

Lemma processRows_app (today : Z) (pre post : list Row) (w : World) :
  processRows E today (pre ++ post) w
  = match processRows E today pre w with
    | (Ok _, w1) => processRows E today post w1
    | (Throw msg, w1) => (Throw msg, w1)
    end.
Proof.
  revert w. induction pre as [| row pre IH]; intros w; [reflexivity |].
  cbn [app processRows]. unfold bind.
  destruct (processRow E today row w) as [[[] | msg] w1]; [apply IH | reflexivity].
Qed.

(** X8.  A Case Name cell that holds a number other than 0, a date or
    TRUE ends the run with a TypeError at that row, submitted or not; the
    rows below it are not looked at. *)
Theorem non_text_case_name_aborts (today : Z) (pre : list Row) (row : Row)
    (rest : list Row) (w w1 : World) :
  processRows E today pre w = (Ok tt, w1) ->
  truthy (col 0 row) = true ->
  (forall s, col 0 row <> VString s) ->
  processRows E today (pre ++ row :: rest) w
  = (Throw "TypeError: fullName.includes is not a function", w1).
Proof.
  intros Hpre Htruthy Hname. rewrite processRows_app, Hpre.
  cbn [processRows]. unfold bind, processRow, liftResult, lastNameOf.
  rewrite Htruthy. destruct (col 0 row); try reflexivity. now destruct (Hname s).
Qed.

(** One row changes neither the sheets nor the variables, and adds at most
    one message to the outbox. *)
Lemma processRow_effect (today : Z) (row : Row) (w : World) :
  tracker (processRow E today row w).2 = tracker w /\
  variables (processRow E today row w).2 = variables w /\
  exists more : list Mail,
    outbox (processRow E today row w).2 = outbox w ++ more /\
    (List.length more <= 1)%nat /\
    Forall (fun m => mailBcc m = EmptyString) more.
Proof.
  assert (Hsame : forall r, tracker (r, w).2 = tracker w /\
            variables (r : Result unit, w).2 = variables w /\
            exists more : list Mail,
              outbox (r, w).2 = outbox w ++ more /\
              (List.length more <= 1)%nat /\
              Forall (fun m => mailBcc m = EmptyString) more).
  { intros r. split; [reflexivity |]. split; [reflexivity |].
    exists []. rewrite app_nil_r. repeat split; auto. }
  unfold processRow, bind, liftResult.
  destruct (lastNameOf (col 0 row)) as [lastName | msg]; [| apply Hsame].
  destruct (dateOrNull E (col 7 row)) as [due |]; [| apply Hsame].
  destruct (submitted row || Str.isEmpty lastName); [apply Hsame |].
  destruct (match due with
            | Some d => chooseEmail E today d (dateOrNull E (col 4 row)) lastName (col 12 row)
            | None => (EmptyString, EmptyString, [])
            end) as [[subject body] recipients].
  destruct ((List.length recipients =? 0)%nat || Str.isEmpty subject || Str.isEmpty body);
    [apply Hsame |].
  unfold tryCatch, sendEmailWithHtml, GmailApp_sendEmail, ret.
  destruct (gmail E (attempts w) _); cbn [snd];
    (split; [reflexivity |]; split; [reflexivity |]).
  - eexists [_]. split; [reflexivity |]. split; [cbn; lia |].
    constructor; [reflexivity | constructor].
  - exists []. rewrite app_nil_r. repeat split; auto.
Qed.

Lemma processRows_effect (today : Z) (rows : list Row) (w : World) :
  tracker (processRows E today rows w).2 = tracker w /\
  variables (processRows E today rows w).2 = variables w /\
  exists more : list Mail,
    outbox (processRows E today rows w).2 = outbox w ++ more /\
    (List.length more <= List.length rows)%nat /\
    Forall (fun m => mailBcc m = EmptyString) more.
Proof.
  revert w. induction rows as [| row rest IH]; intros w.
  - split; [reflexivity |]. split; [reflexivity |].
    exists []. rewrite app_nil_r. repeat split; auto.
  - cbn [processRows]. unfold bind.
    destruct (processRow_effect today row w) as (Ht & Hv & more1 & Ho & Hlen & Hbcc).
    destruct (processRow E today row w) as [[[] | msg] w1]; cbn [snd] in *.
    + destruct (IH w1) as (Ht2 & Hv2 & more2 & Ho2 & Hlen2 & Hbcc2).
      split; [congruence |]. split; [congruence |].
      exists (more1 ++ more2). rewrite Ho2, Ho, app_assoc.
      split; [reflexivity |]. split; [rewrite length_app; cbn [List.length]; lia |].
      apply Forall_app. split; assumption.
    + split; [exact Ht |]. split; [exact Hv |].
      exists more1. split; [exact Ho |]. split; [cbn [List.length]; lia | exact Hbcc].
Qed.

(** X9.  However it ends, a summary run leaves every sheet and every stored
    variable as it found them, and adds to the outbox at most one message
    per row below the header of the first sheet, none with a blind copy. *)
Theorem summary_run_frame (today : Z) (w : World) :
  tracker (sendSummaryReminders E today w).2 = tracker w /\
  variables (sendSummaryReminders E today w).2 = variables w /\
  exists more : list Mail,
    outbox (sendSummaryReminders E today w).2 = outbox w ++ more /\
    (List.length more
     <= List.length (tail (default [] (sheetData <$> tracker w !! 0%nat))))%nat /\
    Forall (fun m => mailBcc m = EmptyString) more.
Proof.
  assert (Hnone : tracker w = tracker w /\ variables w = variables w /\
            exists more : list Mail,
              outbox w = outbox w ++ more /\
              (List.length more
               <= List.length (tail (default [] (sheetData <$> tracker w !! 0%nat))))%nat /\
              Forall (fun m => mailBcc m = EmptyString) more).
  { split; [reflexivity |]. split; [reflexivity |].
    exists []. rewrite app_nil_r. split; [reflexivity |].
    split; [cbn [List.length]; lia | constructor]. }
  unfold sendSummaryReminders.
  destruct (globalsLoad E); [| exact Hnone].
  unfold bind, getValues.
  destruct (tracker w !! 0%nat) as [sh |]; [| exact Hnone].
  apply processRows_effect.
Qed.

(** X10.  The last name is the text before the first comma of the case
    name, or the whole case name when it has no comma, trimmed. *)
Theorem lastName_is_text_before_comma (last rest : string) :
  Str.includesChar "," last = false ->
  lastNameOf (VString (last +:+ String "," rest)) = Ok (Str.trim last) /\
  lastNameOf (VString last) = Ok (Str.trim last).
Proof.
  intros Hlast. split.
  - unfold lastNameOf.
    assert (Hne : truthy (VString (last +:+ String "," rest)) = true)
      by (destruct last; reflexivity).
    assert (Hinc : Str.includesChar "," (last +:+ String "," rest) = true).
    { clear Hlast Hne. induction last as [| c last IH]; [reflexivity |].
      change (String c last +:+ String "," rest) with (String c (last +:+ String "," rest)).
      cbn [Str.includesChar]. rewrite IH. apply orb_true_r. }
    rewrite Hne, Hinc, split_at_separator by exact Hlast. reflexivity.
  - unfold lastNameOf. destruct last as [| c last]; [reflexivity |].
    cbn [truthy Str.isEmpty negb]. rewrite Hlast. reflexivity.
Qed.

End SummaryRunFacts.

(** ** Trimming and splitting *)

Section TrimFacts.

Lemma trimEnd_idem (s : string) : Str.trimEnd (Str.trimEnd s) = Str.trimEnd s.
Proof.
  induction s as [| c s IH]; [reflexivity |]. cbn [Str.trimEnd].
  destruct (Str.trimEnd s) as [| d t] eqn:Hend.
  - destruct (Str.isSpace c) eqn:Hc; [reflexivity |]. cbn [Str.trimEnd]. rewrite Hc. reflexivity.
  - cbn [Str.trimEnd] in *. rewrite IH. reflexivity.
Qed.

(** Trimming the end keeps a first character that is no white space. *)
Lemma trimEnd_head (c : ascii) (s : string) :
  Str.isSpace c = false -> exists t, Str.trimEnd (String c s) = String c t.
Proof.
  intros Hc. cbn [Str.trimEnd]. destruct (Str.trimEnd s) as [| d t].
  - rewrite Hc. eauto.
  - eauto.
Qed.

Lemma trimStart_head (s : string) :
  Str.trimStart s = EmptyString \/
  exists c t, Str.trimStart s = String c t /\ Str.isSpace c = false.
Proof.
  induction s as [| c s IH]; [left; reflexivity |]. cbn [Str.trimStart].
  destruct (Str.isSpace c) eqn:Hc; [exact IH | right; eauto].
Qed.

Lemma trim_idem (s : string) : Str.trim (Str.trim s) = Str.trim s.
Proof.
  unfold Str.trim. destruct (trimStart_head s) as [-> | (c & t & -> & Hc)]; [reflexivity |].
  destruct (trimEnd_head c t Hc) as (t' & Hend). rewrite Hend.
  cbn [Str.trimStart]. rewrite Hc, <- Hend. apply trimEnd_idem.
Qed.

Lemma includesChar_trimStart (c : ascii) (s : string) :
  Str.includesChar c s = false -> Str.includesChar c (Str.trimStart s) = false.
Proof.
  induction s as [| d s IH]; [reflexivity |]. cbn [Str.trimStart].
  destruct (Str.isSpace d); [| auto]. cbn [Str.includesChar].
  intros H. apply orb_false_elim in H as [_ H]. auto.
Qed.

Lemma includesChar_trimEnd (c : ascii) (s : string) :
  Str.includesChar c s = false -> Str.includesChar c (Str.trimEnd s) = false.
Proof.
  induction s as [| d s IH]; [reflexivity |]. cbn [Str.includesChar Str.trimEnd].
  intros H. apply orb_false_elim in H as [Hd Hs]. specialize (IH Hs).
  destruct (Str.trimEnd s) as [| e t].
  - destruct (Str.isSpace d); [reflexivity |]. cbn [Str.includesChar]. rewrite Hd. reflexivity.
  - cbn [Str.includesChar] in *. rewrite Hd. exact IH.
Qed.

Lemma split_pieces (c : ascii) (s : string) :
  Forall (fun p => Str.includesChar c p = false) (Str.split c s).
Proof.
  induction s as [| d s IH]; [repeat constructor |]. cbn [Str.split].
  destruct (Ascii.eqb c d) eqn:Hd; [constructor; [reflexivity | exact IH] |].
  destruct (Str.split c s) as [| p ps]; [repeat constructor; cbn; now rewrite Hd |].
  inversion IH as [| ? ? Hp Hps]; subst. constructor; [| exact Hps].
  cbn [Str.includesChar]. rewrite Hd, Hp. reflexivity.
Qed.

(** What [split(",").map(trim).filter(Boolean)] leaves is clean. *)
Lemma parse_clean (text : string) :
  Forall Contact.cleanEntry (Contact.parseCompleteMonths text).
Proof.
  unfold Contact.parseCompleteMonths.
  pose proof (split_pieces "," text) as Hpieces.
  induction Hpieces as [| p ps Hp _ IH]; [constructor |].
  cbn [map]. destruct (Str.isEmpty (Str.trim p)) eqn:Hempty.
  - rewrite filter_cons_False by congruence. exact IH.
  - rewrite filter_cons_True by exact Hempty. constructor; [| exact IH].
    split; [| split; [apply trim_idem | exact Hempty]].
    unfold Str.trim. apply includesChar_trimEnd, includesChar_trimStart, Hp.
Qed.

End TrimFacts.

(** ** Month names and the stored list *)

Section ListFacts.

Import Contact.

(** X11.  [getMonthNumberFromName] answers the index of the month name
    that equals its argument when letter case is set aside, and -1 exactly
    when there is none; so its answers are -1 and 0 to 11, and the case of
    the argument has no influence. *)
Theorem month_number_is_case_blind_index (name : string) :
  (forall (k : nat) (m : string),
     months !! k = Some m ->
     getMonthNumberFromName name = Z.of_nat k <-> Str.toLowerCase name = Str.toLowerCase m) /\
  (getMonthNumberFromName name = -1 <->
   forall m, In m months -> Str.toLowerCase name <> Str.toLowerCase m) /\
  getMonthNumberFromName (Str.toLowerCase name) = getMonthNumberFromName name.
Proof.
  split; [intros k m; apply getMonthNumberFromName_spec |].
  split; [| apply getMonthNumberFromName_case].
  split.
  - intros Hnone m Hin Heq.
    apply list_elem_of_In, list_elem_of_lookup in Hin as [k Hk].
    apply (getMonthNumberFromName_spec name k m Hk) in Heq. lia.
  - intros Hno. destruct (getMonthNumberFromName_total name) as [Hm | Hrange]; [exact Hm |].
    exfalso.
    assert (Hk : exists m, months !! Z.to_nat (getMonthNumberFromName name) = Some m).
    { apply lookup_lt_is_Some. change (List.length months) with 12%nat. lia. }
    destruct Hk as [m Hk].
    apply (Hno m).
    + apply list_elem_of_In, list_elem_of_lookup. eauto.
    + apply (getMonthNumberFromName_spec name _ m Hk). lia.
Qed.

(** X12.  Parsing the stored list yields entries without commas, trimmed and
    not empty, in the order written; writing them back with [join(", ")]
    and parsing again gives the same list. *)
Theorem completed_months_text_round_trip (text : string) :
  Forall cleanEntry (parseCompleteMonths text) /\
  parseCompleteMonths (Str.join ", " (parseCompleteMonths text)) = parseCompleteMonths text.
Proof.
  split; [apply parse_clean | apply parse_join, parse_clean].
Qed.

End ListFacts.

(** ** The contact run *)

Section ContactRunFacts.

Import Contact.

Variable E : Env.

Local Abbreviation zone := (tzOffset E).

(** A call adds its message to the outbox when it reports a reminder sent,
    and nothing otherwise. *)
Lemma sendContactReminderRow_outbox (row : Row) (today : Z) (sheet rowIndex : nat)
    (w : World) :
  match sendContactReminderRow E row today sheet rowIndex w with
  | (Ok true, w') => exists m, outbox w' = outbox w ++ [m]
  | (_, w') => outbox w' = outbox w
  end.
Proof.
  assert (Hsend : forall rs bcc child body,
            match sendAndStamp E rs bcc child body today sheet rowIndex w with
            | (Ok true, w') => exists m, outbox w' = outbox w ++ [m]
            | (_, w') => outbox w' = outbox w
            end).
  { intros rs bcc child body.
    unfold sendAndStamp, tryCatch, bind, GmailApp_sendEmail.
    destruct (gmail E (attempts w) _); cbn; eauto. }
  unfold sendContactReminderRow, bind, liftResult.
  destruct (Directory.getWorkerInfoByName E (col 3 row)) as [empInfo | msg]; [| reflexivity].
  destruct (isMainWorker E (col 3 row)).
  - destruct (newDate E (col 2 row)); [apply Hsend | reflexivity].
  - destruct empInfo as [info |]; [| reflexivity].
    destruct (newDate E (col 2 row)); [apply Hsend | reflexivity].
Qed.

Lemma scanRows_outbox (rows : list Row) (i : nat) (today : Z) (isMonday : bool)
    (sheet n : nat) (w : World) :
  exists more : list Mail,
    outbox (scanRows E rows i today isMonday sheet n w).2 = outbox w ++ more /\
    (List.length more <= List.length rows)%nat /\
    forall n', (scanRows E rows i today isMonday sheet n w).1 = Ok n' ->
               n' = (n + List.length more)%nat.
Proof.
  revert i n w. induction rows as [| row rest IH]; intros i n w; cbn [scanRows].
  - exists []. rewrite app_nil_r. split; [reflexivity |]. split; [reflexivity |].
    cbn. intros n' [= <-]. lia.
  - destruct (rowGate E row today isMonday).
    + unfold bind.
      pose proof (sendContactReminderRow_outbox row today sheet (i + 1) w) as Hrow.
      destruct (sendContactReminderRow E row today sheet (i + 1) w) as [[[] | msg] w1].
      * destruct Hrow as [m Hm].
        destruct (IH (S i) (S n) w1) as (more & Hout & Hlen & Hcount).
        exists (m :: more). rewrite Hout, Hm, <- app_assoc.
        split; [reflexivity |]. split; [cbn [List.length]; lia |].
        intros n' Hn'. rewrite (Hcount n' Hn'). cbn [List.length]. lia.
      * destruct (IH (S i) n w1) as (more & Hout & Hlen & Hcount).
        exists more. rewrite Hout, Hrow.
        split; [reflexivity |]. split; [cbn [List.length]; lia | exact Hcount].
      * exists []. rewrite app_nil_r. cbn [snd fst]. split; [exact Hrow |].
        split; [cbn [List.length]; lia | discriminate].
    + destruct (IH (S i) n w) as (more & Hout & Hlen & Hcount).
      exists more. split; [exact Hout |]. split; [cbn [List.length]; lia | exact Hcount].
Qed.

(** X13.  The number that [processContactSheet] returns is the number of
    messages the scan put in the outbox; there is at most one per row
    below the header, and earlier mail stays in place. *)
Theorem reminders_sent_counts_deliveries (sheet : nat) (today currentMonth : Z)
    (isMonday : bool) (w : World) :
  exists more : list Mail,
    outbox (processContactSheet E sheet today currentMonth isMonday w).2 = outbox w ++ more /\
    (List.length more
     <= List.length (tail (default [] (sheetData <$> tracker w !! sheet))))%nat /\
    forall n, (processContactSheet E sheet today currentMonth isMonday w).1 = Ok n ->
              n = List.length more.
Proof.
  unfold processContactSheet, bind, getValues.
  destruct (tracker w !! sheet) as [sh |].
  - destruct (scanRows_outbox (tail (sheetData sh)) 1 today isMonday sheet 0 w)
      as (more & Hout & Hlen & Hcount).
    exists more. split; [exact Hout |]. split; [exact Hlen |].
    intros n Hn. apply Hcount in Hn. lia.
  - exists []. rewrite app_nil_r. split; [reflexivity |].
    split; [cbn [List.length]; lia | discriminate].
Qed.

(** The outcomes of the loop body for one tab. *)
Lemma sheetStep_cases (today : Z) (cm : list string) (s : nat) (w : World) :
  match sheetStep E today cm s w with
  | (Ok cm', w') =>
      (cm' = cm /\ variables w' = variables w) \/
      (exists label,
         cm' = cm ++ [label] /\ ~ In label cm /\ cleanEntry label /\
         getDay zone today = 1 /\
         variables w' !! "CONTACT_COMPLETE_MONTHS" = Some (Str.join ", " cm'))
  | (Throw _, w') => variables w' = variables w
  end.
Proof.
  unfold sheetStep, bind, getName.
  destruct (tracker w !! s) as [sh |]; [| reflexivity].
  destruct (matchMonthSheet (sheetName sh)) as [label |] eqn:Hmatch; [| left; split; reflexivity].
  destruct (getMonth (Contact.tz E) today <? getMonthNumberFromName label);
    [left; split; reflexivity |].
  destruct (includes cm label) eqn:Hinc; [left; split; reflexivity |].
  pose proof (processContactSheet_sameTabs E s today (getMonth (Contact.tz E) today)
                (getDay (Contact.tz E) today =? 1) w) as [_ Hvars].
  destruct (processContactSheet E s today (getMonth (Contact.tz E) today)
              (getDay (Contact.tz E) today =? 1) w) as [[n | msg] w1]; cbn [snd] in Hvars;
    [| symmetry; exact Hvars].
  destruct (Z.eqb_spec (getDay (Contact.tz E) today) 1) as [Hmon | Hnot];
    [| left; split; [reflexivity | symmetry; exact Hvars]].
  destruct (n =? 0)%nat; cbn [andb];
    [| left; split; [reflexivity | symmetry; exact Hvars]].
  right. exists label. split; [reflexivity |]. split.
  - intros Hin. apply includes_In in Hin. congruence.
  - split; [exact (matchMonthSheet_clean _ _ Hmatch) |]. split; [exact Hmon |].
    cbn. apply lookup_insert_eq.
Qed.

Lemma sheetLoop_invariants (today : Z) (sheets : list nat) (cm : list string) (w : World) :
  match sheetLoop E today cm sheets w with
  | (Ok cm', w') =>
      exists added,
        cm' = cm ++ added /\
        (NoDup cm -> NoDup cm') /\
        (Forall cleanEntry cm -> Forall cleanEntry cm') /\
        (added = [] -> variables w' = variables w) /\
        (added <> [] ->
         getDay zone today = 1 /\
         variables w' !! "CONTACT_COMPLETE_MONTHS" = Some (Str.join ", " cm'))
  | (Throw _, _) => True
  end.
Proof.
  revert cm w. induction sheets as [| s rest IH]; intros cm w; cbn [sheetLoop].
  - exists []. rewrite app_nil_r. repeat split; auto; congruence.
  - unfold bind. pose proof (sheetStep_cases today cm s w) as Hstep.
    destruct (sheetStep E today cm s w) as [[cm1 | msg] w1]; [| exact I].
    specialize (IH cm1 w1).
    destruct (sheetLoop E today cm1 rest w1) as [[cm' | msg] w']; [| exact I].
    destruct IH as (added & -> & Hnodup & Hclean & Hsame & Hstored).
    destruct Hstep as [[-> Hvars] | (label & -> & Hnot & Hlabel & Hmon & Hput)].
    + exists added. split; [reflexivity |]. split; [exact Hnodup |]. split; [exact Hclean |].
      split; [intros Hempty; rewrite (Hsame Hempty); exact Hvars | exact Hstored].
    + exists (label :: added). rewrite <- app_assoc. cbn [app].
      split; [reflexivity |]. split; [| split; [| split; [discriminate |]]].
      * intros Hcm. rewrite <- app_assoc in Hnodup. apply Hnodup.
        apply NoDup_app. split; [exact Hcm |]. split.
        -- intros x Hx Hx'. apply list_elem_of_In in Hx. apply list_elem_of_In in Hx'.
           destruct Hx' as [<- | []]. contradiction.
        -- apply NoDup_singleton.
      * intros Hcm. rewrite <- app_assoc in Hclean. apply Hclean.
        apply Forall_app. split; [exact Hcm | constructor; [exact Hlabel | constructor]].
      * intros _. split; [exact Hmon |].
        destruct added as [| a added].
        -- rewrite (Hsame eq_refl). exact Hput.
        -- destruct Hstored as [_ Hlast]; [discriminate |].
           rewrite <- app_assoc in Hlast. exact Hlast.
Qed.

(** X14.  A contact run that ends normally keeps every completed month it
    started with, in place, and adds labels behind them without repeating
    one.  On a day other than Monday it adds none and stores nothing.
    When it adds labels, what it leaves stored under
    CONTACT_COMPLETE_MONTHS parses back to the list it ended with. *)
Theorem run_extends_completed_months (today : Z) (w : World) (cm' : list string) :
  globalsLoad E = true ->
  (sendMonthlyContactReminders E today w).1 = Ok cm' ->
  exists added : list string,
    cm' = parseCompleteMonths (CONTACT_COMPLETE_MONTHS E) ++ added /\
    (NoDup (parseCompleteMonths (CONTACT_COMPLETE_MONTHS E)) -> NoDup cm') /\
    (added = [] -> variables (sendMonthlyContactReminders E today w).2 = variables w) /\
    (getDay zone today <> 1 -> added = []) /\
    (added <> [] ->
     exists stored,
       variables (sendMonthlyContactReminders E today w).2 !! "CONTACT_COMPLETE_MONTHS"
       = Some stored /\
       parseCompleteMonths stored = cm').
Proof.
  intros Hload.
  assert (Hrun : sendMonthlyContactReminders E today w
                 = sheetLoop E today (parseCompleteMonths (CONTACT_COMPLETE_MONTHS E))
                     (seq 0 (List.length (tracker w))) w)
    by (unfold sendMonthlyContactReminders; rewrite Hload; reflexivity).
  rewrite Hrun. clear Hrun.
  pose proof (sheetLoop_invariants today (seq 0 (List.length (tracker w)))
                (parseCompleteMonths (CONTACT_COMPLETE_MONTHS E)) w) as Hloop.
  destruct (sheetLoop E today (parseCompleteMonths (CONTACT_COMPLETE_MONTHS E))
              (seq 0 (List.length (tracker w))) w) as [[cm1 | msg] w'];
    cbn [fst snd]; [| discriminate].
  intros [= <-].
  destruct Hloop as (added & Heq & Hnodup & Hclean & Hsame & Hstored).
  exists added. split; [exact Heq |]. split; [exact Hnodup |]. split; [exact Hsame |].
  split.
  - intros Hday. destruct added as [| a added]; [reflexivity |].
    destruct Hstored as [Hmon _]; [discriminate | contradiction].
  - intros Hadded. destruct (Hstored Hadded) as [_ Hput].
    exists (Str.join ", " cm1). split; [exact Hput |].
    apply parse_join, Hclean, parse_clean.
Qed.

(** X15.  A Seen By cell that holds a number, a date or TRUE, in a row the
    gate lets through, ends the scan with a TypeError when the directory
    has any named row: the lookup raises outside every [try]. *)
Theorem non_text_seen_by_aborts (row : Row) (rest : list Row) (i : nat) (today : Z)
    (isMonday : bool) (sheet n : nat) (w : World) (dateSeen : Z) :
  rowGate E row today isMonday = Some dateSeen ->
  (forall s, col 3 row <> VString s) ->
  existsb (fun c => truthy (DirectorySearch.under "workerName" c))
    (DirectorySearch.candidates E) = true ->
  scanRows E (row :: rest) i today isMonday sheet n w
  = (Throw "TypeError: name.trim is not a function", w).
Proof.
  intros Hgate Hname Hrows. cbn [scanRows]. rewrite Hgate. unfold bind.
  assert (Htruthy : truthy (col 3 row) = true).
  { unfold rowGate in Hgate.
    destruct (truthy (col 3 row)); [reflexivity |].
    rewrite !orb_true_r in Hgate. discriminate. }
  assert (Hlookup : Directory.getWorkerInfoByName E (col 3 row)
                    = Throw "TypeError: name.trim is not a function").
  { unfold Directory.getWorkerInfoByName. rewrite Htruthy. cbn [negb].
    rewrite (searchTabs_other E (col 3 row) _ Hname).
    unfold DirectorySearch.candidates in Hrows. rewrite Hrows. reflexivity. }
  unfold sendContactReminderRow, bind, liftResult. rewrite Hlookup. reflexivity.
Qed.

End ContactRunFacts.

(** ** The stamp in Last Reminder Sent *)

Section StampFacts.

Import Contact.

Variable E : Env.

Local Abbreviation zone := (tzOffset E).





End StampFacts.

(** ** Loading the global variables *)

Section ObjectFacts.

Lemma lookup_assign (key value : string) (vars : gmap string string) (k : string) :
  Config.assign key value vars !! k
  = if bool_decide (key = k /\ key <> "__proto__") then Some value else vars !! k.
Proof.
  unfold Config.assign. destruct (String.eqb_spec key "__proto__") as [-> | Hkey].
  - rewrite bool_decide_eq_false_2 by tauto. reflexivity.
  - destruct (decide (key = k)) as [-> | Hne].
    + rewrite bool_decide_eq_true_2 by tauto. apply lookup_insert_eq.
    + rewrite bool_decide_eq_false_2 by tauto. now apply lookup_insert_ne.
Qed.



Lemma missing_false (vars : gmap string string) (k : string) :
  Config.missing vars k = Ok false ->
  exists v, vars !! k = Some v /\ Str.isEmpty v = false.
Proof.
  unfold Config.missing, Config.hasOwnProperty.
  destruct (vars !! "hasOwnProperty"); [discriminate |].
  destruct (vars !! k) as [v |].
  - rewrite bool_decide_eq_true_2 by eauto. cbn. intros [= Hv]. eauto.
  - rewrite bool_decide_eq_false_2 by (intros [v Hv]; discriminate Hv). discriminate.
Qed.



Lemma filterKeys_none (test : string -> Result bool) (keys kept : list string) :
  Config.filterKeys test keys = Ok kept ->
  (0 <? List.length kept)%nat = false ->
  Forall (fun k => test k = Ok false) keys.
Proof.
  revert kept. induction keys as [| k rest IH]; intros kept Hrun Hlen; [constructor |].
  cbn [Config.filterKeys] in Hrun.
  destruct (test k) as [keep | msg] eqn:Hk; [| discriminate Hrun].
  destruct (Config.filterKeys test rest) as [kept' | msg] eqn:Hrest; [| discriminate Hrun].
  injection Hrun as <-. destruct keep; [cbn in Hlen; discriminate Hlen |].
  constructor; [exact Hk | now apply (IH kept')].
Qed.



End ObjectFacts.

Section ConfigFacts.

Variable E : Env.
Variable J : Config.Json.

(** A row that contributes nothing under the key [k]. *)
Local Abbreviation noEntry k := (fun r : Row => forall v' : string, Config.entryOf E r <> Some (k, v')).

Lemma loadRows_cons (row : Row) (rest : list Row) (vars : gmap string string) :
  Config.loadRows E (row :: rest) vars
  = Config.loadRows E rest
      (match Config.entryOf E row with
       | Some (k, v) => Config.assign k v vars
       | None => vars
       end).
Proof.
  unfold Config.entryOf. cbn [Config.loadRows].
  destruct (Config.cellText E (col 0 row)) as [key |]; [| reflexivity].
  destruct (Config.cellText E (col 1 row)) as [value |]; [| reflexivity].
  destruct (Str.isEmpty key || Str.isEmpty value); reflexivity.
Qed.

Lemma loadRows_none (k : string) (rows : list Row) :
  Forall (noEntry k) rows ->
  forall vars, Config.loadRows E rows vars !! k = vars !! k.
Proof.
  induction 1 as [| row rest Hrow _ IH]; intros vars; [reflexivity |].
  rewrite loadRows_cons, IH.
  destruct (Config.entryOf E row) as [[k0 v0] |]; [| reflexivity].
  rewrite lookup_assign. rewrite bool_decide_eq_false_2; [reflexivity |].
  intros [-> _]. exact (Hrow v0 eq_refl).
Qed.

Lemma loadRows_last (k v : string) (pre : list Row) (row : Row) (post : list Row) :
  Config.entryOf E row = Some (k, v) ->
  k <> "__proto__" ->
  Forall (noEntry k) post ->
  forall vars, Config.loadRows E (pre ++ row :: post) vars !! k = Some v.
Proof.
  intros Hrow Hk Hpost. induction pre as [| r pre IH]; intros vars.
  - cbn [app]. rewrite loadRows_cons, Hrow, loadRows_none by exact Hpost.
    rewrite lookup_assign. now rewrite bool_decide_eq_true_2 by tauto.
  - change ((r :: pre) ++ row :: post) with (r :: (pre ++ row :: post)).
    rewrite loadRows_cons. apply IH.
Qed.

Lemma loadRows_inv (k v : string) (rows : list Row) :
  forall vars,
  Config.loadRows E rows vars !! k = Some v ->
  (vars !! k = Some v /\ (k <> "__proto__" -> Forall (noEntry k) rows)) \/
  (k <> "__proto__" /\
   exists pre row post,
     rows = pre ++ row :: post /\ Config.entryOf E row = Some (k, v) /\
     Forall (noEntry k) post).
Proof.
  induction rows as [| row rest IH]; intros vars Hget.
  - left. split; [exact Hget | constructor].
  - rewrite loadRows_cons in Hget.
    destruct (IH _ Hget) as [[Hvars Hrest] | (Hk & pre & r & post & -> & Hr & Hpost)].
    + destruct (Config.entryOf E row) as [[k0 v0] |] eqn:Hrow.
      * rewrite lookup_assign in Hvars.
        destruct (bool_decide (k0 = k /\ k0 <> "__proto__")) eqn:Hsame.
        -- apply bool_decide_eq_true in Hsame as [-> Hk]. injection Hvars as ->.
           right. split; [exact Hk |]. exists [], row, rest. auto.
        -- apply bool_decide_eq_false in Hsame.
           left. split; [exact Hvars |]. intros Hk. constructor; [| now apply Hrest].
           intros v' Heq. apply Hsame. split; congruence.
      * left. split; [exact Hvars |]. intros Hk. constructor; [| now apply Hrest].
        intros v'. rewrite Hrow. discriminate.
    + right. split; [exact Hk |]. exists (row :: pre), r, post. auto.
Qed.

Lemma entryOf_clean (row : Row) (k v : string) :
  Config.entryOf E row = Some (k, v) ->
  Str.isEmpty k = false /\ Str.isEmpty v = false /\ Str.trim k = k /\ Str.trim v = v.
Proof.
  unfold Config.entryOf, Config.cellText. intros H.
  destruct (col 0 row) eqn:H0; destruct (col 1 row) eqn:H1; try discriminate H;
    match type of H with
    | (if ?a || ?b then _ else _) = _ =>
        destruct a eqn:Ha; [discriminate H |]; destruct b eqn:Hb; [discriminate H |]
    end;
    cbn [orb] in H; injection H as <- <-;
    repeat split; try assumption; apply trim_idem.
Qed.

(** X17. The variables read from the Variables tab: a key has the value
    [v] exactly when the key is not [__proto__], some row below the
    header holds the key and [v], both non-blank after trimming, and no
    later row holds the key with a non-blank value.  So the last such row
    wins, a row keyed [__proto__] is lost, and every key and value loaded
    is trimmed and non-empty. *)
Theorem variables_tab_last_row_wins (values : list Row) (vars : gmap string string) :
  automationInfo E "Variables" = Some values ->
  Config.loadAutomationInfoSheet E = Ok vars ->
  forall k v,
    (vars !! k = Some v <->
     k <> "__proto__" /\
     exists pre row post,
       tail values = pre ++ row :: post /\
       Config.entryOf E row = Some (k, v) /\
       Forall (fun r => forall v', Config.entryOf E r <> Some (k, v')) post) /\
    (vars !! k = Some v ->
     Str.isEmpty k = false /\ Str.isEmpty v = false /\ Str.trim k = k /\ Str.trim v = v).
Proof.
  unfold Config.loadAutomationInfoSheet. intros -> Hload k v.
  injection Hload as <-.
  assert (Hiff : Config.loadRows E (tail values) ∅ !! k = Some v <->
                 k <> "__proto__" /\
                 exists pre row post,
                   tail values = pre ++ row :: post /\
                   Config.entryOf E row = Some (k, v) /\ Forall (noEntry k) post).
  { split.
    - intros Hget. destruct (loadRows_inv _ _ _ _ Hget) as [[Hempty _] | Hrow]; [| exact Hrow].
      rewrite lookup_empty in Hempty. discriminate Hempty.
    - intros (Hk & pre & row & post & -> & Hrow & Hpost). now apply loadRows_last. }
  split; [exact Hiff |].
  intros Hget. apply Hiff in Hget as (_ & pre & row & post & _ & Hrow & _).
  eapply entryOf_clean; eauto.
Qed.

(** What the sheet offers for a key: whether a refresh would leave the
    key without a value. *)
Local Abbreviation sheetLacks k :=
  (match Config.loadAutomationInfoSheet E with
   | Ok vars => Config.lacks vars k
   | Throw _ => true
   end).

Lemma lacks_empty (k : string) : Config.lacks ∅ k = true.
Proof. unfold Config.lacks. rewrite lookup_empty. reflexivity. Qed.

Lemma refresh_cases (st : Config.Stores) :
  (Config.refreshGlobalVariablesCache E J st = (∅, st) /\
   forall k, sheetLacks k = true) \/
  (exists vars,
     Config.loadAutomationInfoSheet E = Ok vars /\ vars <> ∅ /\
     Config.refreshGlobalVariablesCache E J st
     = (vars,
        {| Config.scriptCache :=
             <["globalVariables" := Config.stringify J vars]> (Config.scriptCache st);
           Config.scriptProperties :=
             <["globalVariablesJSON" := Config.stringify J vars]> (Config.scriptProperties st);
           Config.CASE_TRACKER_URL := default EmptyString (vars !! "caseTrackerUrl");
           Config.SSM_NAME := default EmptyString (vars !! "ssmName") |})).
Proof.
  unfold Config.refreshGlobalVariablesCache, Config.noKeys.
  destruct (Config.loadAutomationInfoSheet E) as [vars | msg].
  - destruct (bool_decide (vars = ∅)) eqn:Hempty.
    + apply bool_decide_eq_true in Hempty. subst vars.
      left. split; [reflexivity | intros k; apply lacks_empty].
    + apply bool_decide_eq_false in Hempty. right. exists vars. auto.
  - left. split; [reflexivity | reflexivity].
Qed.



Lemma all_present (vars : gmap string string) (keys kept : list string) :
  Config.filterKeys (Config.missing vars) keys = Ok kept ->
  (0 <? List.length kept)%nat = false ->
  Forall (fun k => exists v, vars !! k = Some v /\ Str.isEmpty v = false) keys.
Proof.
  intros Hrun Hlen. eapply Forall_impl; [exact (filterKeys_none _ _ _ Hrun Hlen) |].
  intros k. apply missing_false.
Qed.

(** X18. When [ensureGlobalVariables] returns, every required key is in
    the returned variables with a non-empty value. *)
Theorem ensured_variables_hold_required_keys (requiredKeys : list string)
    (st st' : Config.Stores) (vars : gmap string string) :
  Config.ensureGlobalVariables E J requiredKeys st = (Ok vars, st') ->
  Forall (fun k => exists v, vars !! k = Some v /\ Str.isEmpty v = false) requiredKeys.
Proof.
  unfold Config.ensureGlobalVariables. intros Hens.
  destruct (Config.getGlobalVariables E J st) as [[vars0 | msg] st1]; [| discriminate Hens].
  destruct (0 <? List.length requiredKeys)%nat eqn:Hkeys.
  - destruct (Config.filterKeys (Config.missing vars0) requiredKeys) as [missingKeys | msg]
      eqn:Hfirst; [| discriminate Hens].
    destruct (0 <? List.length missingKeys)%nat eqn:Hmissing.
    + destruct (Config.refreshGlobalVariablesCache E J st1) as [vars2 st2].
      destruct (Config.filterKeys (Config.missing vars2) requiredKeys) as [stillMissing | msg]
        eqn:Hsecond; [| discriminate Hens].
      destruct (0 <? List.length stillMissing)%nat eqn:Hstill; [discriminate Hens |].
      injection Hens as <- _. exact (all_present _ _ _ Hsecond Hstill).
    + injection Hens as <- _. exact (all_present _ _ _ Hfirst Hmissing).
  - apply Nat.ltb_ge in Hkeys. destruct requiredKeys; [constructor | cbn in Hkeys; lia].
Qed.




(** X21. Write-through: after a refresh that loaded something, the next
    [getGlobalVariables] serves the same variables from the cache and
    changes nothing, the script properties hold them too, and the two
    script globals are set from them; this needs [JSON.parse] to undo
    [JSON.stringify] on these variables. *)
Theorem refreshed_variables_are_served_again (st st' : Config.Stores)
    (vars : gmap string string) :
  Config.refreshGlobalVariablesCache E J st = (vars, st') ->
  vars <> ∅ ->
  Str.isEmpty (Config.stringify J vars) = false ->
  Config.parse J (Config.stringify J vars) = Ok vars ->
  Config.getGlobalVariables E J st' = (Ok vars, st') /\
  Config.loadVarsFromProperties J st' = Some vars /\
  Config.CASE_TRACKER_URL st' = default EmptyString (vars !! "caseTrackerUrl") /\
  Config.SSM_NAME st' = default EmptyString (vars !! "ssmName").
Proof.
  intros Hfresh Hne Htext Hparse.
  destruct (refresh_cases st) as [[Hfail _] | (sheetVars & _ & _ & Hdone)].
  - rewrite Hfail in Hfresh. injection Hfresh as <- _. contradiction.
  - rewrite Hdone in Hfresh. injection Hfresh as -> <-.
    unfold Config.getGlobalVariables, Config.loadVarsFromProperties.
    cbn [Config.scriptCache Config.scriptProperties Config.CASE_TRACKER_URL Config.SSM_NAME].
    rewrite !lookup_insert_eq, Htext, Hparse. auto.
Qed.

End ConfigFacts.

(** A Variables tab with a row keyed [__proto__] and a row keyed
    [hasOwnProperty]: the first is lost in loading, and the second makes
    the test of a required key raise, though the key is there. *)
Lemma special_keys_in_the_variables_tab :
  Config.loadAutomationInfoSheet (Sample.envWith Sample.trapTab)
  = Ok {["a" := "1"; "hasOwnProperty" := "yes"]} /\
  (Config.ensureGlobalVariables (Sample.envWith Sample.trapTab) Sample.json ["a"]
     Sample.stores).1
  = Throw "TypeError: vars.hasOwnProperty is not a function".
Proof. vm_compute. split; reflexivity. Qed.

Section FilterFacts.

Lemma filterInto_lookup (vars : gmap string string) (keys : list string) :
  vars !! "hasOwnProperty" = None ->
  forall filtered,
  exists result,
    Config.filterInto vars keys filtered = Ok result /\
    forall k,
      result !! k
      = if bool_decide (k ∈ keys /\ k <> "__proto__")
        then match vars !! k with Some v => Some v | None => filtered !! k end
        else filtered !! k.
Proof.
  intros Hown. induction keys as [| key rest IH]; intros filtered.
  - exists filtered. split; [reflexivity |]. intros k.
    rewrite bool_decide_eq_false_2; [reflexivity |]. intros [Hin _]. inversion Hin.
  - cbn [Config.filterInto]. unfold Config.hasOwnProperty. rewrite Hown.
    destruct (vars !! key) as [v |] eqn:Hkey.
    + rewrite bool_decide_eq_true_2 by eauto. cbn [default].
      destruct (IH (Config.assign key v filtered)) as (result & Hrun & Hlook).
      exists result. split; [exact Hrun |]. intros k.
      rewrite Hlook, lookup_assign.
      destruct (decide (k = "__proto__")) as [-> | Hk].
      { rewrite !(bool_decide_eq_false_2 (_ /\ "__proto__" <> "__proto__")) by tauto.
        rewrite bool_decide_eq_false_2; [reflexivity |]. intros [-> Hneq]. tauto. }
      destruct (decide (key = k)) as [-> | Hne].
      { rewrite Hkey, (bool_decide_eq_true_2 (k = k /\ _)) by tauto.
        rewrite (bool_decide_eq_true_2 (k ∈ k :: rest /\ _)) by (split; [left | exact Hk]).
        destruct (bool_decide (k ∈ rest /\ k <> "__proto__")); reflexivity. }
      rewrite (bool_decide_eq_false_2 (key = k /\ _)) by tauto.
      rewrite (bool_decide_ext (k ∈ key :: rest /\ k <> "__proto__")
                 (k ∈ rest /\ k <> "__proto__")); [reflexivity |].
      rewrite elem_of_cons. intuition congruence.
    + rewrite bool_decide_eq_false_2 by (intros [v Hv]; discriminate Hv).
      destruct (IH filtered) as (result & Hrun & Hlook).
      exists result. split; [exact Hrun |]. intros k. rewrite Hlook.
      destruct (decide (key = k)) as [-> | Hne].
      { rewrite Hkey.
        destruct (bool_decide (k ∈ rest /\ k <> "__proto__")),
          (bool_decide (k ∈ k :: rest /\ k <> "__proto__")); reflexivity. }
      rewrite (bool_decide_ext (k ∈ key :: rest /\ k <> "__proto__")
                 (k ∈ rest /\ k <> "__proto__")); [reflexivity |].
      rewrite elem_of_cons. intuition congruence.
Qed.

Lemma filterVars_plain (vars : gmap string string) (keys : list string) :
  keys = [] \/ vars !! "hasOwnProperty" = None ->
  exists filtered,
    Config.filterVars vars keys = Ok filtered /\
    forall k,
      filtered !! k
      = if bool_decide (keys = [] \/ (k ∈ keys /\ k <> "__proto__")) then vars !! k
        else None.
Proof.
  intros Hor. destruct keys as [| key rest].
  - exists vars. split; [reflexivity |]. intros k.
    now rewrite bool_decide_eq_true_2 by (left; reflexivity).
  - destruct Hor as [Hnil | Hown]; [discriminate Hnil |].
    destruct (filterInto_lookup vars (key :: rest) Hown ∅) as (filtered & Hrun & Hlook).
    exists filtered. split; [exact Hrun |]. intros k. rewrite Hlook, lookup_empty.
    repeat case_bool_decide; destruct (vars !! k); try reflexivity; exfalso;
      first [ tauto | match goal with H : _ \/ _ |- _ => destruct H; [discriminate | tauto] end ].
Qed.

Lemma filterVars_raises (vars : gmap string string) (keys : list string) :
  keys <> [] -> is_Some (vars !! "hasOwnProperty") ->
  Config.filterVars vars keys = Throw "TypeError: vars.hasOwnProperty is not a function".
Proof.
  intros Hne [v Hown]. destruct keys as [| key rest]; [contradiction |].
  unfold Config.filterVars. cbn [Config.filterInto]. unfold Config.hasOwnProperty.
  now rewrite Hown.
Qed.

(** X22. [filterVars(vars, keys)] returns [vars] itself for an empty list
    of keys.  For a list that is not empty it raises when [vars] has a key
    named [hasOwnProperty]; otherwise it keeps exactly the entries of
    [vars] whose key is listed and is not [__proto__].  It never adds or
    changes an entry. *)
Theorem filterVars_keeps_listed_keys (vars : gmap string string) (keys : list string) :
  (keys <> [] -> is_Some (vars !! "hasOwnProperty") ->
   exists msg, Config.filterVars vars keys = Throw msg) /\
  (keys = [] \/ vars !! "hasOwnProperty" = None ->
   exists filtered,
     Config.filterVars vars keys = Ok filtered /\
     (forall k,
        filtered !! k
        = if bool_decide (keys = [] \/ (k ∈ keys /\ k <> "__proto__")) then vars !! k
          else None) /\
     filtered ⊆ vars).
Proof.
  split.
  - intros Hne Hown. eexists. now apply filterVars_raises.
  - intros Hor. destruct (filterVars_plain vars keys Hor) as (filtered & Hrun & Hlook).
    exists filtered. split; [exact Hrun |]. split; [exact Hlook |].
    apply map_subseteq_spec. intros k v. rewrite Hlook.
    destruct (bool_decide (keys = [] \/ (k ∈ keys /\ k <> "__proto__"))); [auto | discriminate].
Qed.

End FilterFacts.

(** ** The backup rows of the Variables tab *)

Section BackupFacts.

Variable E : Env.
Variable stringifySheets : list (string * nat) -> string.
Variable parseSheets : string -> Result (list (string * nat)).

(** Rows that do not hold the key [key] in their first cell. *)
Local Abbreviation without key := (Forall (fun r : Row => col 0 r <> VString key)).

Lemma rows_split (key : string) (rows : list Row) :
  without key rows \/
  exists pre row post,
    rows = pre ++ row :: post /\ without key pre /\ col 0 row = VString key.
Proof.
  induction rows as [| r rows IH]; [left; constructor |].
  assert (Hdec : col 0 r = VString key \/ col 0 r <> VString key).
  { destruct (col 0 r) as [s | | | |]; try (right; discriminate).
    destruct (String.eqb_spec s key) as [-> | Hs]; [left; reflexivity | right; congruence]. }
  destruct Hdec as [Hr | Hr].
  - right. exists [], r, rows. repeat split; [constructor | exact Hr].
  - destruct IH as [Hnone | (pre & row & post & -> & Hpre & Hrow)].
    + left. constructor; assumption.
    + right. exists (r :: pre), row, post. repeat split; [constructor; assumption | exact Hrow].
Qed.

Lemma findKey_none (key : string) (rows : list Row) :
  without key rows -> forall i, Backup.findKey key i rows = None.
Proof.
  induction 1 as [| r rows Hr _ IH]; intros i; [reflexivity |].
  cbn [Backup.findKey]. destruct (col 0 r) as [s | | | |]; try apply IH.
  destruct (String.eqb_spec s key) as [-> | _]; [contradiction | apply IH].
Qed.

Lemma readKey_none (key : string) (rows : list Row) :
  without key rows -> Backup.readKey key rows = None.
Proof.
  induction 1 as [| r rows Hr _ IH]; [reflexivity |].
  cbn [Backup.readKey]. destruct (col 0 r) as [s | | | |]; try apply IH.
  destruct (String.eqb_spec s key) as [-> | _]; [contradiction | apply IH].
Qed.

Lemma findKey_found (key : string) (pre : list Row) (row : Row) (post : list Row) :
  without key pre -> col 0 row = VString key ->
  forall i, Backup.findKey key i (pre ++ row :: post) = Some (i + List.length pre)%nat.
Proof.
  intros Hpre Hrow. induction Hpre as [| r pre Hr _ IH]; intros i.
  - cbn [app Backup.findKey List.length]. rewrite Hrow, String.eqb_refl. f_equal. lia.
  - cbn [app Backup.findKey List.length]. rewrite IH.
    destruct (col 0 r) as [s | | | |]; try (f_equal; lia).
    destruct (String.eqb_spec s key) as [-> | _]; [contradiction | f_equal; lia].
Qed.

Lemma readKey_found (key : string) (pre : list Row) (row : Row) (post : list Row) :
  without key pre -> col 0 row = VString key ->
  Backup.readKey key (pre ++ row :: post) = Some (col 1 row).
Proof.
  intros Hpre Hrow. induction Hpre as [| r pre Hr _ IH].
  - cbn [app Backup.readKey]. rewrite Hrow, String.eqb_refl. reflexivity.
  - cbn [app Backup.readKey]. rewrite IH.
    destruct (col 0 r) as [s | | | |]; try reflexivity.
    destruct (String.eqb_spec s key) as [-> | _]; [contradiction | reflexivity].
Qed.

(** A row that holds another key is invisible to the search. *)
Lemma readKey_skip (key other : string) (pre : list Row) (row : Row) (post : list Row) :
  col 0 row = VString other -> other <> key ->
  Backup.readKey key (pre ++ row :: post) = Backup.readKey key (pre ++ post).
Proof.
  intros Hrow Hne. induction pre as [| r pre IH].
  - cbn [app Backup.readKey]. rewrite Hrow.
    destruct (String.eqb_spec other key); [contradiction | reflexivity].
  - cbn [app Backup.readKey]. rewrite IH. reflexivity.
Qed.

(** Writing a cell of a row below the header. *)
Lemma setCell_middle (column : nat) (v : Cell) (header : Row) (pre : list Row) (row : Row)
    (post : list Row) :
  setCell (1 + List.length pre + 1) column v (header :: pre ++ row :: post)
  = header :: pre ++ setCol (column - 1) v row :: post.
Proof.
  unfold setCell.
  replace (1 + List.length pre + 1 - List.length (header :: pre ++ row :: post))%nat
    with 0%nat by (cbn [List.length]; rewrite length_app; cbn [List.length]; lia).
  cbn [replicate]. rewrite app_nil_r.
  replace (1 + List.length pre + 1 - 1)%nat with (S (List.length pre)) by lia.
  change (alter (setCol (column - 1) v) (S (List.length pre)) (header :: pre ++ row :: post))
    with (header :: alter (setCol (column - 1) v) (List.length pre) (pre ++ row :: post)).
  f_equal. induction pre as [| r pre IH]; [reflexivity |].
  change (alter (setCol (column - 1) v) (List.length (r :: pre)) ((r :: pre) ++ row :: post))
    with (r :: alter (setCol (column - 1) v) (List.length pre) (pre ++ row :: post)).
  now rewrite IH.
Qed.

(** The backup row after the address [url] is written into it. *)
Local Abbreviation stamped url row :=
  (setCol 2 (VString Backup.note) (setCol 1 (VString url) row)).

Lemma stamped_cells (url key : string) (row : Row) :
  col 0 row = VString key ->
  col 0 (stamped url row) = VString key /\ col 1 (stamped url row) = VString url.
Proof.
  destruct row as [| c0 [| c1 [| c2 rest]]]; intros H0; [discriminate H0 | | |];
    split; first [exact H0 | reflexivity].
Qed.

Lemma stamped_again (url1 url2 key : string) (row : Row) :
  col 0 row = VString key ->
  stamped url2 (stamped url1 row) = stamped url2 row.
Proof.
  destruct row as [| c0 [| c1 [| c2 rest]]]; intros H0; [discriminate H0 | | |]; reflexivity.
Qed.

Lemma setCol_first (v : Cell) (key : string) (row : Row) :
  col 0 row = VString key ->
  col 0 (setCol 1 v row) = VString key /\ col 1 (setCol 1 v row) = v.
Proof.
  destruct row as [| c0 [| c1 rest]]; intros H0; [discriminate H0 | |];
    split; first [exact H0 | reflexivity].
Qed.

Lemma update_url_absent (url : string) (book : gmap string (list Row)) (values : list Row) :
  book !! "Variables" = Some values ->
  without Backup.urlKey (tail values) ->
  Backup.updateAutomationInfoSheetBackupRow url book
  = <["Variables" :=
        values ++ [[VString Backup.urlKey; VString url; VString Backup.note]]]> book.
Proof.
  intros Hbook Hnone. unfold Backup.updateAutomationInfoSheetBackupRow.
  rewrite Hbook, findKey_none by exact Hnone. reflexivity.
Qed.

Lemma update_url_found (url : string) (book : gmap string (list Row)) (header : Row)
    (pre : list Row) (row : Row) (post : list Row) :
  book !! "Variables" = Some (header :: pre ++ row :: post) ->
  without Backup.urlKey pre -> col 0 row = VString Backup.urlKey ->
  Backup.updateAutomationInfoSheetBackupRow url book
  = <["Variables" := header :: pre ++ stamped url row :: post]> book.
Proof.
  intros Hbook Hpre Hrow. unfold Backup.updateAutomationInfoSheetBackupRow.
  rewrite Hbook. cbn [tail]. rewrite findKey_found by assumption.
  rewrite !setCell_middle. reflexivity.
Qed.

Lemma update_sheets_absent (contactSheets : list (string * nat))
    (book : gmap string (list Row)) (values : list Row) :
  book !! "Variables" = Some values ->
  without Backup.sheetsKey (tail values) ->
  Backup.updateContactSheetsBackupRow stringifySheets contactSheets book
  = <["Variables" :=
        values ++ [[VString Backup.sheetsKey; VString (stringifySheets contactSheets)]]]> book.
Proof.
  intros Hbook Hnone. unfold Backup.updateContactSheetsBackupRow.
  rewrite Hbook, findKey_none by exact Hnone. reflexivity.
Qed.

Lemma update_sheets_found (contactSheets : list (string * nat))
    (book : gmap string (list Row)) (header : Row)
    (pre : list Row) (row : Row) (post : list Row) :
  book !! "Variables" = Some (header :: pre ++ row :: post) ->
  without Backup.sheetsKey pre -> col 0 row = VString Backup.sheetsKey ->
  Backup.updateContactSheetsBackupRow stringifySheets contactSheets book
  = <["Variables" :=
        header :: pre ++ setCol 1 (VString (stringifySheets contactSheets)) row :: post]> book.
Proof.
  intros Hbook Hpre Hrow. unfold Backup.updateContactSheetsBackupRow.
  rewrite Hbook. cbn [tail]. rewrite findKey_found by assumption.
  rewrite setCell_middle. reflexivity.
Qed.

(** X23. Reading back the backup address: after
    [updateAutomationInfoSheetBackupRow(url)] the address read from the
    Variables tab is [url], except on a tab with no row at all, where the
    backup row is appended as the first row, which the search passes
    over. *)
Theorem backup_url_read_back (url : string) (book : gmap string (list Row))
    (values : list Row) :
  book !! "Variables" = Some values ->
  Backup.getCachedBackupAutomationInfoSheetURL
    (Backup.updateAutomationInfoSheetBackupRow url book)
  = match values with
    | [] => None
    | _ :: _ => Some (VString url)
    end.
Proof.
  intros Hbook. unfold Backup.getCachedBackupAutomationInfoSheetURL.
  destruct (rows_split Backup.urlKey (tail values))
    as [Hnone | (pre & row & post & Htail & Hpre & Hrow)].
  - rewrite (update_url_absent _ _ _ Hbook Hnone), lookup_insert_eq.
    destruct values as [| header rows]; [reflexivity |].
    cbn [tail app] in *. now rewrite readKey_found.
  - destruct values as [| header rows]; [destruct pre; discriminate Htail |].
    cbn [tail] in Htail. subst rows.
    rewrite (update_url_found _ _ _ _ _ _ Hbook Hpre Hrow), lookup_insert_eq.
    cbn [tail]. destruct (stamped_cells url _ _ Hrow) as [H0 H1].
    rewrite readKey_found by assumption. now rewrite H1.
Qed.

(** X24. On a Variables tab with a header row, writing the backup address
    twice leaves what the second write alone would leave: the row is
    found again and overwritten, never added a second time. *)
Theorem backup_url_last_write_wins (url1 url2 : string) (book : gmap string (list Row))
    (values : list Row) :
  book !! "Variables" = Some values ->
  values <> [] ->
  Backup.updateAutomationInfoSheetBackupRow url2
    (Backup.updateAutomationInfoSheetBackupRow url1 book)
  = Backup.updateAutomationInfoSheetBackupRow url2 book.
Proof.
  intros Hbook Hne. destruct values as [| header rows]; [contradiction |].
  destruct (rows_split Backup.urlKey rows)
    as [Hnone | (pre & row & post & -> & Hpre & Hrow)].
  - rewrite (update_url_absent url1 _ _ Hbook Hnone), (update_url_absent url2 _ _ Hbook Hnone).
    cbn [app].
    rewrite (update_url_found url2 _ header rows
               [VString Backup.urlKey; VString url1; VString Backup.note] []);
      [| apply lookup_insert_eq | exact Hnone | reflexivity].
    rewrite insert_insert_eq. reflexivity.
  - rewrite (update_url_found url1 _ _ _ _ _ Hbook Hpre Hrow),
            (update_url_found url2 _ _ _ _ _ Hbook Hpre Hrow).
    destruct (stamped_cells url1 _ _ Hrow) as [H0 _].
    rewrite (update_url_found url2 _ header pre (stamped url1 row) post);
      [| apply lookup_insert_eq | exact Hpre | exact H0].
    rewrite insert_insert_eq, (stamped_again _ _ _ _ Hrow). reflexivity.
Qed.

(** X25. The two backup rows do not disturb each other: saving the
    contact sheets leaves the backup address as it was read before, and
    saving the address leaves the saved contact sheets. *)
Theorem backup_rows_are_independent (url : string) (contactSheets : list (string * nat))
    (book : gmap string (list Row)) :
  Backup.getCachedBackupAutomationInfoSheetURL
    (Backup.updateContactSheetsBackupRow stringifySheets contactSheets book)
  = Backup.getCachedBackupAutomationInfoSheetURL book /\
  Backup.getContactSheetsBackupRow E parseSheets
    (Backup.updateAutomationInfoSheetBackupRow url book)
  = Backup.getContactSheetsBackupRow E parseSheets book.
Proof.
  assert (Hkeys : Backup.sheetsKey <> Backup.urlKey) by discriminate.
  assert (Hkeys' : Backup.urlKey <> Backup.sheetsKey) by discriminate.
  destruct (book !! "Variables") as [values |] eqn:Hbook.
  2:{ unfold Backup.updateContactSheetsBackupRow, Backup.updateAutomationInfoSheetBackupRow.
      rewrite Hbook. split; reflexivity. }
  split.
  - unfold Backup.getCachedBackupAutomationInfoSheetURL. rewrite Hbook.
    destruct (rows_split Backup.sheetsKey (tail values))
      as [Hnone | (pre & row & post & Htail & Hpre & Hrow)].
    + rewrite (update_sheets_absent _ _ _ Hbook Hnone), lookup_insert_eq.
      destruct values as [| header rows]; [reflexivity |]. cbn [tail app].
      rewrite (readKey_skip _ Backup.sheetsKey) by (assumption || reflexivity).
      now rewrite app_nil_r.
    + destruct values as [| header rows]; [destruct pre; discriminate Htail |].
      cbn [tail] in Htail. subst rows.
      rewrite (update_sheets_found _ _ _ _ _ _ Hbook Hpre Hrow), lookup_insert_eq.
      cbn [tail].
      destruct (setCol_first (VString (stringifySheets contactSheets)) _ _ Hrow) as [H0 _].
      rewrite (readKey_skip _ Backup.sheetsKey _ _ _ H0 Hkeys).
      now rewrite (readKey_skip _ Backup.sheetsKey _ _ _ Hrow Hkeys).
  - unfold Backup.getContactSheetsBackupRow. rewrite Hbook.
    destruct (rows_split Backup.urlKey (tail values))
      as [Hnone | (pre & row & post & Htail & Hpre & Hrow)].
    + rewrite (update_url_absent _ _ _ Hbook Hnone), lookup_insert_eq.
      destruct values as [| header rows]; [reflexivity |]. cbn [tail app].
      rewrite (readKey_skip _ Backup.urlKey) by (assumption || reflexivity).
      now rewrite app_nil_r.
    + destruct values as [| header rows]; [destruct pre; discriminate Htail |].
      cbn [tail] in Htail. subst rows.
      rewrite (update_url_found _ _ _ _ _ _ Hbook Hpre Hrow), lookup_insert_eq.
      cbn [tail]. destruct (stamped_cells url _ _ Hrow) as [H0 _].
      rewrite (readKey_skip _ Backup.urlKey _ _ _ H0 Hkeys').
      now rewrite (readKey_skip _ Backup.urlKey _ _ _ Hrow Hkeys').
Qed.

(** X26. Reading back the contact sheets: on a Variables tab with a
    header row, what [updateContactSheetsBackupRow] saves is what
    [getContactSheetsBackupRow] returns, provided [JSON.parse] undoes
    [JSON.stringify] on the saved list. *)
Theorem contact_sheets_backup_read_back (contactSheets : list (string * nat))
    (book : gmap string (list Row)) (values : list Row) :
  book !! "Variables" = Some values ->
  values <> [] ->
  parseSheets (stringifySheets contactSheets) = Ok contactSheets ->
  Backup.getContactSheetsBackupRow E parseSheets
    (Backup.updateContactSheetsBackupRow stringifySheets contactSheets book)
  = Some contactSheets.
Proof.
  intros Hbook Hne Hparse. destruct values as [| header rows]; [contradiction |].
  unfold Backup.getContactSheetsBackupRow.
  destruct (rows_split Backup.sheetsKey rows)
    as [Hnone | (pre & row & post & -> & Hpre & Hrow)].
  - rewrite (update_sheets_absent _ _ _ Hbook Hnone), lookup_insert_eq.
    cbn [tail app]. rewrite readKey_found by (assumption || reflexivity).
    change (col 1 [VString Backup.sheetsKey; VString (stringifySheets contactSheets)])
      with (VString (stringifySheets contactSheets)).
    cbn [toStr]. now rewrite Hparse.
  - rewrite (update_sheets_found _ _ _ _ _ _ Hbook Hpre Hrow), lookup_insert_eq.
    cbn [tail].
    destruct (setCol_first (VString (stringifySheets contactSheets)) _ _ Hrow) as [H0 H1].
    rewrite readKey_found by assumption. rewrite H1. cbn [toStr]. now rewrite Hparse.
Qed.

End BackupFacts.

(** ** The children of the Hearing Tracker *)

Section ChildrenFacts.

(** A row that stops the reading: a case number and, in the names cell,
    something other than text that counts as filled. *)
Local Abbreviation notText row :=
  (truthy (col 0 row) = true /\ truthy (col 1 row) = true /\
   forall s : string, col 1 row <> VString s).

Lemma splitNames_filled (s name : string) :
  name ∈ Children.splitNames s -> truthy (VString s) = true.
Proof.
  destruct s as [| c s]; [| reflexivity].
  intros Hin. vm_compute in Hin. inversion Hin.
Qed.

Lemma collect_members (values : list Row) :
  forall children, Children.collect values = Ok children ->
  forall name caseNumber,
    (name, caseNumber) ∈ children <->
    exists row s,
      row ∈ values /\ col 0 row = caseNumber /\ truthy caseNumber = true /\
      col 1 row = VString s /\ name ∈ Children.splitNames s.
Proof.
  induction values as [| row rest IH]; intros children Hcollect name caseNumber.
  - injection Hcollect as <-. split; [intros H; inversion H |].
    intros (row & s & Hrow & _). inversion Hrow.
  - cbn [Children.collect] in Hcollect.
    destruct (truthy (col 0 row) && truthy (col 1 row)) eqn:Hfilled.
    + apply andb_true_iff in Hfilled as [Hcase Hnames].
      destruct (col 1 row) as [s | | | |] eqn:H1; try discriminate Hcollect.
      destruct (Children.collect rest) as [more |] eqn:Hrest; [| discriminate Hcollect].
      injection Hcollect as <-. rewrite elem_of_app, (IH more eq_refl), list_elem_of_fmap.
      split.
      * intros [(n & Heq & Hn) | (r & s' & Hr & Hrest')].
        -- injection Heq as -> ->. exists row, s. repeat split; auto. left.
        -- exists r, s'. split; [right; tauto | tauto].
      * intros (r & s' & Hr & H0 & Htruthy & Hs' & Hn).
        apply elem_of_cons in Hr as [-> | Hr].
        -- left. exists name. rewrite H1 in Hs'. injection Hs' as <-.
           split; [congruence | exact Hn].
        -- right. exists r, s'. auto.
    + rewrite (IH children Hcollect). split.
      * intros (r & s & Hr & Hrest'). exists r, s. split; [right; exact Hr | exact Hrest'].
      * intros (r & s & Hr & H0 & Htruthy & Hs & Hn).
        apply elem_of_cons in Hr as [-> | Hr]; [| exists r, s; auto].
        rewrite H0, Htruthy, Hs, (splitNames_filled s name Hn) in Hfilled.
        discriminate Hfilled.
Qed.

Lemma collect_clean (values : list Row) :
  forall children, Children.collect values = Ok children ->
  Forall (fun child => Contact.cleanEntry child.1) children.
Proof.
  induction values as [| row rest IH]; intros children Hcollect.
  - injection Hcollect as <-. constructor.
  - cbn [Children.collect] in Hcollect.
    destruct (truthy (col 0 row) && truthy (col 1 row)); [| now apply IH].
    destruct (col 1 row) as [s | | | |]; try discriminate Hcollect.
    destruct (Children.collect rest) as [more |]; [| discriminate Hcollect].
    injection Hcollect as <-. apply Forall_app. split; [| now apply IH].
    apply Forall_fmap. exact (parse_clean s).
Qed.

Lemma collect_raises (values : list Row) :
  (exists msg, Children.collect values = Throw msg) <->
  Exists (fun row => notText row) values.
Proof.
  induction values as [| row rest IH].
  - split; [intros (msg & H); discriminate H | intros H; inversion H].
  - cbn [Children.collect]. rewrite Exists_cons, <- IH.
    destruct (truthy (col 0 row) && truthy (col 1 row)) eqn:Hfilled.
    + apply andb_true_iff in Hfilled as [Hcase Hnames].
      destruct (col 1 row) as [s | | | |] eqn:H1.
      * destruct (Children.collect rest) as [more | msg0].
        -- split; [intros (msg & H); discriminate H |].
           intros [(_ & _ & Hno) | (msg & H)]; [destruct (Hno s eq_refl) | discriminate H].
        -- split; [eauto |]. eauto.
      * split; [| eauto]. intros _. left. repeat split; auto; discriminate.
      * split; [| eauto]. intros _. left. repeat split; auto; discriminate.
      * split; [| eauto]. intros _. left. repeat split; auto; discriminate.
      * discriminate Hnames.
    + split; [auto |]. intros [(Hcase & Hnames & _) | H]; [| exact H].
      rewrite Hcase, Hnames in Hfilled. discriminate Hfilled.
Qed.

(** X27. The children read from the Hearing Tracker: a child with a name
    and a case number is returned exactly when some row below the header
    holds that case number, counted as filled, and a text of names that
    lists the name; every name returned is trimmed, non-empty and free of
    commas. *)
Theorem children_are_the_listed_names (tabs : list Sheet) (hearingTracker : Sheet)
    (children : list (string * Cell)) :
  Children.getSheetByName "Hearing Tracker" tabs = Some hearingTracker ->
  Children.getChildrenArray tabs = Ok children ->
  (forall name caseNumber,
     (name, caseNumber) ∈ children <->
     exists row s,
       row ∈ tail (sheetData hearingTracker) /\
       Children.rangeCell 1 row = caseNumber /\ truthy caseNumber = true /\
       Children.rangeCell 2 row = VString s /\ name ∈ Children.splitNames s) /\
  Forall (fun child => Contact.cleanEntry child.1) children.
Proof.
  unfold Children.getChildrenArray. intros -> Hget.
  destruct (List.length (sheetData hearingTracker) - 1 <? 1)%nat; [discriminate Hget |].
  split; [| exact (collect_clean _ _ Hget)].
  intros name caseNumber. rewrite (collect_members _ _ Hget). split.
  - intros (row' & s & Hrow' & H0 & Htruthy & H1 & Hn).
    apply list_elem_of_fmap in Hrow' as (row & -> & Hrow).
    exists row, s. auto.
  - intros (row & s & Hrow & H0 & Htruthy & H1 & Hn).
    exists [Children.rangeCell 1 row; Children.rangeCell 2 row], s.
    split; [apply list_elem_of_fmap; eauto | auto].
Qed.

(** X28. [getChildrenArray] raises exactly when there is no Hearing
    Tracker tab, when the tab has no row below the header, or when some
    row with a case number holds, in the names cell, a number other than
    0, a date or a checked box instead of text. *)
Theorem children_reading_raises_iff (tabs : list Sheet) :
  (exists msg, Children.getChildrenArray tabs = Throw msg) <->
  match Children.getSheetByName "Hearing Tracker" tabs with
  | None => True
  | Some hearingTracker =>
      (List.length (sheetData hearingTracker) <= 1)%nat \/
      exists row,
        row ∈ tail (sheetData hearingTracker) /\
        truthy (Children.rangeCell 1 row) = true /\
        truthy (Children.rangeCell 2 row) = true /\
        forall s, Children.rangeCell 2 row <> VString s
  end.
Proof.
  unfold Children.getChildrenArray.
  destruct (Children.getSheetByName "Hearing Tracker" tabs) as [hearingTracker |];
    [| split; eauto].
  destruct (List.length (sheetData hearingTracker) - 1 <? 1)%nat eqn:Hrows.
  - apply Nat.ltb_lt in Hrows. split; [intros _; left; lia | eauto].
  - apply Nat.ltb_ge in Hrows. rewrite collect_raises, Exists_exists. split.
    + intros (row' & Hrow' & Hbad). right.
      apply list_elem_of_fmap in Hrow' as (row & -> & Hrow). exists row. tauto.
    + intros [Hshort | (row & Hrow & Hbad)]; [lia |].
      exists [Children.rangeCell 1 row; Children.rangeCell 2 row].
      split; [apply list_elem_of_fmap; eauto | exact Hbad].
Qed.

End ChildrenFacts.

(** ** The utilities variant of the loader *)

Section UtilitiesFacts.

Variable E : Env.
Variable J : Config.Json.


End UtilitiesFacts.

(** ** Worked instances *)

Lemma daysRemainingInMonth_range_witness :
  0 <= Contact.daysRemainingInMonth (Demo.env true) Demo.lastFriday <= 30.
Proof.
  apply (daysRemainingInMonth_range (Demo.env true) (-18000000)).
  - split; reflexivity.
  - vm_compute. intros [_ Hyear]. apply Hyear. reflexivity.
Defined.

Lemma daysRemainingInMonth_by_date_witness :
  Contact.daysRemainingInMonth (Demo.env true) Demo.lastFriday
  = Calendar.monthLength (JsDate.getFullYear Demo.zone Demo.lastFriday)
      (JsDate.getMonth Demo.zone Demo.lastFriday)
    - JsDate.getDate Demo.zone Demo.lastFriday.
Proof.
  apply (daysRemainingInMonth_by_date (Demo.env true) (-18000000)).
  - split; reflexivity.
  - vm_compute. intros [_ Hyear]. apply Hyear. reflexivity.
Defined.

Lemma summary_gap_characterised_witness :
  Summary.tierOf (Demo.env true) (Demo.at_ 2024 3 11 8) (Demo.at_ 2024 3 10 12)
  = Summary.NoTier.
Proof.
  apply (summary_gap_characterised (Demo.env true) (-18000000) (Demo.at_ 2024 3 11 8)
           (Demo.at_ 2024 3 10 12)).
  - split; reflexivity.
  - right. split; vm_compute; reflexivity.
Defined.

Lemma lookup_of_non_text_witness :
  Directory.getWorkerInfoByName (Demo.env true) (VNumber 7)
  = Throw "TypeError: name.trim is not a function".
Proof.
  rewrite (lookup_of_non_text (Demo.env true) (VNumber 7)); [reflexivity |].
  intros n. discriminate.
Defined.

Lemma summary_attempt_iff_tier_witness :
  attempts (Summary.processRow (Demo.env true) (Demo.at_ 2024 3 12 9) Demo.dueRow
              (Demo.world [])).2 = 1%nat.
Proof.
  rewrite (summary_attempt_iff_tier (Demo.env true) (Demo.at_ 2024 3 12 9)
             (Demo.at_ 2024 3 10 0) Demo.dueRow "Doe" (Demo.world []));
    vm_compute; reflexivity.
Defined.

Lemma skipped_rows_have_no_effect_witness :
  Summary.processRows (Demo.env true) (Demo.at_ 2024 3 12 9) [Sample.submittedRow]
    (Demo.world [])
  = (Ok tt, Demo.world []).
Proof.
  apply skipped_rows_have_no_effect. constructor; [| constructor].
  exists "Doe". split; [vm_compute; reflexivity | left; vm_compute; reflexivity].
Defined.

Lemma non_text_case_name_aborts_witness :
  Summary.processRows (Demo.env true) (Demo.at_ 2024 3 12 9)
    ([Sample.submittedRow] ++ Sample.numberNameRow :: [Demo.dueRow]) (Demo.world [])
  = (Throw "TypeError: fullName.includes is not a function", Demo.world []).
Proof.
  apply non_text_case_name_aborts;
    [vm_compute; reflexivity | vm_compute; reflexivity
    | intros s H; vm_compute in H; discriminate H].
Defined.

Lemma lastName_is_text_before_comma_witness :
  Summary.lastNameOf (VString "Doe, Jane") = Ok "Doe" /\
  Summary.lastNameOf (VString "Doe") = Ok "Doe".
Proof.
  exact (lastName_is_text_before_comma "Doe" " Jane" eq_refl).
Defined.

Lemma run_extends_completed_months_witness :
  exists added : list string,
    ["January"]
    = Contact.parseCompleteMonths (CONTACT_COMPLETE_MONTHS (Demo.env true)) ++ added.
Proof.
  destruct (run_extends_completed_months (Demo.env true) Demo.monday
              (Demo.world [Demo.tab "January Contacts" [Demo.enteredRow]]) ["January"])
    as (added & Hadded & _);
    [vm_compute; reflexivity | vm_compute; reflexivity |].
  exists added. exact Hadded.
Defined.

Lemma non_text_seen_by_aborts_witness :
  Contact.scanRows (Demo.env true) [Sample.numberSeenByRow; Demo.januaryRow] 1
    Demo.wednesday false 0 0
    (Demo.world [Demo.tab "January Contacts" [Sample.numberSeenByRow; Demo.januaryRow]])
  = (Throw "TypeError: name.trim is not a function",
     Demo.world [Demo.tab "January Contacts" [Sample.numberSeenByRow; Demo.januaryRow]]).
Proof.
  apply (non_text_seen_by_aborts (Demo.env true) Sample.numberSeenByRow [Demo.januaryRow] 1
           Demo.wednesday false 0 0
           (Demo.world [Demo.tab "January Contacts" [Sample.numberSeenByRow; Demo.januaryRow]])
           (Demo.at_ 2024 1 3 0));
    [vm_compute; reflexivity | intros s H; vm_compute in H; discriminate H
    | vm_compute; reflexivity].
Defined.


Lemma variables_tab_last_row_wins_witness :
  Config.loadRows Sample.env (tail Sample.variablesTab) ∅ !! "ssmName" = Some "Lee Park" <->
  "ssmName" <> "__proto__" /\
  exists pre row post,
    tail Sample.variablesTab = pre ++ row :: post /\
    Config.entryOf Sample.env row = Some ("ssmName", "Lee Park") /\
    Forall (fun r => forall v', Config.entryOf Sample.env r <> Some ("ssmName", v')) post.
Proof.
  exact (proj1 (variables_tab_last_row_wins Sample.env Sample.variablesTab
                  (Config.loadRows Sample.env (tail Sample.variablesTab) ∅)
                  eq_refl eq_refl "ssmName" "Lee Park")).
Defined.

Lemma ensured_variables_hold_required_keys_witness :
  Forall (fun k => exists v,
            Config.loadRows Sample.env (tail Sample.variablesTab) ∅ !! k = Some v /\
            Str.isEmpty v = false)
    ["caseTrackerUrl"; "ssmName"].
Proof.
  apply (ensured_variables_hold_required_keys Sample.env Sample.json
           ["caseTrackerUrl"; "ssmName"] Sample.stores
           (Config.ensureGlobalVariables Sample.env Sample.json
              ["caseTrackerUrl"; "ssmName"] Sample.stores).2).
  vm_compute. reflexivity.
Defined.



Lemma refreshed_variables_are_served_again_witness :
  Config.getGlobalVariables Sample.env Sample.json
    (Config.refreshGlobalVariablesCache Sample.env Sample.json Sample.stores).2
  = (Ok (Config.loadRows Sample.env (tail Sample.variablesTab) ∅),
     (Config.refreshGlobalVariablesCache Sample.env Sample.json Sample.stores).2).
Proof.
  refine (proj1 (refreshed_variables_are_served_again Sample.env Sample.json Sample.stores
                   (Config.refreshGlobalVariablesCache Sample.env Sample.json Sample.stores).2
                   (Config.loadRows Sample.env (tail Sample.variablesTab) ∅) _ _ _ _));
    [ vm_compute; reflexivity
    | intros H; vm_compute in H; discriminate H
    | vm_compute; reflexivity
    | vm_compute; reflexivity ].
Defined.

Lemma backup_url_read_back_witness :
  Backup.getCachedBackupAutomationInfoSheetURL
    (Backup.updateAutomationInfoSheetBackupRow "https://example.org/info" Sample.book)
  = Some (VString "https://example.org/info").
Proof.
  apply (backup_url_read_back "https://example.org/info" Sample.book Sample.variablesTab).
  vm_compute. reflexivity.
Defined.

Lemma backup_url_last_write_wins_witness :
  Backup.updateAutomationInfoSheetBackupRow "https://example.org/new"
    (Backup.updateAutomationInfoSheetBackupRow "https://example.org/info" Sample.book)
  = Backup.updateAutomationInfoSheetBackupRow "https://example.org/new" Sample.book.
Proof.
  apply (backup_url_last_write_wins "https://example.org/info" "https://example.org/new"
           Sample.book Sample.variablesTab);
    [vm_compute; reflexivity | discriminate].
Defined.

Lemma contact_sheets_backup_read_back_witness :
  Backup.getContactSheetsBackupRow Sample.env Sample.parseSheets
    (Backup.updateContactSheetsBackupRow Sample.stringifySheets
       [("January Contacts", 4%nat); ("February Contacts", 12%nat)] Sample.book)
  = Some [("January Contacts", 4%nat); ("February Contacts", 12%nat)].
Proof.
  apply (contact_sheets_backup_read_back Sample.env Sample.stringifySheets Sample.parseSheets
           [("January Contacts", 4%nat); ("February Contacts", 12%nat)]
           Sample.book Sample.variablesTab);
    [vm_compute; reflexivity | discriminate | vm_compute; reflexivity].
Defined.

Lemma children_are_the_listed_names_witness :
  (forall name caseNumber,
     (name, caseNumber)
       ∈ [("Ann Doe", VString "24-JA-17"); ("Ben Doe", VString "24-JA-17");
          ("Cal Roe", VNumber 2419)] <->
     exists row s,
       row ∈ tail (sheetData Sample.hearingTracker) /\
       Children.rangeCell 1 row = caseNumber /\ truthy caseNumber = true /\
       Children.rangeCell 2 row = VString s /\ name ∈ Children.splitNames s) /\
  Forall (fun child => Contact.cleanEntry child.1)
    [("Ann Doe", VString "24-JA-17"); ("Ben Doe", VString "24-JA-17");
     ("Cal Roe", VNumber 2419)].
Proof.
  apply (children_are_the_listed_names [Sample.hearingTracker] Sample.hearingTracker);
    vm_compute; reflexivity.
Defined.

